(** * Book review application: the Express/Mongoose backend

    A shallow embedding of the backend of the book review application
    (server.js, middleware/auth.js, routes/reviews.js, routes/auth.js) and
    the properties of its review aggregation, validation, authentication
    and listing code.

    Conventions of the embedding.
    - Ratings, counts and sums of ratings are integers ([Z]).  A JavaScript
      number that the code computes by division is a [JS.number]: the
      double nearest to the quotient, as a rational, or one of the three
      non-finite values.  The integers up to 2^53 - 1 are doubles; beyond
      them the integers of the embedding are not the numbers of the code,
      and the quotient is left as it is.
    - A string is the text in UTF-8, byte by byte; validator's [trim] and
      [isLength] and the regular expressions see its characters.
    - A MongoDB collection is the list of its documents in natural
      (insertion) order; an ObjectId is a natural number; a Date is its
      number of milliseconds ([Z]).
    - A handler is a function from the state of the server to a new state
      and an early response or a value ([M]); [throw] is what the handler's
      try/catch turns into a 500 response.  A [Request] is the request as
      the routes see it, with the fields of its parsed body; [server] takes
      it together with what express.json() has made of the body, and [app]
      is the server for a body that has been parsed.
    - jsonwebtoken, bcryptjs, validator's e-mail functions and the regular
      expression engine are parameters of the development ([Section]
      variables). *)

From Stdlib Require Import ZArith QArith Qround Qabs List String Ascii Bool Lia.
From Stdlib Require Import Sorted Permutation.
Import ListNotations.

Close Scope Q_scope.
Local Open Scope string_scope.
Local Open Scope list_scope.

Set Warnings "-register-all".

(** ** JavaScript values and primitives *)

Module JS.

(** IEEE numbers as far as the code can tell them apart: a finite value is
    a double, given as the rational it is, and a division by zero gives
    NaN or an infinity. *)
Inductive number : Type :=
| NaN
| PosInf
| NegInf
| Fin (q : Q).

(** [Number.isSafeInteger]: the integers up to 2^53 - 1, which are doubles. *)
Definition isSafeInteger (x : Z) : bool := (Z.abs x <? 2 ^ 53)%Z.

(** The integer nearest to [num / den], the even one when two are equally
    near, for [0 <= num] and [0 < den]. *)
Definition nearest_even (num den : Z) : Z :=
  let f := (num / den)%Z in
  match (2 * (num mod den) ?= den)%Z with
  | Lt => f
  | Gt => (f + 1)%Z
  | Eq => if Z.even f then f else (f + 1)%Z
  end.

(** The exponent of [n / d], for positive [n] and [d]: the [k] with
    [2^k <= n / d < 2^(k+1)]. *)
Definition exponent (n d : Z) : Z :=
  let k := (Z.log2 n - Z.log2 d)%Z in
  if (d * 2 ^ Z.log2 n <=? n * 2 ^ Z.log2 d)%Z then k else (k - 1)%Z.

(** [n / d] for [0 <= n] and [0 < d], rounded to a significand of 53
    bits, to nearest, ties to even: the double nearest to the quotient,
    as long as this is a normal one. *)
Definition round53 (n d : Z) : Q :=
  let k := exponent n d in
  if (k <=? 52)%Z then
    let w := (2 ^ (52 - k))%Z in
    Qred (nearest_even (n * w) d # Z.to_pos w)
  else
    let v := (2 ^ (k - 52))%Z in
    inject_Z (nearest_even n (d * v) * v).

(** [x / y] for integer-valued [x] and [y]: the division of two doubles
    is the double nearest to the exact quotient, which for safe integers
    is a normal one.  Beyond the safe integers [x] and [y] are not the
    doubles of the code, and the quotient is left exact. *)
Definition div (x y : Z) : number :=
  if (y =? 0)%Z then
    if (x =? 0)%Z then NaN
    else if (0 <? x)%Z then PosInf else NegInf
  else if (isSafeInteger x && isSafeInteger y)%bool then
    Fin (inject_Z (Z.sgn x * Z.sgn y) * round53 (Z.abs x) (Z.abs y))%Q
  else Fin (inject_Z x / inject_Z y)%Q.

(** [q] is [x] up to the rounding of a double: the error is at most
    [2^-53] of [x], and there is none when [x] is an integer. *)
Definition rounds (x q : Q) : Prop :=
  (Qabs (q - x) * inject_Z (2 ^ 53) <= Qabs x)%Q /\
  forall z : Z, (x == inject_Z z)%Q -> (q == inject_Z z)%Q.

(** [Math.ceil(x / y)] for a non-negative integer [x] and a positive [y]
    (the only use the code makes of it). *)
Definition Math_ceil (n : number) : option Z :=
  match n with
  | Fin q => Some (Qceiling q)
  | _ => None
  end.

(** [arr.reduce(f, init)]. *)
Definition reduce {A B : Type} (f : B -> A -> B) (init : B) (arr : list A) : B :=
  fold_left f arr init.

(** [s.startsWith(p)]. *)
Definition startsWith (p s : string) : bool := String.prefix p s.

(** [s.split(sep)] for a one-character separator. *)
Fixpoint split (sep : ascii) (s : string) : list string :=
  match s with
  | EmptyString => [EmptyString]
  | String c rest =>
      if Ascii.eqb c sep then EmptyString :: split sep rest
      else match split sep rest with
           | [] => [String c EmptyString]
           | w :: ws => String c w :: ws
           end
  end.

(** A string is the text in UTF-8, byte by byte; a character of one byte
    is an ASCII character. *)
Definition byte (c : ascii) (n : nat) : bool := (nat_of_ascii c =? n)%nat.

(** The characters [\s] matches, by the bytes of their UTF-8: the ASCII
    white space; U+00A0; and U+1680, U+2000 to U+200A, U+2028, U+2029,
    U+202F, U+205F, U+3000 and U+FEFF. *)
Definition is_space (c : ascii) : bool :=
  let n := nat_of_ascii c in
  (n =? 32)%nat || ((9 <=? n)%nat && (n <=? 13)%nat).

Definition is_space2 (c1 c2 : ascii) : bool :=
  byte c1 194 && byte c2 160.

Definition is_space3 (c1 c2 c3 : ascii) : bool :=
  let n := nat_of_ascii c3 in
  (byte c1 225 && byte c2 154 && byte c3 128) ||
  (byte c1 226 && byte c2 128 &&
   (((128 <=? n)%nat && (n <=? 138)%nat) || (n =? 168)%nat || (n =? 169)%nat ||
    (n =? 175)%nat)) ||
  (byte c1 226 && byte c2 129 && byte c3 159) ||
  (byte c1 227 && byte c2 128 && byte c3 128) ||
  (byte c1 239 && byte c2 187 && byte c3 191).

(** [s.replace(/^\s+/, '')]. *)
Fixpoint ltrim (s : string) : string :=
  match s with
  | EmptyString => s
  | String c1 r1 =>
      if is_space c1 then ltrim r1
      else
        match r1 with
        | EmptyString => s
        | String c2 r2 =>
            if is_space2 c1 c2 then ltrim r2
            else
              match r2 with
              | EmptyString => s
              | String c3 r3 => if is_space3 c1 c2 c3 then ltrim r3 else s
              end
        end
  end.

(** Nothing but white space. *)
Definition blank (s : string) : bool :=
  match ltrim s with
  | EmptyString => true
  | _ => false
  end.

(** [rtrim]: drop the white space at the end. *)
Fixpoint rtrim (s : string) : string :=
  match s with
  | EmptyString => EmptyString
  | String c rest => if blank s then EmptyString else String c (rtrim rest)
  end.

(** validator's [trim]. *)
Definition trim (s : string) : string := rtrim (ltrim s).

(** The number of characters as validator's [isLength] counts them: the
    UTF-16 length less the surrogate pairs, that is the number of code
    points, less the variation selectors U+FE0E and U+FE0F. *)
Fixpoint characters (s : string) : nat :=
  match s with
  | EmptyString => 0
  | String c1 r1 =>
      let continuation :=
        ((128 <=? nat_of_ascii c1)%nat && (nat_of_ascii c1 <=? 191)%nat)%bool in
      let here := if continuation then 0 else 1 in
      match r1 with
      | String c2 (String c3 r3) =>
          if (byte c1 239 && byte c2 184 &&
              (byte c3 142 || byte c3 143))%bool
          then characters r3
          else here + characters r1
      | _ => here + characters r1
      end
  end.

Definition is_letter (c : ascii) : bool :=
  let n := nat_of_ascii c in
  ((65 <=? n)%nat && (n <=? 90)%nat) || ((97 <=? n)%nat && (n <=? 122)%nat).

Definition is_digit (c : ascii) : bool :=
  let n := nat_of_ascii c in
  (48 <=? n)%nat && (n <=? 57)%nat.

(** Line terminators: [.] in a regular expression does not match them. *)
Definition is_newline (c : ascii) : bool :=
  let n := nat_of_ascii c in
  (n =? 10)%nat || (n =? 13)%nat.

(** U+2028 and U+2029, the line terminators of three bytes. *)
Definition is_newline3 (c1 c2 c3 : ascii) : bool :=
  byte c1 226 && byte c2 128 && (byte c3 168 || byte c3 169).

(** Does [^.*[class]] match, for a class of ASCII characters: is there a
    character of the class before the first line terminator? *)
Fixpoint dotstar_then (cls : ascii -> bool) (s : string) : bool :=
  match s with
  | EmptyString => false
  | String c rest =>
      if cls c then true
      else if is_newline c then false
      else
        match rest with
        | String c2 (String c3 _) =>
            if is_newline3 c c2 c3 then false else dotstar_then cls rest
        | _ => dotstar_then cls rest
        end
  end.

End JS.

(** ** JSON bodies *)

Definition ObjectId : Type := nat.

Inductive json : Type :=
| JNull
| JNum (n : JS.number)
| JInt (z : Z)
| JStr (s : string)
| JId (i : ObjectId)
| JDate (t : Z)
| JArr (l : list json)
| JObj (fields : list (string * json)).


Definition opt_json {A : Type} (f : A -> json) (o : option A) : json :=
  match o with
  | Some a => f a
  | None => JNull
  end.

(** ** The documents of the three collections (the Mongoose schemas) *)

Module Book.
Record doc : Type := mk {
  _id : ObjectId;
  title : string;
  author : string;
  description : string;
  genre : string;
  publishedDate : option Z;
  coverImage : option string;
  rating : JS.number;
  reviewCount : Z;
  createdAt : Z;
  updatedAt : Z
}.

Definition toJSON (b : doc) : json :=
  JObj [("_id", JId (_id b)); ("title", JStr (title b));
        ("author", JStr (author b)); ("description", JStr (description b));
        ("genre", JStr (genre b));
        ("publishedDate", opt_json JDate (publishedDate b));
        ("coverImage", opt_json JStr (coverImage b));
        ("rating", JNum (rating b)); ("reviewCount", JInt (reviewCount b));
        ("createdAt", JDate (createdAt b)); ("updatedAt", JDate (updatedAt b))].
End Book.

Module Review.
Record doc : Type := mk {
  _id : ObjectId;
  bookId : ObjectId;
  userId : ObjectId;
  rating : Z;
  content : string;
  createdAt : Z;
  updatedAt : Z
}.
End Review.

Module User.
Record doc : Type := mk {
  _id : ObjectId;
  username : string;
  email : string;
  password : string;
  profilePicture : option string;
  bio : option string;
  createdAt : Z
}.

Definition toJSON (u : doc) : json :=
  JObj [("_id", JId (_id u)); ("username", JStr (username u));
        ("email", JStr (email u)); ("password", JStr (password u));
        ("profilePicture", opt_json JStr (profilePicture u));
        ("bio", opt_json JStr (bio u));
        ("createdAt", JDate (createdAt u))].
End User.

(** ** Requests, responses and the state of the server *)

(** The payload of a session token. *)
Record Claims : Type := mkClaims {
  claim_id : ObjectId;
  claim_username : string
}.

(** What a request carries, as far as the routes read it.  A body field of
    type [option string] is [None] when the field is absent; [body_rating]
    is [Some z] when the field is the integer [z] (as a number or as its
    decimal string) and [None] otherwise; an id is [None] when the value
    does not cast to an ObjectId; [query_page] is [None] when the parameter
    is absent and [Some z] when it is the integer [z].  [ip] is the key of
    the rate limiters, [now] is [Date.now()] and [salt] the result of
    [bcrypt.genSalt] while the request is served.  [user] is [req.user]
    and [validationErrors] the (parameter, message) pairs express-validator
    has recorded on the request; both are empty when the request arrives. *)
Record Request : Type := mkRequest {
  ip : string;
  now : Z;
  salt : string;
  authorization : option string;
  params_id : option ObjectId;
  query_page : option Z;
  query_search : string;
  query_genre : string;
  body_bookId : option ObjectId;
  body_rating : option Z;
  body_content : option string;
  body_username : option string;
  body_email : option string;
  body_password : option string;
  user : option Claims;
  validationErrors : list (string * string)
}.

Record Response : Type := mkResponse {
  status : nat;
  body : json
}.

(** One window of a rate limiter's memory store: the hits of a client and
    the time at which they are forgotten. *)
Record Window : Type := mkWindow {
  hits : nat;
  resetTime : Z
}.

Record State : Type := mkState {
  books : list Book.doc;
  reviews : list Review.doc;
  users : list User.doc;
  nextId : ObjectId;
  authLimiterStore : list (string * Window);
  apiLimiterStore : list (string * Window)
}.

(** ** Handlers: state, early responses and exceptions *)

Inductive step (A : Type) : Type :=
| Next (a : A)
| Sent (r : Response).
Arguments Next {A} a.
Arguments Sent {A} r.

Definition M (A : Type) : Type := State -> State * step A.

Definition ret {A : Type} (a : A) : M A := fun s => (s, Next a).

Definition bind {A B : Type} (m : M A) (f : A -> M B) : M B :=
  fun s =>
    match m s with
    | (s', Next a) => f a s'
    | (s', Sent r) => (s', Sent r)
    end.

Notation "x <- m ;; k" := (bind m (fun x => k))
  (at level 61, m at next level, right associativity).
Notation "m ;;; k" := (bind m (fun _ => k))
  (at level 61, right associativity).

Definition gets {A : Type} (f : State -> A) : M A := fun s => (s, Next (f s)).
Definition modify (f : State -> State) : M unit := fun s => (f s, Next tt).

(** [res.status(code).json(body)] followed by the end of the handler. *)
Definition send {A : Type} (code : nat) (b : json) : M A :=
  fun s => (s, Sent (mkResponse code b)).

Definition error_body (msg : string) : json := JObj [("error", JStr msg)].

(** An exception: every handler body is wrapped in
    [try { ... } catch (error) { res.status(500).json({ error: error.message }) }],
    and what the body wrote before the exception stays written. *)
Definition throw {A : Type} (msg : string) : M A := send 500 (error_body msg).

Inductive void : Type := .

Definition Middleware : Type := Request -> M Request.
Definition Handler : Type := Request -> M void.

(** A route: the middlewares in order, each one passing the request on with
    [next()] or answering, and then the handler. *)
Fixpoint chain (ms : list Middleware) (h : Handler) (req : Request) : M void :=
  match ms with
  | [] => h req
  | m :: ms' => req' <- m req ;; chain ms' h req'
  end.

Definition serve (ms : list Middleware) (h : Handler) (req : Request) (s : State)
  : State * Response :=
  match chain ms h req s with
  | (s', Sent r) => (s', r)
  | (_, Next v) => match v with end
  end.

(** ** The Mongoose operations the routes use *)

(** Setters, for the record updates of the code. *)
Definition with_reviews (l : list Review.doc) (s : State) : State :=
  mkState (books s) l (users s) (nextId s) (authLimiterStore s) (apiLimiterStore s).

Definition with_books (l : list Book.doc) (s : State) : State :=
  mkState l (reviews s) (users s) (nextId s) (authLimiterStore s) (apiLimiterStore s).

Definition with_users (l : list User.doc) (s : State) : State :=
  mkState (books s) (reviews s) l (nextId s) (authLimiterStore s) (apiLimiterStore s).

Definition with_nextId (n : ObjectId) (s : State) : State :=
  mkState (books s) (reviews s) (users s) n (authLimiterStore s) (apiLimiterStore s).

(** A fresh ObjectId, as [new Model(...)] draws one. *)
Definition fresh_id : M ObjectId :=
  fun s => (with_nextId (S (nextId s)) s, Next (nextId s)).

(** The value does not cast to an ObjectId: the query throws a CastError. *)
Definition cast_ObjectId (v : option ObjectId) : M ObjectId :=
  match v with
  | Some i => ret i
  | None => throw "Cast to ObjectId failed"
  end.

Definition Review_find (p : Review.doc -> bool) : M (list Review.doc) :=
  gets (fun s => filter p (reviews s)).

Definition Review_findOne (p : Review.doc -> bool) : M (option Review.doc) :=
  gets (fun s => find p (reviews s)).

(** The validators of [reviewSchema], which [save] runs: [bookId], [userId],
    [rating] and [content] are required (an empty string is a missing one)
    and [rating] has [min: 1, max: 5]. *)
Definition Review_validate (rating : option Z) (content : option string)
  : M (Z * string) :=
  match rating, content with
  | Some r, Some c =>
      if ((1 <=? r)%Z && (r <=? 5)%Z && negb (c =? ""))%bool
      then ret (r, c)
      else throw "Review validation failed"
  | _, _ => throw "Review validation failed"
  end.

(** [new Review({ bookId, userId, rating, content })] and [review.save()];
    [createdAt] and [updatedAt] default to [Date.now]. *)
Definition Review_create (bookId userId : ObjectId) (rating : option Z)
    (content : option string) (now : Z) : M Review.doc :=
  id <- fresh_id ;;
  rc <- Review_validate rating content ;;
  let review := Review.mk id bookId userId (fst rc) (snd rc) now now in
  modify (fun s => with_reviews (reviews s ++ [review]) s) ;;;
  ret review.

(** [review.save()] for a document that was loaded from the collection:
    the stored document with its [_id] is replaced. *)
Definition Review_save (review : Review.doc) (rating : option Z)
    (content : option string) (updatedAt : Z) : M Review.doc :=
  rc <- Review_validate rating content ;;
  let review' :=
    Review.mk (Review._id review) (Review.bookId review) (Review.userId review)
              (fst rc) (snd rc) (Review.createdAt review) updatedAt in
  modify (fun s =>
    with_reviews
      (map (fun r => if (Review._id r =? Review._id review)%nat then review' else r)
           (reviews s)) s) ;;;
  ret review'.

(** [review.remove()]. *)
Definition Review_remove (review : Review.doc) : M unit :=
  modify (fun s =>
    with_reviews
      (filter (fun r => negb (Review._id r =? Review._id review)%nat) (reviews s)) s).

(** The second argument of [Book.findByIdAndUpdate]: the fields it names. *)
Record BookUpdate : Type := mkBookUpdate {
  set_rating : option JS.number;
  set_reviewCount : option Z
}.

Definition apply_update (u : BookUpdate) (b : Book.doc) : Book.doc :=
  Book.mk (Book._id b) (Book.title b) (Book.author b) (Book.description b)
          (Book.genre b) (Book.publishedDate b) (Book.coverImage b)
          (match set_rating u with Some r => r | None => Book.rating b end)
          (match set_reviewCount u with Some c => c | None => Book.reviewCount b end)
          (Book.createdAt b) (Book.updatedAt b).

(** Update the first document with this [_id], if there is one. *)
Fixpoint update_by_id (id : ObjectId) (u : BookUpdate) (l : list Book.doc)
  : list Book.doc :=
  match l with
  | [] => []
  | b :: l' =>
      if (Book._id b =? id)%nat then apply_update u b :: l'
      else b :: update_by_id id u l'
  end.

(** [Book.findByIdAndUpdate(id, update)]: the update is cast to the schema
    first, and NaN does not cast to a Number. *)
Definition Book_findByIdAndUpdate (id : ObjectId) (u : BookUpdate) : M unit :=
  match set_rating u with
  | Some JS.NaN => throw "Cast to Number failed"
  | _ => modify (fun s => with_books (update_by_id id u (books s)) s)
  end.

Definition Book_findById (id : ObjectId) (s : State) : option Book.doc :=
  find (fun b => (Book._id b =? id)%nat) (books s).

Definition User_findOne (p : User.doc -> bool) : M (option User.doc) :=
  gets (fun s => find p (users s)).

Definition User_findById (id : ObjectId) : M (option User.doc) :=
  User_findOne (fun u => (User._id u =? id)%nat).

(** A filter [{ field: value }]: no stored string equals an absent value. *)
Definition field_is (stored : string) (value : option string) : bool :=
  match value with
  | Some v => stored =? v
  | None => false
  end.

(** [new User({ username, email, password })] and [user.save()]; the three
    fields are required by [userSchema], and an empty string is a missing
    one. *)
Definition User_create (username email : option string) (password : string) (now : Z)
  : M User.doc :=
  id <- fresh_id ;;
  match username, email with
  | Some username, Some email =>
      if (negb (username =? "") && negb (email =? "") && negb (password =? ""))%bool
      then
        let user := User.mk id username email password None None now in
        modify (fun s => with_users (users s ++ [user]) s) ;;;
        ret user
      else throw "User validation failed"
  | _, _ => throw "User validation failed"
  end.

(** [query.select('-' + field)]: the document without that field. *)
Definition select_without (field : string) (j : json) : json :=
  match j with
  | JObj fields => JObj (filter (fun kv => negb (fst kv =? field)) fields)
  | _ => j
  end.

(** [review.populate('userId', 'username')] and the JSON of the result:
    [userId] becomes the user's [_id] and [username], or null when there
    is no such user. *)
Definition Review_populated (review : Review.doc) : M json :=
  u <- User_findById (Review.userId review) ;;
  ret (JObj [("_id", JId (Review._id review));
             ("bookId", JId (Review.bookId review));
             ("userId", opt_json (fun u => JObj [("_id", JId (User._id u));
                                                 ("username", JStr (User.username u))]) u);
             ("rating", JInt (Review.rating review));
             ("content", JStr (Review.content review));
             ("createdAt", JDate (Review.createdAt review));
             ("updatedAt", JDate (Review.updatedAt review))]).

(** ** middleware/auth.js *)

Definition set_user (c : Claims) (r : Request) : Request :=
  mkRequest (ip r) (now r) (salt r) (authorization r) (params_id r)
            (query_page r) (query_search r) (query_genre r)
            (body_bookId r) (body_rating r) (body_content r)
            (body_username r) (body_email r) (body_password r)
            (Some c) (validationErrors r).

Definition set_body_content (v : option string) (r : Request) : Request :=
  mkRequest (ip r) (now r) (salt r) (authorization r) (params_id r)
            (query_page r) (query_search r) (query_genre r)
            (body_bookId r) (body_rating r) v
            (body_username r) (body_email r) (body_password r)
            (user r) (validationErrors r).

Definition set_body_username (v : option string) (r : Request) : Request :=
  mkRequest (ip r) (now r) (salt r) (authorization r) (params_id r)
            (query_page r) (query_search r) (query_genre r)
            (body_bookId r) (body_rating r) (body_content r)
            v (body_email r) (body_password r)
            (user r) (validationErrors r).

Definition set_body_email (v : option string) (r : Request) : Request :=
  mkRequest (ip r) (now r) (salt r) (authorization r) (params_id r)
            (query_page r) (query_search r) (query_genre r)
            (body_bookId r) (body_rating r) (body_content r)
            (body_username r) v (body_password r)
            (user r) (validationErrors r).

(** Record a validation error of a field when [ok] is false. *)
Definition check (ok : bool) (param msg : string) (r : Request) : Request :=
  if ok then r
  else
    mkRequest (ip r) (now r) (salt r) (authorization r) (params_id r)
              (query_page r) (query_search r) (query_genre r)
              (body_bookId r) (body_rating r) (body_content r)
              (body_username r) (body_email r) (body_password r)
              (user r) (validationErrors r ++ [(param, msg)]).

(** express-validator reads a field through [toString]: an absent field is
    the empty string. *)
Definition toString (v : option string) : string :=
  match v with
  | Some s => s
  | None => ""
  end.

Definition isString (v : option string) : bool :=
  match v with
  | Some _ => true
  | None => false
  end.

(** [isInt({ min, max })]. *)
Definition isInt (min max : Z) (v : option Z) : bool :=
  match v with
  | Some z => ((min <=? z)%Z && (z <=? max)%Z)%bool
  | None => false
  end.

(** [isLength({ min, max })], on the number of characters; no [max] is
    [None]. *)
Definition isLength (min : nat) (max : option nat) (s : string) : bool :=
  ((min <=? JS.characters s)%nat &&
   match max with
   | Some m => (JS.characters s <=? m)%nat
   | None => true
   end)%bool.

(** [matches(/^(?=.*[A-Za-z])(?=.*\d)/)]. *)
Definition matches_letter_and_digit (s : string) : bool :=
  (JS.dotstar_then JS.is_letter s && JS.dotstar_then JS.is_digit s)%bool.

(** A sanitizer writes the field back only when the field is there. *)
Definition sanitize (f : string -> string) (v : option string) : option string :=
  match v with
  | Some s => Some (f s)
  | None => None
  end.

Definition default_message : string := "Invalid value".

(** The memory store of express-rate-limit: the window of each client, by
    its key. *)
Fixpoint lookup (k : string) (l : list (string * Window)) : option Window :=
  match l with
  | [] => None
  | (k', w) :: l' => if k' =? k then Some w else lookup k l'
  end.

Fixpoint insert (k : string) (w : Window) (l : list (string * Window))
  : list (string * Window) :=
  match l with
  | [] => [(k, w)]
  | (k', w') :: l' => if k' =? k then (k, w) :: l' else (k', w') :: insert k w l'
  end.

(** One more hit: in the window of the client while it lasts, in a new
    window of [windowMs] otherwise. *)
Definition increment (windowMs : Z) (now : Z) (old : option Window) : Window :=
  match old with
  | Some w =>
      if (now <? resetTime w)%Z then mkWindow (S (hits w)) (resetTime w)
      else mkWindow 1 (now + windowMs)
  | None => mkWindow 1 (now + windowMs)
  end.

(** [rateLimit({ windowMs, max, message })]: count the request for its
    client and answer 429 with the message once the count is over [max]. *)
Definition rateLimit (windowMs : Z) (max : nat) (message : string)
    (store : State -> list (string * Window))
    (with_store : list (string * Window) -> State -> State) : Middleware :=
  fun req s =>
    let w := increment windowMs (now req) (lookup (ip req) (store s)) in
    let s' := with_store (insert (ip req) w (store s)) s in
    if (max <? hits w)%nat then (s', Sent (mkResponse 429 (JStr message)))
    else (s', Next req).

Definition with_authLimiterStore (l : list (string * Window)) (s : State) : State :=
  mkState (books s) (reviews s) (users s) (nextId s) l (apiLimiterStore s).

Definition with_apiLimiterStore (l : list (string * Window)) (s : State) : State :=
  mkState (books s) (reviews s) (users s) (nextId s) (authLimiterStore s) l.

Definition authLimiter : Middleware :=
  rateLimit (15 * 60 * 1000) 5 "Too many login attempts, please try again later"
            authLimiterStore with_authLimiterStore.

Definition apiLimiter : Middleware :=
  rateLimit (60 * 1000) 100 "Too many requests, please try again later."
            apiLimiterStore with_apiLimiterStore.

(** A validation chain [body(field)...] as a middleware: it runs its
    validators and sanitizers on the request and always calls [next()]. *)
Definition as_middleware (chain_of_field : Request -> Request) : Middleware :=
  fun req => ret (chain_of_field req).

(** [body('rating').isInt({ min: 1, max: 5 }).withMessage(...)]. *)
Definition rating_chain (req : Request) : Request :=
  check (isInt 1 5 (body_rating req)) "rating" "Rating must be between 1 and 5" req.

(** [body('content').isString().trim().isLength({ min: 10, max: 1000 }).withMessage(...)]. *)
Definition content_chain (req : Request) : Request :=
  let req := check (isString (body_content req)) "content" default_message req in
  let req := set_body_content (sanitize JS.trim (body_content req)) req in
  check (isLength 10 (Some 1000) (toString (body_content req))) "content"
        "Review must be between 10 and 1000 characters" req.

Definition reviewValidation : list Middleware :=
  [as_middleware rating_chain; as_middleware content_chain].

(** [body('username').isString().trim().isLength({ min: 3, max: 30 }).withMessage(...)]. *)
Definition username_chain (req : Request) : Request :=
  let req := check (isString (body_username req)) "username" default_message req in
  let req := set_body_username (sanitize JS.trim (body_username req)) req in
  check (isLength 3 (Some 30) (toString (body_username req))) "username"
        "Username must be between 3 and 30 characters" req.

(** [body('password').isString().isLength({ min: 8 }).matches(...).withMessage(...)]. *)
Definition password_chain (req : Request) : Request :=
  let req := check (isString (body_password req)) "password" default_message req in
  let req := check (isLength 8 None (toString (body_password req))) "password"
                   default_message req in
  check (matches_letter_and_digit (toString (body_password req))) "password"
        "Password must be at least 8 characters and contain both letters and numbers"
        req.

(** [body('password').isString()], of the login route. *)
Definition login_password_chain (req : Request) : Request :=
  check (isString (body_password req)) "password" default_message req.

Definition validation_error (e : string * string) : json :=
  JObj [("msg", JStr (snd e)); ("param", JStr (fst e)); ("location", JStr "body")].

Definition validate : Middleware :=
  fun req =>
    match validationErrors req with
    | [] => ret req
    | errors => send 400 (JObj [("errors", JArr (map validation_error errors))])
    end.

(** ** Sample data: a small library, its readers and their requests *)

Module Demo.

(** A verifier that knows two tokens, a signer, a hash and e-mail checks,
    all as simple as can be. *)
Definition jwt_verify (token : string) : option Claims :=
  if token =? "alice-token" then Some (mkClaims 1 "alice")
  else if token =? "bob-token" then Some (mkClaims 2 "bob")
  else None.

Definition jwt_sign (c : Claims) : string := claim_username c ++ "-token".

Definition bcrypt_hash (password salt : string) : string := "hash:" ++ password.

Definition bcrypt_compare (password hash : string) : bool :=
  hash =? "hash:" ++ password.

Fixpoint has_at (s : string) : bool :=
  match s with
  | EmptyString => false
  | String c rest => if Ascii.eqb c "@" then true else has_at rest
  end.

Definition isEmail (s : string) : bool := has_at s.

Definition normalizeEmail (s : string) : string := s.

(** A pattern is a prefix test, and an opening parenthesis alone is not a
    pattern. *)
Definition RegExp_i (pattern : string) : option (string -> bool) :=
  if pattern =? "(" then None else Some (String.prefix pattern).

Definition dune : Book.doc :=
  Book.mk 10 "Dune" "Frank Herbert" "Arrakis" "Science Fiction" None None
          (JS.Fin 0) 0 1000 1000.

Definition emma : Book.doc :=
  Book.mk 11 "Emma" "Jane Austen" "Highbury" "Romance" None None
          (JS.Fin 0) 0 2000 2000.

Definition alice : User.doc :=
  User.mk 1 "alice" "alice@example.org" "hash:wonderland1" None None 500.

Definition bob : User.doc :=
  User.mk 2 "bob" "bob@example.org" "hash:builder22" None None 600.

(** Nobody has reviewed anything yet. *)
Definition fresh : State :=
  mkState [dune; emma] [] [alice; bob] 100 [] [].

Definition alice_on_dune : Review.doc :=
  Review.mk 50 10 1 4 "A long walk in the sand" 3000 3000.

(** Alice has reviewed Dune, and the book says so. *)
Definition reviewed : State :=
  mkState [Book.mk 10 "Dune" "Frank Herbert" "Arrakis" "Science Fiction" None None
                   (JS.Fin 4) 1 1000 1000; emma]
          [alice_on_dune] [alice; bob] 100 [] [].

(** The same reviews, and a book whose count was written by someone else. *)
Definition miscounted : State :=
  mkState [Book.mk 10 "Dune" "Frank Herbert" "Arrakis" "Science Fiction" None None
                   (JS.Fin 4) 7 1000 1000; emma]
          [alice_on_dune] [alice; bob] 100 [] [].

(** Characters of more than one byte: e with an acute accent (U+00E9), the
    no-break space (U+00A0) and the ideographic space (U+3000). *)
Definition e_acute : string :=
  String (ascii_of_nat 195) (String (ascii_of_nat 169) "").

Definition no_break_space : string :=
  String (ascii_of_nat 194) (String (ascii_of_nat 160) "").

Definition ideographic_space : string :=
  String (ascii_of_nat 227) (String (ascii_of_nat 128) (String (ascii_of_nat 128) "")).

(** A request with nothing in it, and the requests of the examples. *)
Definition blank : Request :=
  mkRequest "203.0.113.7" 5000 "salt" None None None "" ""
            None None None None None None None [].

Definition with_auth (header : string) (r : Request) : Request :=
  mkRequest (ip r) (now r) (salt r) (Some header) (params_id r)
            (query_page r) (query_search r) (query_genre r)
            (body_bookId r) (body_rating r) (body_content r)
            (body_username r) (body_email r) (body_password r)
            (user r) (validationErrors r).

Definition review_form (bookId : ObjectId) (rating : Z) (content : string) : Request :=
  mkRequest "203.0.113.7" 5000 "salt" None None None "" ""
            (Some bookId) (Some rating) (Some content) None None None None [].

Definition review_edit (id : ObjectId) (rating : Z) (content : string) : Request :=
  mkRequest "203.0.113.7" 5000 "salt" None (Some id) None "" ""
            None (Some rating) (Some content) None None None None [].

Definition review_delete (id : ObjectId) : Request :=
  mkRequest "203.0.113.7" 5000 "salt" None (Some id) None "" ""
            None None None None None None None [].

Definition user_form (username email password : string) : Request :=
  mkRequest "203.0.113.7" 5000 "salt" None None None "" ""
            None None None (Some username) (Some email) (Some password) None [].

Definition login_form (email password : string) : Request :=
  mkRequest "203.0.113.7" 5000 "salt" None None None "" ""
            None None None None (Some email) (Some password) None [].

Definition listing (page : option Z) (search genre : string) : Request :=
  mkRequest "203.0.113.7" 5000 "salt" None None page search genre
            None None None None None None None [].

End Demo.

(** * The pages of the client *)

(** ** BookListing: the two buttons under the listing *)

Module BookListing.

(** [page] and [totalPages], the two pieces of state the buttons read. *)
Record state : Type := mk {
  page : Z;
  totalPages : Z
}.

Inductive button : Type :=
| ChevronLeft
| ChevronRight.

(** [disabled={page === 1}] and [disabled={page === totalPages}]. *)
Definition disabled (b : button) (st : state) : bool :=
  match b with
  | ChevronLeft => (page st =? 1)%Z
  | ChevronRight => (page st =? totalPages st)%Z
  end.

(** [setPage(p => Math.max(1, p - 1))] and
    [setPage(p => Math.min(totalPages, p + 1))]. *)
Definition onClick (b : button) (st : state) : state :=
  match b with
  | ChevronLeft => mk (Z.max 1 (page st - 1)) (totalPages st)
  | ChevronRight => mk (Z.min (totalPages st) (page st + 1)) (totalPages st)
  end.

(** A button that is disabled does not call its handler. *)
Definition click (st : state) (b : button) : state :=
  if disabled b st then st else onClick b st.

End BookListing.

(** ** The auth context that keeps the session in localStorage *)

Module AuthContext.

(** [localStorage]: the items, latest first. *)
Definition Storage : Type := list (string * string).

Fixpoint getItem (k : string) (ls : Storage) : option string :=
  match ls with
  | [] => None
  | (k', v) :: rest => if k' =? k then Some v else getItem k rest
  end.

Fixpoint removeItem (k : string) (ls : Storage) : Storage :=
  match ls with
  | [] => []
  | (k', v) :: rest => if k' =? k then removeItem k rest else (k', v) :: removeItem k rest
  end.

Definition setItem (k v : string) (ls : Storage) : Storage :=
  (k, v) :: removeItem k ls.

(** [{ user, token }]; [null] is [JNull] for the user and [None] for the
    token. *)
Record state : Type := mk {
  user : json;
  token : option string
}.

Record payload : Type := mkPayload {
  payload_user : json;
  payload_token : string
}.

Inductive action : Type :=
| LOGIN (p : payload)
| LOGOUT
| other (type : string).

Section WithJSON.

Variable JSON_stringify : json -> string.
(** [None] when [JSON.parse] throws. *)
Variable JSON_parse : string -> option json.

(** The reducer: the new state, and what it leaves in the storage. *)
Definition authReducer (st : state) (a : action) (ls : Storage) : state * Storage :=
  match a with
  | LOGIN p =>
      let ls1 := setItem "token" (payload_token p) ls in
      let ls2 := setItem "user" (JSON_stringify (payload_user p)) ls1 in
      (mk (payload_user p) (Some (payload_token p)), ls2)
  | LOGOUT =>
      let ls1 := removeItem "token" ls in
      let ls2 := removeItem "user" ls1 in
      (mk JNull None, ls2)
  | other _ => (st, ls)
  end.

(** An empty string is as good as none, for [?:] and for [||]. *)
Definition truthy (v : option string) : option string :=
  match v with
  | Some "" => None
  | _ => v
  end.

(** The state [AuthProvider] starts from; [None] when [JSON.parse]
    throws. *)
Definition initialState (ls : Storage) : option state :=
  let storedToken := getItem "token" ls in
  let storedUser := getItem "user" ls in
  match truthy storedUser with
  | Some text =>
      match JSON_parse text with
      | Some u => Some (mk u (truthy storedToken))
      | None => None
      end
  | None => Some (mk JNull (truthy storedToken))
  end.

End WithJSON.

End AuthContext.

(** ** The register form *)

Module Register.

Record formData : Type := mk {
  username : string;
  email : string;
  password : string;
  confirmPassword : string
}.

(** What [handleSubmit] ends with: [setError] with the message an [Error]
    was made of or with the fixed text; [setError] with the message of the
    TypeError of reading a property of [null]; or the dispatch of LOGIN
    with the data of the answer, followed by [setSuccess(true)]. *)
Inductive outcome : Type :=
| setError (message : json)
| setError_TypeError
| dispatch_LOGIN (payload : json).

(** [data[k]] for an object; [None] is [undefined]. *)
Fixpoint field (k : string) (fields : list (string * json)) : option json :=
  match fields with
  | [] => None
  | (k', v) :: rest => if k' =? k then Some v else field k rest
  end.

(** The values that count as true. *)
Definition truthy (v : json) : bool :=
  match v with
  | JNull => false
  | JStr s => negb (s =? "")
  | JInt z => negb (z =? 0)%Z
  | JNum JS.NaN => false
  | JNum (JS.Fin q) => negb (Qeq_bool q 0)
  | _ => true
  end.

(** [throw new Error(data.error || fallback)], caught by [setError]. *)
Definition thrown (data : json) (fallback : string) : outcome :=
  match data with
  | JNull => setError_TypeError
  | JObj fields =>
      match field "error" fields with
      | Some e => if truthy e then setError e else setError (JStr fallback)
      | None => setError (JStr fallback)
      end
  | _ => setError (JStr fallback)
  end.

(** [response.ok]. *)
Definition ok (response : Response) : bool :=
  ((200 <=? status response)%nat && (status response <=? 299)%nat)%bool.

End Register.

Section Backend.

(** jsonwebtoken with the server's secret: [jwt.verify] gives the payload
    of a token or throws, [jwt.sign] makes the token of a payload. *)
Variable jwt_verify : string -> option Claims.
Variable jwt_sign : Claims -> string.

(** bcryptjs: [bcrypt.hash(password, salt)] and
    [bcrypt.compare(password, hash)]. *)
Variable bcrypt_hash : string -> string -> string.
Variable bcrypt_compare : string -> string -> bool.

(** validator: [isEmail] and [normalizeEmail]. *)
Variable isEmail : string -> bool.
Variable normalizeEmail : string -> string.

(** [new RegExp(pattern, 'i')]: a SyntaxError ([None]) or the test of a
    string against the pattern. *)
Variable RegExp_i : string -> option (string -> bool).

(** [authenticate]: the token is the second piece of the header split at
    spaces; a missing header, a header that is empty or does not start
    with the scheme, and a token [jwt.verify] throws on, are answered
    with 401. *)
Definition authenticate : Middleware :=
  fun req =>
    match authorization req with
    | None => send 401 (error_body "Authentication required")
    | Some authHeader =>
        if ((authHeader =? "") || negb (JS.startsWith "Bearer " authHeader))%bool
        then send 401 (error_body "Authentication required")
        else
          match nth_error (JS.split " " authHeader) 1 with
          | Some token =>
              match jwt_verify token with
              | Some decoded => ret (set_user decoded req)
              | None => send 401 (error_body "Invalid token")
              end
          | None => send 401 (error_body "Invalid token")
          end
    end.

(** [body('email').isEmail().normalizeEmail()], with the message of the
    route. *)
Definition email_chain (msg : string) (req : Request) : Request :=
  let req := check (isEmail (toString (body_email req))) "email" msg req in
  set_body_email (sanitize normalizeEmail (body_email req)) req.

Definition userValidation : list Middleware :=
  [as_middleware username_chain; as_middleware (email_chain "Invalid email address"); as_middleware password_chain].

Definition loginValidation : list Middleware :=
  [as_middleware (email_chain default_message); as_middleware login_password_chain].

(** [req.user.id]; without [req.user] the access throws a TypeError. *)
Definition req_user_id (req : Request) : M ObjectId :=
  match user req with
  | Some c => ret (claim_id c)
  | None => throw "Cannot read properties of undefined"
  end.

(** The password handed to bcryptjs, which throws on what is not a
    string. *)
Definition required (v : option string) : M string :=
  match v with
  | Some s => ret s
  | None => throw "Illegal arguments"
  end.

(** ** routes/reviews.js *)

Definition sum_ratings (bookReviews : list Review.doc) : Z :=
  JS.reduce (fun acc review => (acc + Review.rating review)%Z) 0%Z bookReviews.

Definition of_book (bookId : ObjectId) (r : Review.doc) : bool :=
  (Review.bookId r =? bookId)%nat.

(** [router.post('/')]: create a review. *)
Definition create_review : Handler :=
  fun req =>
    bookId <- cast_ObjectId (body_bookId req) ;;
    uid <- req_user_id req ;;
    existingReview <-
      Review_findOne (fun r => (of_book bookId r && (Review.userId r =? uid)%nat)%bool) ;;
    match existingReview with
    | Some _ => send 400 (error_body "You have already reviewed this book")
    | None =>
        review <- Review_create bookId uid (body_rating req) (body_content req) (now req) ;;
        bookReviews <- Review_find (of_book bookId) ;;
        let averageRating :=
          JS.div (sum_ratings bookReviews) (Z.of_nat (List.length bookReviews)) in
        Book_findByIdAndUpdate bookId
          (mkBookUpdate (Some averageRating) (Some (Z.of_nat (List.length bookReviews)))) ;;;
        populated <- Review_populated review ;;
        send 201 populated
    end.

(** [router.put('/:id')]: update a review of the caller. *)
Definition update_review : Handler :=
  fun req =>
    id <- cast_ObjectId (params_id req) ;;
    uid <- req_user_id req ;;
    found <-
      Review_findOne (fun r => ((Review._id r =? id)%nat && (Review.userId r =? uid)%nat)%bool) ;;
    match found with
    | None => send 404 (error_body "Review not found")
    | Some review =>
        review <- Review_save review (body_rating req) (body_content req) (now req) ;;
        bookReviews <- Review_find (of_book (Review.bookId review)) ;;
        let averageRating :=
          JS.div (sum_ratings bookReviews) (Z.of_nat (List.length bookReviews)) in
        Book_findByIdAndUpdate (Review.bookId review)
          (mkBookUpdate (Some averageRating) None) ;;;
        populated <- Review_populated review ;;
        send 200 populated
    end.

(** [router.delete('/:id')]: delete a review of the caller. *)
Definition delete_review : Handler :=
  fun req =>
    id <- cast_ObjectId (params_id req) ;;
    uid <- req_user_id req ;;
    found <-
      Review_findOne (fun r => ((Review._id r =? id)%nat && (Review.userId r =? uid)%nat)%bool) ;;
    match found with
    | None => send 404 (error_body "Review not found")
    | Some review =>
        Review_remove review ;;;
        bookReviews <- Review_find (of_book (Review.bookId review)) ;;
        let averageRating :=
          if (0 <? List.length bookReviews)%nat
          then JS.div (sum_ratings bookReviews) (Z.of_nat (List.length bookReviews))
          else JS.Fin 0 in
        Book_findByIdAndUpdate (Review.bookId review)
          (mkBookUpdate (Some averageRating) (Some (Z.of_nat (List.length bookReviews)))) ;;;
        send 200 (JObj [("message", JStr "Review deleted successfully")])
    end.

(** ** routes/auth.js *)

(** The body of the two successful answers: the token and three fields
    of the user. *)
Definition session_body (user : User.doc) : json :=
  let token := jwt_sign (mkClaims (User._id user) (User.username user)) in
  JObj [("token", JStr token);
        ("user", JObj [("id", JId (User._id user));
                       ("username", JStr (User.username user));
                       ("email", JStr (User.email user))])].

(** [router.post('/register')]. *)
Definition register : Handler :=
  fun req =>
    let username := body_username req in
    let email := body_email req in
    existingUser <-
      User_findOne (fun u => (field_is (User.email u) email ||
                              field_is (User.username u) username)%bool) ;;
    match existingUser with
    | Some _ => send 400 (error_body "User with this email or username already exists")
    | None =>
        password <- required (body_password req) ;;
        let hashedPassword := bcrypt_hash password (salt req) in
        user <- User_create username email hashedPassword (now req) ;;
        send 201 (session_body user)
    end.

(** [router.post('/login')]. *)
Definition login : Handler :=
  fun req =>
    found <- User_findOne (fun u => field_is (User.email u) (body_email req)) ;;
    match found with
    | None => send 401 (error_body "Invalid credentials")
    | Some user =>
        password <- required (body_password req) ;;
        if bcrypt_compare password (User.password user)
        then send 200 (session_body user)
        else send 401 (error_body "Invalid credentials")
    end.

(** [router.get('/me')]. *)
Definition me : Handler :=
  fun req =>
    uid <- req_user_id req ;;
    found <- User_findById uid ;;
    send 200 (opt_json (fun u => select_without "password" (User.toJSON u)) found).

(** ** The book routes of server.js *)

(** [sort({ createdAt: -1 })]: newest first, documents of one date in
    their natural order. *)
Fixpoint insert_newest_first (b : Book.doc) (l : list Book.doc) : list Book.doc :=
  match l with
  | [] => [b]
  | x :: l' =>
      if (Book.createdAt x <=? Book.createdAt b)%Z then b :: l
      else x :: insert_newest_first b l'
  end.

Definition sort_newest_first (l : list Book.doc) : list Book.doc :=
  fold_right insert_newest_first [] l.

(** The filter of the listing: [$or] of the two patterns when [search]
    is not empty, and the genre when it is neither empty nor 'All'. *)
Definition build_query (search genre : string) : M (Book.doc -> bool) :=
  let by_genre (b : Book.doc) : bool :=
    if (negb (genre =? "") && negb (genre =? "All"))%bool
    then Book.genre b =? genre else true in
  if search =? "" then ret by_genre
  else
    match RegExp_i search with
    | Some test =>
        ret (fun b => ((test (Book.title b) || test (Book.author b)) && by_genre b)%bool)
    | None => throw "Invalid regular expression"
    end.

(** [Book.find(query).skip(skip).limit(limit).sort({ createdAt: -1 })]:
    the server sorts, then skips, then limits, whatever the order of the
    calls; it refuses a negative skip. *)
Definition Book_find_page (query : Book.doc -> bool) (skip : Z) (limit : nat)
  : M (list Book.doc) :=
  if (skip <? 0)%Z then throw "skip value must be non-negative"
  else
    gets (fun s =>
      firstn limit (skipn (Z.to_nat skip) (sort_newest_first (filter query (books s))))).

Definition Book_countDocuments (query : Book.doc -> bool) : M nat :=
  gets (fun s => List.length (filter query (books s))).

(** [bookRoutes.get('/')]. *)
Definition list_books : Handler :=
  fun req =>
    let page := match query_page req with Some p => p | None => 1%Z end in
    let limit := 9%nat in
    let skip := ((page - 1) * Z.of_nat limit)%Z in
    query <- build_query (query_search req) (query_genre req) ;;
    books <- Book_find_page query skip limit ;;
    total <- Book_countDocuments query ;;
    send 200
      (JObj [("books", JArr (map Book.toJSON books));
             ("totalPages",
              opt_json JInt (JS.Math_ceil (JS.div (Z.of_nat total) (Z.of_nat limit))));
             ("currentPage", JInt page)]).

(** [bookRoutes.get('/:id')]. *)
Definition get_book : Handler :=
  fun req =>
    id <- cast_ObjectId (params_id req) ;;
    found <- gets (Book_findById id) ;;
    match found with
    | None => send 404 (error_body "Book not found")
    | Some book => send 200 (Book.toJSON book)
    end.

(** ** The application: what is mounted where *)

Inductive Endpoint : Type :=
| GET_books
| GET_books_id
| POST_reviews
| PUT_reviews_id
| DELETE_reviews_id
| POST_auth_register
| POST_auth_login
| GET_auth_me.

(** What express.json() makes of the body of a request: the fields of
    [req.body], when there is no JSON body or one that parses, or an error
    (a body that is not JSON, or too large). *)
Inductive Parse : Type :=
| parsed_body
| parse_error.

(** The last [app.use] of server.js, the error-handling middleware: what an
    error that is passed to [next] is answered with. *)
Definition error_handler {A : Type} : M A :=
  send 500 (error_body "Something went wrong!").

(** [app.use(cors())] lets every request through; [app.use(express.json())]
    lets a request through with its parsed body and passes a parse error
    to [next], that is to the error handler: no router sees the request. *)
Definition cors : Middleware := fun req => ret req.

Definition express_json (body : Parse) : Middleware :=
  fun req =>
    match body with
    | parsed_body => ret req
    | parse_error => error_handler
    end.

Definition app_use (body : Parse) : list Middleware := [cors; express_json body].

(** The middlewares and the handler each route is declared with. *)
Definition route (e : Endpoint) : list Middleware * Handler :=
  match e with
  | GET_books => ([], list_books)
  | GET_books_id => ([], get_book)
  | POST_reviews => (authenticate :: reviewValidation ++ [validate], create_review)
  | PUT_reviews_id => (authenticate :: reviewValidation ++ [validate], update_review)
  | DELETE_reviews_id => ([authenticate], delete_review)
  | POST_auth_register => (userValidation ++ [validate], register)
  | POST_auth_login => (authLimiter :: loginValidation ++ [validate], login)
  | GET_auth_me => ([authenticate], me)
  end.

(** server.js: the middlewares of the application, then the route. *)
Definition server (e : Endpoint) (body : Parse) (req : Request) (s : State)
  : State * Response :=
  serve (app_use body ++ fst (route e)) (snd (route e)) req s.

(** The server for a request whose body has been parsed, which is the
    request the routes see. *)
Definition app (e : Endpoint) (req : Request) (s : State) : State * Response :=
  server e parsed_body req s.

(** The routes that name [authenticate]. *)
Definition protected (e : Endpoint) : bool :=
  match e with
  | POST_reviews | PUT_reviews_id | DELETE_reviews_id | GET_auth_me => true
  | _ => false
  end.


(** ** What the claims speak about *)

(** The ratings of the reviews of a book, in the order of the collection. *)
Definition ratings_of (bookId : ObjectId) (s : State) : list Z :=
  map Review.rating (filter (of_book bookId) (reviews s)).

Definition total (l : list Z) : Z := fold_right Z.add 0%Z l.

(** The arithmetic mean of a list of ratings, 0 for the empty list. *)
Definition mean (l : list Z) : Q :=
  match l with
  | [] => 0%Q
  | _ => (inject_Z (total l) / inject_Z (Z.of_nat (List.length l)))%Q
  end.

(** The rating of a book is the mean of a list of ratings. *)
Definition rating_is_mean (b : Book.doc) (l : list Z) : Prop :=
  exists q, Book.rating b = JS.Fin q /\ (q == mean l)%Q.

(** The rating of a book is the mean of a list of ratings as the division
    of JavaScript gives it: the mean up to the rounding of a double. *)
Definition rating_is_rounded_mean (b : Book.doc) (l : list Z) : Prop :=
  exists q, Book.rating b = JS.Fin q /\ JS.rounds (mean l) q.

(** The header authenticates the request as the holder of the claims. *)
Definition authenticates (req : Request) (c : Claims) : Prop :=
  exists authHeader token,
    authorization req = Some authHeader /\
    JS.startsWith "Bearer " authHeader = true /\
    nth_error (JS.split " " authHeader) 1 = Some token /\
    jwt_verify token = Some c.

(** The header does not authenticate the request. *)
Definition unauthenticated (req : Request) : Prop :=
  match authorization req with
  | None => True
  | Some authHeader =>
      JS.startsWith "Bearer " authHeader = false \/
      match nth_error (JS.split " " authHeader) 1 with
      | Some token => jwt_verify token = None
      | None => True
      end
  end.

(** A user record as the register route writes it: the username trimmed
    and the e-mail address normalised. *)
Definition canonical (u : User.doc) : Prop :=
  JS.trim (User.username u) = User.username u /\
  normalizeEmail (User.email u) = User.email u.

Definition users_canonical (s : State) : Prop := Forall canonical (users s).

(** The ids of the reviews are not shared (the unique index on [_id]). *)
Definition review_ids_unique (s : State) : Prop :=
  NoDup (map Review._id (reviews s)).

(** A book comes before another one in a listing that is newest first. *)
Definition newest_first (a b : Book.doc) : Prop :=
  (Book.createdAt b <= Book.createdAt a)%Z.

(** The same request, served [n] times in a row: the answers, latest
    first, and the state at the end. *)
Fixpoint replay (n : nat) (e : Endpoint) (req : Request) (s : State)
  : State * list Response :=
  match n with
  | O => (s, [])
  | S n' =>
      let (s1, answers) := replay n' e req s in
      let (s2, answer) := app e req s1 in
      (s2, answer :: answers)
  end.

(** The same, for a handler behind middlewares of one's choice. *)
Fixpoint replay_route (n : nat) (ms : list Middleware) (h : Handler)
    (req : Request) (s : State) : State * list Response :=
  match n with
  | O => (s, [])
  | S n' =>
      let (s1, answers) := replay_route n' ms h req s in
      let (s2, answer) := serve ms h req s1 in
      (s2, answer :: answers)
  end.

(** The page a listing request asks for: [page = 1] by default. *)
Definition requested_page (req : Request) : Z :=
  match query_page req with
  | Some p => p
  | None => 1%Z
  end.

(** A computation keeps a property of the state. *)
Definition keeps {A : Type} (P : State -> Prop) (m : M A) : Prop :=
  forall s, P s -> P (fst (m s)).

(** The store of [apiLimiter] is this one. *)
Definition api_store_is (l : list (string * Window)) (s : State) : Prop :=
  apiLimiterStore s = l.

(** The ids of the reviews are not shared and lie below the next id to be
    drawn. *)
Definition review_ids_fresh (s : State) : Prop :=
  review_ids_unique s /\
  Forall (fun r => (Review._id r < nextId s)%nat) (reviews s).

Create HintDb keeps.

(** The fields a validation chain leaves alone, one goal at a time. *)
Ltac chain_fields :=
  unfold content_chain, rating_chain, username_chain, password_chain,
         email_chain, login_password_chain, check;
  repeat match goal with
         | |- context [if ?b then _ else _] => destruct b
         end;
  reflexivity.

(** Run the monadic code of a handler as far as it is determined. *)
Ltac run :=
  unfold Review_populated, User_findById, User_findOne, User_create,
         Book_findByIdAndUpdate, Review_remove, Review_save, Review_create,
         Review_validate, Review_findOne, Review_find, required, req_user_id,
         cast_ObjectId, fresh_id, throw, send, modify, gets, ret, bind;
  cbn [fst snd set_rating set_reviewCount
       books reviews users nextId authLimiterStore apiLimiterStore
       with_books with_reviews with_users with_nextId].

(** The handler has answered, and not with the status of the hypothesis. *)
Ltac answered :=
  let H := fresh in
  let Hs := fresh in
  intros H; inversion H; subst; clear H;
  cbn [status]; intros Hs; discriminate Hs.

(** ** What the further properties speak about *)

(** The limiter of the login route has counted five requests of the client
    in a window that still lasts. *)
Definition locked_out (req : Request) (s : State) : Prop :=
  exists w,
    lookup (ip req) (authLimiterStore s) = Some w /\
    (now req < resetTime w)%Z /\ (5 <= hits w)%nat.

(** There is no space in the string. *)
Fixpoint no_space (s : string) : bool :=
  match s with
  | EmptyString => true
  | String c rest => (negb (Ascii.eqb c " ") && no_space rest)%bool
  end.

(** The ids of the users lie below the next id to be drawn. *)
Definition user_ids_fresh (s : State) : Prop :=
  Forall (fun u => (User._id u < nextId s)%nat) (users s).

(** The run has ended with another status than the one supposed. *)
Ltac wrong_status :=
  let Hrun := fresh "Hrun" in
  let Hstatus := fresh "Hstatus" in
  intros Hrun Hstatus; inversion Hrun; subst;
  cbn [status] in Hstatus; discriminate Hstatus.

(** What a request can do to the collections: nothing; append a review
    and write its book; replace a review and write the rating of its
    book; remove a review and write its book; append a user. *)
Inductive effect (s : State) : State -> Prop :=
| effect_none (s' : State) :
    books s' = books s -> reviews s' = reviews s -> users s' = users s ->
    (nextId s <= nextId s')%nat ->
    effect s s'
| effect_create (b uid : ObjectId) (z : Z) (txt : string) (t : Z)
                (l1 l2 : list (string * Window)) :
    (1 <= z <= 5)%Z ->
    find (fun r => (of_book b r && (Review.userId r =? uid)%nat)%bool) (reviews s) = None ->
    let review := Review.mk (nextId s) b uid z txt t t in
    let rs := filter (of_book b) (reviews s ++ [review]) in
    effect s
      (mkState
         (update_by_id b
            (mkBookUpdate (Some (JS.div (sum_ratings rs) (Z.of_nat (List.length rs))))
                          (Some (Z.of_nat (List.length rs))))
            (books s))
         (reviews s ++ [review]) (users s) (S (nextId s)) l1 l2)
| effect_update (review : Review.doc) (z : Z) (txt : string) (t : Z)
                (l1 l2 : list (string * Window)) :
    (1 <= z <= 5)%Z ->
    In review (reviews s) ->
    let review' :=
      Review.mk (Review._id review) (Review.bookId review) (Review.userId review)
                z txt (Review.createdAt review) t in
    let all :=
      map (fun r => if (Review._id r =? Review._id review)%nat then review' else r)
          (reviews s) in
    let rs := filter (of_book (Review.bookId review)) all in
    effect s
      (mkState
         (update_by_id (Review.bookId review)
            (mkBookUpdate (Some (JS.div (sum_ratings rs) (Z.of_nat (List.length rs))))
                          None)
            (books s))
         all (users s) (nextId s) l1 l2)
| effect_delete (review : Review.doc) (l1 l2 : list (string * Window)) :
    In review (reviews s) ->
    let rest := filter (fun r => negb (Review._id r =? Review._id review)%nat) (reviews s) in
    let rs := filter (of_book (Review.bookId review)) rest in
    effect s
      (mkState
         (update_by_id (Review.bookId review)
            (mkBookUpdate
               (Some (if (0 <? List.length rs)%nat
                      then JS.div (sum_ratings rs) (Z.of_nat (List.length rs))
                      else JS.Fin 0))
               (Some (Z.of_nat (List.length rs))))
            (books s))
         rest (users s) (nextId s) l1 l2)
| effect_register (u : User.doc) (l1 l2 : list (string * Window)) :
    User._id u = nextId s ->
    (forall x, In x (users s) ->
               User.email x <> User.email u /\ User.username x <> User.username u) ->
    effect s (mkState (books s) (reviews s) (users s ++ [u]) (S (nextId s)) l1 l2).

(** The requests of the clients, one after the other. *)
Fixpoint serve_all (trace : list (Endpoint * Request)) (s : State) : State :=
  match trace with
  | [] => s
  | (e, req) :: rest => serve_all rest (fst (app e req s))
  end.

(** Every book that is found carries the mean of the ratings of its
    reviews, 0 without a review, and their number. *)
Definition consistent (s : State) : Prop :=
  forall id book,
    Book_findById id s = Some book ->
    rating_is_mean book (ratings_of id s) /\
    Book.reviewCount book = Z.of_nat (List.length (ratings_of id s)).

(** Every book that is found stands in a relation to the ratings of its
    reviews, and carries their number. *)
Definition related_by (R : Book.doc -> list Z -> Prop) (s : State) : Prop :=
  forall id book,
    Book_findById id s = Some book ->
    R book (ratings_of id s) /\
    Book.reviewCount book = Z.of_nat (List.length (ratings_of id s)).

(** Every book that is found carries the mean of the ratings of its
    reviews up to the rounding of a double, 0 without a review, and their
    number. *)
Definition consistent_in_doubles (s : State) : Prop :=
  forall id book,
    Book_findById id s = Some book ->
    rating_is_rounded_mean book (ratings_of id s) /\
    Book.reviewCount book = Z.of_nat (List.length (ratings_of id s)).

(** The rating of a book whose ratings are stars from 1 to 5 is 0 without
    a rating and a number from 1 to 5 with one. *)
Definition rating_in_stars (b : Book.doc) (l : list Z) : Prop :=
  Forall (fun z => (1 <= z <= 5)%Z) l ->
  exists q,
    Book.rating b = JS.Fin q /\
    ((l = [] /\ (q == 0)%Q) \/ (l <> [] /\ (1 <= q)%Q /\ (q <= 5)%Q)).

(** Nobody has two reviews of one book. *)
Definition one_review_each (s : State) : Prop :=
  NoDup (map (fun r => (Review.userId r, Review.bookId r)) (reviews s)).

(** Every rating is one of 1 to 5. *)
Definition ratings_in_range (s : State) : Prop :=
  Forall (fun r => (1 <= Review.rating r <= 5)%Z) (reviews s).

(** No two users share an address or a username. *)
Definition accounts_distinct (s : State) : Prop :=
  NoDup (map User.email (users s)) /\ NoDup (map User.username (users s)).

(** What no route writes of a book: everything but the rating and the
    number of reviews. *)
Definition card (b : Book.doc) : Book.doc :=
  Book.mk (Book._id b) (Book.title b) (Book.author b) (Book.description b)
          (Book.genre b) (Book.publishedDate b) (Book.coverImage b)
          (JS.Fin 0) 0 (Book.createdAt b) (Book.updatedAt b).

Definition catalogue (s : State) : list Book.doc := map card (books s).

(** The same listing request, for another page. *)
Definition for_page (p : Z) (r : Request) : Request :=
  mkRequest (ip r) (now r) (salt r) (authorization r) (params_id r)
            (Some p) (query_search r) (query_genre r)
            (body_bookId r) (body_rating r) (body_content r)
            (body_username r) (body_email r) (body_password r)
            (user r) (validationErrors r).

(** The books a listing answer shows. *)
Definition books_of (resp : Response) : list json :=
  match body resp with
  | JObj (("books", JArr shown) :: _) => shown
  | _ => []
  end.

(** The pages from 1 to [n], leafed through one after the other. *)
Definition leaf_through (n : nat) (req : Request) (s : State) : list json :=
  List.concat (map (fun p => books_of (snd (app GET_books (for_page (Z.of_nat p) req) s)))
              (seq 1 n)).

(** [handleSubmit] of the register form, sent by a client at [ip] and
    served at [now] with [salt]: the form is not sent when the two
    passwords differ. *)
Definition Register_handleSubmit (formData : Register.formData)
    (ip : string) (now : Z) (salt : string) (s : State) : State * Register.outcome :=
  if negb (Register.password formData =? Register.confirmPassword formData)
  then (s, Register.setError (JStr "Passwords do not match"))
  else
    let req :=
      mkRequest ip now salt None None None "" "" None None None
                (Some (Register.username formData)) (Some (Register.email formData))
                (Some (Register.password formData)) None [] in
    let (s', response) := app POST_auth_register req s in
    let data := body response in
    if negb (Register.ok response)
    then (s', Register.thrown data "Registration failed")
    else (s', Register.dispatch_LOGIN data).

(** * Properties *)

(** ** The division of JavaScript *)

(** The integer that [nearest_even] picks is within a half of the
    quotient. *)
Lemma nearest_even_is_near (num den : Z) :
  (0 < den)%Z ->
  (- den <= 2 * (JS.nearest_even num den * den - num) <= den)%Z.
Proof.
  intros Hden. unfold JS.nearest_even.
  pose proof (Z.div_mod num den ltac:(lia)) as Hdm.
  pose proof (Z.mod_pos_bound num den Hden) as Hr.
  set (f := (num / den)%Z) in *. set (r := (num mod den)%Z) in *.
  clearbody f r. subst num.
  destruct (2 * r ?= den)%Z eqn:E.
  - rewrite Z.compare_eq_iff in E. destruct (Z.even f).
    + replace (f * den - (den * f + r))%Z with (- r)%Z by ring. lia.
    + replace ((f + 1) * den - (den * f + r))%Z with (den - r)%Z by ring. lia.
  - rewrite Z.compare_lt_iff in E.
    replace (f * den - (den * f + r))%Z with (- r)%Z by ring. lia.
  - rewrite Z.compare_gt_iff in E.
    replace ((f + 1) * den - (den * f + r))%Z with (den - r)%Z by ring. lia.
Qed.

(** It lies between the integers the quotient lies between. *)
Lemma nearest_even_between (num den low high : Z) :
  (0 < den)%Z ->
  (low * den <= num)%Z -> (num <= high * den)%Z ->
  (low <= JS.nearest_even num den <= high)%Z.
Proof.
  intros Hden Hlow Hhigh. unfold JS.nearest_even.
  pose proof (Z.div_mod num den ltac:(lia)) as Hdm.
  pose proof (Z.mod_pos_bound num den Hden) as Hr.
  assert (low <= num / den)%Z as Hl by (apply Z.div_le_lower_bound; lia).
  assert (num / den <= high)%Z as Hh by (apply Z.div_le_upper_bound; lia).
  set (f := (num / den)%Z) in *. set (r := (num mod den)%Z) in *.
  clearbody f r.
  assert (0 < r -> f < high)%Z as Hstrict by nia.
  destruct (2 * r ?= den)%Z eqn:E.
  - rewrite Z.compare_eq_iff in E. destruct (Z.even f); lia.
  - lia.
  - rewrite Z.compare_gt_iff in E. lia.
Qed.

(** The exponent of a quotient of safe integers, and what it says. *)
Lemma exponent_of_safe (n d : Z) :
  (0 < n < 2 ^ 53)%Z -> (0 < d)%Z -> (JS.exponent n d <= 52)%Z.
Proof.
  intros Hn Hd. unfold JS.exponent.
  assert (Z.log2 n < 53)%Z as Hlog by (apply Z.log2_lt_pow2; lia).
  pose proof (Z.log2_nonneg d).
  destruct (_ <=? _)%Z; lia.
Qed.

Lemma exponent_spec (n d : Z) :
  (0 < n)%Z -> (0 < d)%Z -> (JS.exponent n d <= 52)%Z ->
  (2 ^ 52 * d <= n * 2 ^ (52 - JS.exponent n d) < 2 ^ 53 * d)%Z.
Proof.
  intros Hn Hd. unfold JS.exponent.
  pose proof (Z.log2_spec n Hn) as Hln. pose proof (Z.log2_spec d Hd) as Hld.
  pose proof (Z.log2_nonneg n) as Hln0. pose proof (Z.log2_nonneg d) as Hld0.
  rewrite !Z.pow_succ_r in Hln, Hld by assumption.
  set (a := (2 ^ Z.log2 n)%Z) in *. set (b := (2 ^ Z.log2 d)%Z) in *.
  destruct (d * a <=? n * b)%Z eqn:E; intros Hk.
  - apply Z.leb_le in E.
    assert (2 ^ (52 - (Z.log2 n - Z.log2 d)) * a = 2 ^ 52 * b)%Z as Hw.
    { unfold a, b. rewrite <- !Z.pow_add_r by lia. f_equal. lia. }
    set (w := (2 ^ (52 - (Z.log2 n - Z.log2 d)))%Z) in *.
    assert (0 < a)%Z by lia. nia.
  - apply Z.leb_gt in E.
    assert (2 ^ (52 - (Z.log2 n - Z.log2 d - 1)) * a = 2 ^ 53 * b)%Z as Hw.
    { unfold a, b. rewrite <- !Z.pow_add_r by lia. f_equal. lia. }
    set (w := (2 ^ (52 - (Z.log2 n - Z.log2 d - 1)))%Z) in *.
    assert (0 < a)%Z by lia. nia.
Qed.

Lemma Qdiv_as_fraction (n d : Z) :
  (0 < d)%Z -> (inject_Z n / inject_Z d == n # Z.to_pos d)%Q.
Proof.
  intros Hd. destruct d as [|p|p]; try lia.
  cbn [Z.to_pos]. symmetry. apply Qmake_Qdiv.
Qed.

(** What [round53] gives for a safe numerator: a significand [m] of 53
    bits over a power of two [w]. *)
Lemma round53_value (n d : Z) :
  (0 < n < 2 ^ 53)%Z -> (0 < d)%Z ->
  exists m w,
    (0 < w)%Z /\
    (2 ^ 52 * d <= n * w < 2 ^ 53 * d)%Z /\
    (- d <= 2 * (m * d - n * w) <= d)%Z /\
    (forall low high, (low * d <= n)%Z -> (n <= high * d)%Z ->
                      (low * w <= m <= high * w)%Z) /\
    (JS.round53 n d == m # Z.to_pos w)%Q.
Proof.
  intros Hn Hd.
  pose proof (exponent_of_safe n d Hn Hd) as Hk.
  pose proof (exponent_spec n d ltac:(lia) Hd Hk) as Hw.
  unfold JS.round53. replace (JS.exponent n d <=? 52)%Z with true
    by (symmetry; now apply Z.leb_le).
  cbv zeta.
  set (w := (2 ^ (52 - JS.exponent n d))%Z) in *.
  assert (0 < w)%Z as Hpos by (apply Z.pow_pos_nonneg; lia).
  exists (JS.nearest_even (n * w) d), w.
  split; [exact Hpos|]. split; [exact Hw|].
  split; [apply nearest_even_is_near; exact Hd|].
  split; [|apply Qred_correct].
  intros low high Hlow Hhigh. apply nearest_even_between; [exact Hd | nia | nia].
Qed.

Lemma rounds_exact (x q : Q) : (q == x)%Q -> JS.rounds x q.
Proof.
  intros E. split.
  - rewrite E. setoid_replace (x - x)%Q with 0%Q by ring.
    cbn [Qabs]. rewrite Qmult_0_l. apply Qabs_nonneg.
  - intros z Hz. now rewrite E.
Qed.

Lemma rounds_compat (x x' q q' : Q) :
  (x == x')%Q -> (q == q')%Q -> JS.rounds x q -> JS.rounds x' q'.
Proof.
  intros Ex Eq [Hnear Hexact]. split.
  - now rewrite <- Ex, <- Eq.
  - intros z Hz. rewrite <- Eq. apply Hexact. now rewrite Ex.
Qed.

Lemma rounds_opp (x q : Q) : JS.rounds x q -> JS.rounds (- x) (- q).
Proof.
  intros [Hnear Hexact]. split.
  - setoid_replace (- q - - x)%Q with (- (q - x))%Q by ring.
    now rewrite !Qabs_opp.
  - intros z Hz.
    assert (x == inject_Z (- z))%Q as Hx.
    { rewrite inject_Z_opp, <- Hz. ring. }
    rewrite (Hexact _ Hx), inject_Z_opp. ring.
Qed.

Lemma round53_rounds (n d : Z) :
  (0 < n < 2 ^ 53)%Z -> (0 < d)%Z ->
  JS.rounds (inject_Z n / inject_Z d) (JS.round53 n d).
Proof.
  intros Hn Hd.
  destruct (round53_value n d Hn Hd) as (m & w & Hw & Hnw & Hnear & Hbetween & Hr).
  apply (rounds_compat (n # Z.to_pos d) _ (m # Z.to_pos w));
    [symmetry; now apply Qdiv_as_fraction | symmetry; exact Hr |].
  split.
  - unfold Qle, Qabs, Qminus, Qplus, Qopp, Qmult, inject_Z. cbn [Qnum Qden].
    rewrite !Pos2Z.inj_mul, !Z2Pos.id by lia.
    rewrite Z.mul_1_r.
    assert (Z.abs (m * d + - n * w) * 2 ^ 53 <= n * w)%Z as Hkey by nia.
    replace (Z.abs n) with n by lia. nia.
  - intros z Hz. unfold Qeq in Hz |- *. cbn [Qnum Qden inject_Z] in Hz |- *.
    rewrite Z2Pos.id in Hz |- * by lia.
    destruct (Hbetween z z) as [H1 H2]; lia.
Qed.

(** The quotient is a finite number that rounds the exact one. *)
Lemma div_rounds (x y : Z) :
  (0 < y)%Z ->
  exists q, JS.div x y = JS.Fin q /\ JS.rounds (inject_Z x / inject_Z y) q.
Proof.
  intros Hy. unfold JS.div.
  replace (y =? 0)%Z with false by (symmetry; apply Z.eqb_neq; lia).
  destruct (JS.isSafeInteger x && JS.isSafeInteger y)%bool eqn:Esafe.
  2: { eexists. split; [reflexivity | apply rounds_exact, Qeq_refl]. }
  apply andb_true_iff in Esafe. destruct Esafe as [Hx _].
  unfold JS.isSafeInteger in Hx. apply Z.ltb_lt in Hx.
  eexists. split; [reflexivity|].
  replace (Z.sgn y) with 1%Z by lia. replace (Z.abs y) with y by lia.
  rewrite Z.mul_1_r.
  destruct (Z.lt_trichotomy x 0) as [Hneg|[->|Hpos]].
  - replace (Z.sgn x) with (-1)%Z by lia.
    apply (rounds_compat (- (inject_Z (Z.abs x) / inject_Z y))
                         _ (- JS.round53 (Z.abs x) y)).
    + replace x with (- Z.abs x)%Z at 2 by lia. rewrite inject_Z_opp.
      field. intros E. apply (inject_Z_injective y 0) in E. lia.
    + change (inject_Z (-1)) with (- (1))%Q. ring.
    + apply rounds_opp, round53_rounds; lia.
  - apply rounds_exact. cbn [Z.sgn]. change (inject_Z 0) with 0%Q.
    rewrite Qmult_0_l. unfold Qdiv. now rewrite Qmult_0_l.
  - replace (Z.sgn x) with 1%Z by lia. replace (Z.abs x) with x by lia.
    apply (rounds_compat (inject_Z x / inject_Z y) _ (JS.round53 x y));
      [reflexivity | change (inject_Z 1) with 1%Q; ring |].
    apply round53_rounds; lia.
Qed.

(** A quotient between two integers is rounded to a number between
    them. *)
Lemma div_between (x y low high : Z) :
  (0 < x)%Z -> (0 < y)%Z ->
  (low * y <= x)%Z -> (x <= high * y)%Z ->
  exists q, JS.div x y = JS.Fin q /\ (inject_Z low <= q /\ q <= inject_Z high)%Q.
Proof.
  intros Hx Hy Hlow Hhigh. unfold JS.div.
  replace (y =? 0)%Z with false by (symmetry; apply Z.eqb_neq; lia).
  destruct (JS.isSafeInteger x && JS.isSafeInteger y)%bool eqn:Esafe.
  - apply andb_true_iff in Esafe. destruct Esafe as [Hsafe _].
    unfold JS.isSafeInteger in Hsafe. apply Z.ltb_lt in Hsafe.
    eexists. split; [reflexivity|].
    replace (Z.sgn x) with 1%Z by lia. replace (Z.sgn y) with 1%Z by lia.
    replace (Z.abs x) with x by lia. replace (Z.abs y) with y by lia.
    destruct (round53_value x y ltac:(lia) Hy) as (m & w & Hw & _ & _ & Hbetween & Hr).
    destruct (Hbetween low high Hlow Hhigh) as [H1 H2].
    change (inject_Z (1 * 1)) with 1%Q. rewrite Qmult_1_l, Hr.
    unfold Qle, inject_Z. cbn [Qnum Qden]. rewrite Z2Pos.id by lia. lia.
  - eexists. split; [reflexivity|].
    rewrite (Qdiv_as_fraction x y Hy).
    unfold Qle, inject_Z. cbn [Qnum Qden]. rewrite Z2Pos.id by lia. lia.
Qed.

Lemma Qceiling_is (q : Q) (c : Z) :
  (inject_Z (c - 1) < q)%Q -> (q <= inject_Z c)%Q -> Qceiling q = c.
Proof.
  intros Hlow Hhigh.
  pose proof (Qle_ceiling q) as Hle. pose proof (Qceiling_lt q) as Hlt.
  assert (inject_Z (Qceiling q - 1) < inject_Z c)%Q as H1
      by (eapply Qlt_le_trans; eassumption).
  assert (inject_Z (c - 1) < inject_Z (Qceiling q))%Q as H2
      by (eapply Qlt_le_trans; eassumption).
  rewrite <- Zlt_Qlt in H1, H2. lia.
Qed.

(** [Math.ceil(n / 9)] is the ceiling of the exact quotient: the rounding
    of the division does not reach the next integer. *)
Lemma ceil_of_ninths (n : Z) :
  (0 <= n)%Z ->
  exists pages,
    JS.Math_ceil (JS.div n 9) = Some pages /\
    (9 * (pages - 1) < n <= 9 * pages)%Z.
Proof.
  intros Hn. exists ((n + 8) / 9)%Z.
  pose proof (Z.div_mod (n + 8) 9 ltac:(lia)) as Hdm.
  pose proof (Z.mod_pos_bound (n + 8) 9 ltac:(lia)) as Hr.
  set (c := ((n + 8) / 9)%Z) in *. set (r := ((n + 8) mod 9)%Z) in *. clearbody c r.
  split; [|lia].
  unfold JS.div. change (9 =? 0)%Z with false. cbv iota.
  destruct (JS.isSafeInteger n && JS.isSafeInteger 9)%bool eqn:Esafe;
    unfold JS.Math_ceil; f_equal; apply Qceiling_is.
  - apply andb_true_iff in Esafe. destruct Esafe as [Hsafe _].
    unfold JS.isSafeInteger in Hsafe. apply Z.ltb_lt in Hsafe.
    destruct (Z.eq_dec n 0) as [->|Hpos].
    + cbn [Z.sgn Z.mul]. change (inject_Z 0) with 0%Q. rewrite Qmult_0_l.
      unfold Qlt, inject_Z. cbn [Qnum Qden]. lia.
    + replace (Z.sgn n) with 1%Z by lia. replace (Z.abs n) with n by lia.
      destruct (round53_value n 9 ltac:(lia) ltac:(lia))
        as (m & w & Hw & Hnw & Hnear & Hbetween & Hq).
      change (inject_Z (1 * Z.sgn 9)) with 1%Q. rewrite Qmult_1_l.
      change (Z.abs 9) with 9%Z. rewrite Hq.
      unfold Qlt, inject_Z. cbn [Qnum Qden]. rewrite Z2Pos.id by lia.
      assert (5 <= w)%Z by nia. nia.
  - apply andb_true_iff in Esafe. destruct Esafe as [Hsafe _].
    unfold JS.isSafeInteger in Hsafe. apply Z.ltb_lt in Hsafe.
    destruct (Z.eq_dec n 0) as [->|Hpos].
    + cbn [Z.sgn Z.mul]. change (inject_Z 0) with 0%Q. rewrite Qmult_0_l.
      unfold Qle, inject_Z. cbn [Qnum Qden]. lia.
    + replace (Z.sgn n) with 1%Z by lia. replace (Z.abs n) with n by lia.
      destruct (round53_value n 9 ltac:(lia) ltac:(lia))
        as (m & w & Hw & Hnw & Hnear & Hbetween & Hq).
      change (inject_Z (1 * Z.sgn 9)) with 1%Q. rewrite Qmult_1_l.
      change (Z.abs 9) with 9%Z. rewrite Hq.
      unfold Qle, inject_Z. cbn [Qnum Qden]. rewrite Z2Pos.id by lia.
      destruct (Hbetween 0%Z c) as [_ H2]; lia.
  - rewrite (Qdiv_as_fraction n 9 ltac:(lia)).
    unfold Qlt, inject_Z. cbn [Qnum Qden Z.to_pos]. lia.
  - rewrite (Qdiv_as_fraction n 9 ltac:(lia)).
    unfold Qle, inject_Z. cbn [Qnum Qden Z.to_pos]. lia.
Qed.

(** ** White space *)

Lemma ltrim_length (n : nat) :
  forall s, String.length s <= n -> String.length (JS.ltrim s) <= String.length s.
Proof.
  induction n as [|n IH]; intros s Hs.
  - destruct s; [cbn; lia | cbn in Hs; lia].
  - destruct s as [|c1 r1]; [cbn; lia|]. cbn [String.length] in Hs.
    cbn [JS.ltrim]. destruct (JS.is_space c1).
    { specialize (IH r1 ltac:(lia)). cbn [String.length]. lia. }
    destruct r1 as [|c2 r2]; [lia|]. cbn [String.length] in Hs.
    destruct (JS.is_space2 c1 c2).
    { specialize (IH r2 ltac:(lia)). cbn [String.length]. lia. }
    destruct r2 as [|c3 r3]; [lia|]. cbn [String.length] in Hs.
    destruct (JS.is_space3 c1 c2 c3); [|lia].
    specialize (IH r3 ltac:(lia)). cbn [String.length]. lia.
Qed.

(** What [ltrim] leaves does not begin with white space. *)
Lemma ltrim_ltrim (n : nat) :
  forall s, String.length s <= n -> JS.ltrim (JS.ltrim s) = JS.ltrim s.
Proof.
  induction n as [|n IH]; intros s Hs.
  - destruct s; [reflexivity | cbn in Hs; lia].
  - destruct s as [|c1 r1]; [reflexivity|]. cbn [String.length] in Hs.
    cbn [JS.ltrim]. destruct (JS.is_space c1) eqn:E1.
    { apply IH. lia. }
    destruct r1 as [|c2 r2].
    { cbn [JS.ltrim]. now rewrite E1. }
    cbn [String.length] in Hs.
    destruct (JS.is_space2 c1 c2) eqn:E2.
    { apply IH. lia. }
    destruct r2 as [|c3 r3].
    { cbn [JS.ltrim]. now rewrite E1, E2. }
    cbn [String.length] in Hs.
    destruct (JS.is_space3 c1 c2 c3) eqn:E3.
    { apply IH. lia. }
    cbn [JS.ltrim]. now rewrite E1, E2, E3.
Qed.

Lemma blank_is (s : string) : JS.blank s = true <-> JS.ltrim s = "".
Proof. unfold JS.blank. destruct (JS.ltrim s); split; congruence. Qed.

Lemma rtrim_cons (c : ascii) (s : string) :
  JS.rtrim (String c s)
  = if JS.blank (String c s) then "" else String c (JS.rtrim s).
Proof. reflexivity. Qed.

(** When what [rtrim] leaves is blank, so was the string. *)
Lemma blank_rtrim (n : nat) :
  forall s, String.length s <= n -> JS.blank (JS.rtrim s) = true -> JS.blank s = true.
Proof.
  induction n as [|n IH]; intros s Hs.
  - destruct s; [auto | cbn in Hs; lia].
  - destruct s as [|c1 r1]; [auto|]. cbn [String.length] in Hs.
    rewrite rtrim_cons. destruct (JS.blank (String c1 r1)) eqn:B1; [reflexivity|].
    intros H. rewrite <- B1. apply blank_is. apply blank_is in H.
    cbn [JS.ltrim] in H |- *. destruct (JS.is_space c1).
    { apply blank_is, IH; [lia | now apply blank_is]. }
    destruct r1 as [|c2 r2]; [discriminate H|].
    cbn [String.length] in Hs. rewrite rtrim_cons in H.
    destruct (JS.blank (String c2 r2)) eqn:B2; [discriminate H|].
    destruct (JS.is_space2 c1 c2).
    { apply blank_is, IH; [lia | now apply blank_is]. }
    destruct r2 as [|c3 r3]; [discriminate H|].
    cbn [String.length] in Hs. rewrite rtrim_cons in H.
    destruct (JS.blank (String c3 r3)) eqn:B3; [discriminate H|].
    destruct (JS.is_space3 c1 c2 c3); [|discriminate H].
    apply blank_is, IH; [lia | now apply blank_is].
Qed.

Lemma rtrim_idempotent (s : string) : JS.rtrim (JS.rtrim s) = JS.rtrim s.
Proof.
  induction s as [|c s IH]; [reflexivity|].
  rewrite rtrim_cons. destruct (JS.blank (String c s)) eqn:B; [reflexivity|].
  rewrite rtrim_cons, IH.
  destruct (JS.blank (String c (JS.rtrim s))) eqn:B'; [|reflexivity].
  exfalso.
  assert (JS.blank (JS.rtrim (String c s)) = true) as H
      by (rewrite rtrim_cons, B; exact B').
  apply (blank_rtrim _ _ (Nat.le_refl _)) in H. congruence.
Qed.

(** [rtrim] does not uncover white space at the beginning. *)
Lemma ltrim_rtrim (s : string) :
  JS.ltrim s = s -> JS.ltrim (JS.rtrim s) = JS.rtrim s.
Proof.
  destruct s as [|c1 r1]; [reflexivity|]. intros Hs.
  pose proof (ltrim_length _ r1 (Nat.le_refl _)) as L1.
  rewrite rtrim_cons. destruct (JS.blank (String c1 r1)); [reflexivity|].
  cbn [JS.ltrim] in Hs |- *. destruct (JS.is_space c1).
  { exfalso. rewrite Hs in L1. cbn [String.length] in L1. lia. }
  destruct r1 as [|c2 r2]; [reflexivity|].
  pose proof (ltrim_length _ r2 (Nat.le_refl _)) as L2.
  rewrite rtrim_cons. destruct (JS.blank (String c2 r2)); [reflexivity|].
  destruct (JS.is_space2 c1 c2).
  { exfalso. rewrite Hs in L2. cbn [String.length] in L2. lia. }
  destruct r2 as [|c3 r3]; [reflexivity|].
  pose proof (ltrim_length _ r3 (Nat.le_refl _)) as L3.
  rewrite rtrim_cons. destruct (JS.blank (String c3 r3)); [reflexivity|].
  destruct (JS.is_space3 c1 c2 c3); [|reflexivity].
  exfalso. rewrite Hs in L3. cbn [String.length] in L3. lia.
Qed.

Lemma trim_idempotent (s : string) : JS.trim (JS.trim s) = JS.trim s.
Proof.
  unfold JS.trim.
  rewrite (ltrim_rtrim (JS.ltrim s)) by apply (ltrim_ltrim _ _ (Nat.le_refl _)).
  apply rtrim_idempotent.
Qed.

(** ** Authentication *)

Lemma startsWith_nonempty (p s : string) :
  p <> "" -> JS.startsWith p s = true -> (s =? "") = false.
Proof.
  intros Hp H. destruct s as [|c s']; [|reflexivity].
  destruct p; [congruence | discriminate H].
Qed.

Lemma authenticate_accepts (req : Request) (c : Claims) (s : State) :
  authenticates req c -> authenticate req s = (s, Next (set_user c req)).
Proof.
  intros (h & t & Hh & Hp & Ht & Hv).
  unfold authenticate. rewrite Hh, Hp.
  rewrite (startsWith_nonempty "Bearer " h) by (congruence || assumption).
  cbn [orb negb]. rewrite Ht, Hv. reflexivity.
Qed.

Lemma authenticate_rejects (req : Request) (s : State) :
  unauthenticated req ->
  exists msg, authenticate req s = (s, Sent (mkResponse 401 (error_body msg))).
Proof.
  unfold unauthenticated, authenticate. intros H.
  destruct (authorization req) as [h|]; [|eexists; reflexivity].
  destruct (h =? ""); cbn [orb]; [eexists; reflexivity|].
  destruct H as [H|H].
  - rewrite H. eexists; reflexivity.
  - destruct (JS.startsWith "Bearer " h); cbn [negb]; [|eexists; reflexivity].
    destruct (nth_error (JS.split " " h) 1) as [t|]; [|eexists; reflexivity].
    rewrite H. eexists; reflexivity.
Qed.

(** Whatever [authenticate] does, it does not touch the state; and it lets
    through exactly the requests whose header authenticates them. *)
Lemma authenticate_next (req req' : Request) (s s' : State) :
  authenticate req s = (s', Next req') ->
  s' = s /\ exists c, authenticates req c /\ req' = set_user c req.
Proof.
  unfold authenticate, authenticates.
  destruct (authorization req) as [h|]; [|discriminate].
  destruct (h =? ""); cbn [orb]; [discriminate|].
  destruct (JS.startsWith "Bearer " h) eqn:Hp; cbn [negb]; [|discriminate].
  destruct (nth_error (JS.split " " h) 1) as [t|] eqn:Ht; [|discriminate].
  destruct (jwt_verify t) as [c|] eqn:Hv; [|discriminate].
  intros H; inversion H; subst. split; [reflexivity|].
  exists c. split; [|reflexivity]. exists h, t. auto.
Qed.

(** A route that begins with [authenticate] answers a request that is not
    authenticated before anything else of the route runs. *)
Lemma authenticate_guards (ms : list Middleware) (h : Handler)
    (req : Request) (s : State) :
  unauthenticated req ->
  exists msg,
    serve (app_use parsed_body ++ authenticate :: ms) h req s
    = (s, mkResponse 401 (error_body msg)).
Proof.
  intros Hu. destruct (authenticate_rejects req s Hu) as [msg Hr].
  exists msg. unfold serve, app_use, cors, express_json.
  cbn [List.app chain]. unfold bind, ret. rewrite Hr. reflexivity.
Qed.

Lemma protected_route (e : Endpoint) :
  protected e = true -> exists ms, fst (route e) = authenticate :: ms.
Proof. destruct e; try discriminate; intros _; eexists; reflexivity. Qed.

(** C6, as amended: a request to a protected endpoint whose Authorization
    header is absent, does not start with the Bearer scheme or carries a
    token that does not verify is answered with 401 when express.json()
    has let it through, and with the 500 of the error handler of server.js
    when express.json() has refused its body; in both cases the answer
    and the state do not depend on the handler of the route, which is
    never run, and the state is the one before the request. *)
Theorem protected_endpoint_requires_token
    (e : Endpoint) (body : Parse) (req : Request) (s : State) :
  protected e = true ->
  unauthenticated req ->
  exists resp,
    status resp = match body with parsed_body => 401 | parse_error => 500 end /\
    server e body req s = (s, resp) /\
    forall h : Handler, serve (app_use body ++ fst (route e)) h req s = (s, resp).
Proof.
  intros He Hu.
  destruct (protected_route e He) as [ms Hms].
  destruct (authenticate_rejects req s Hu) as [msg Hr].
  destruct body.
  - exists (mkResponse 401 (error_body msg)).
    split; [reflexivity|].
    assert (forall h : Handler,
               serve (app_use parsed_body ++ fst (route e)) h req s
               = (s, mkResponse 401 (error_body msg))) as Hserve.
    { intros h. rewrite Hms. unfold serve, app_use, cors, express_json.
      cbn [List.app chain]. unfold bind, ret. rewrite Hr. reflexivity. }
    split; [apply Hserve | exact Hserve].
  - exists (mkResponse 500 (error_body "Something went wrong!")).
    split; [reflexivity|].
    assert (forall h : Handler,
               serve (app_use parse_error ++ fst (route e)) h req s
               = (s, mkResponse 500 (error_body "Something went wrong!"))) as Hserve
        by (intros h; reflexivity).
    split; [apply Hserve | exact Hserve].
Qed.

(** ** Validation *)

Lemma check_errors (ok : bool) (param msg : string) (r : Request) :
  validationErrors (check ok param msg r)
  = validationErrors r ++ (if ok then [] else [(param, msg)]).
Proof. destruct ok; cbn; [now rewrite app_nil_r | reflexivity]. Qed.

Lemma rating_chain_keeps (r : Request) :
  body_bookId (rating_chain r) = body_bookId r /\
  body_rating (rating_chain r) = body_rating r /\
  body_content (rating_chain r) = body_content r /\
  user (rating_chain r) = user r /\
  now (rating_chain r) = now r /\
  params_id (rating_chain r) = params_id r.
Proof. repeat split; chain_fields. Qed.

Lemma content_chain_keeps (r : Request) :
  body_bookId (content_chain r) = body_bookId r /\
  body_rating (content_chain r) = body_rating r /\
  body_content (content_chain r) = sanitize JS.trim (body_content r) /\
  user (content_chain r) = user r /\
  now (content_chain r) = now r /\
  params_id (content_chain r) = params_id r.
Proof. repeat split; chain_fields. Qed.

Lemma rating_chain_errors (r : Request) :
  validationErrors (rating_chain r)
  = validationErrors r ++
    (if isInt 1 5 (body_rating r) then []
     else [("rating", "Rating must be between 1 and 5")]).
Proof. unfold rating_chain. apply check_errors. Qed.

Lemma content_chain_errors (r : Request) :
  validationErrors (content_chain r)
  = validationErrors r ++
    (if isString (body_content r) then [] else [("content", default_message)]) ++
    (if isLength 10 (Some 1000) (toString (sanitize JS.trim (body_content r))) then []
     else [("content", "Review must be between 10 and 1000 characters")]).
Proof.
  unfold content_chain. cbv zeta. rewrite check_errors.
  cbn [set_body_content validationErrors body_content]. rewrite check_errors.
  replace (body_content (check (isString (body_content r)) "content" default_message r))
    with (body_content r) by chain_fields.
  now rewrite <- app_assoc.
Qed.

(** The review routes behind [authenticate], [reviewValidation] and
    [validate]: a request whose header authenticates it reaches the handler
    with its claims and its trimmed content when the chains have recorded
    no error, and is answered with 400 and the errors when they have. *)
Lemma review_route (h : Handler) (req : Request) (c : Claims) (s : State) :
  authenticates req c ->
  serve (app_use parsed_body ++ authenticate :: reviewValidation ++ [validate]) h req s
  = let req' := content_chain (rating_chain (set_user c req)) in
    match validationErrors req' with
    | [] => serve [] h req' s
    | errors =>
        (s, mkResponse 400 (JObj [("errors", JArr (map validation_error errors))]))
    end.
Proof.
  intros Ha. unfold serve, app_use, cors, express_json, reviewValidation, as_middleware, validate.
  cbn [List.app chain]. unfold bind, ret.
  rewrite (authenticate_accepts req c s Ha).
  cbv zeta.
  destruct (validationErrors (content_chain (rating_chain (set_user c req))));
    reflexivity.
Qed.

Lemma authenticated_or_not (req : Request) :
  (exists c, authenticates req c) \/ unauthenticated req.
Proof.
  unfold authenticates, unauthenticated.
  destruct (authorization req) as [h|]; [|now right].
  destruct (JS.startsWith "Bearer " h) eqn:Hp; [|right; now left].
  destruct (nth_error (JS.split " " h) 1) as [t|] eqn:Ht; [|right; now right].
  destruct (jwt_verify t) as [c|] eqn:Hv; [|right; now right].
  left. exists c, h, t. auto.
Qed.

(** C5, as amended: a POST /api/reviews whose rating is an integer outside
    1..5 leaves the state as it was (no review is created, no book
    changes); when its header authenticates it the answer is 400 and
    carries the validation error of the rating, and when it does not the
    answer is the 401 of [authenticate]. *)
Theorem rating_out_of_range_is_rejected
    (req : Request) (s : State) (z : Z) :
  body_rating req = Some z ->
  (z < 1 \/ 5 < z)%Z ->
  exists resp,
    app POST_reviews req s = (s, resp) /\
    (((exists c, authenticates req c) /\
      status resp = 400 /\
      exists errors,
        body resp = JObj [("errors", JArr (map validation_error errors))] /\
        In ("rating", "Rating must be between 1 and 5") errors)
     \/
     (unauthenticated req /\ status resp = 401)).
Proof.
  intros Hz Hout.
  destruct (authenticated_or_not req) as [[c Ha]|Hu].
  - unfold app, server; cbn [route fst snd]. rewrite (review_route _ req c s Ha). cbv zeta.
    assert (In ("rating", "Rating must be between 1 and 5")
               (validationErrors (content_chain (rating_chain (set_user c req))))) as Hin.
    { rewrite content_chain_errors, rating_chain_errors.
      cbn [set_user body_rating]. rewrite Hz. cbn [isInt].
      replace ((1 <=? z)%Z && (z <=? 5)%Z)%bool with false
        by (symmetry; apply andb_false_iff; rewrite Z.leb_gt, Z.leb_gt; lia).
      apply in_or_app; left. apply in_or_app; right. now left. }
    destruct (validationErrors (content_chain (rating_chain (set_user c req))))
      as [|e errors] eqn:He; [destruct Hin|].
    eexists; split; [reflexivity|]. left.
    split; [now exists c|]. split; [reflexivity|].
    exists (e :: errors). split; [reflexivity | exact Hin].
  - destruct (authenticate_guards (reviewValidation ++ [validate]) create_review req s Hu)
      as [msg Hr].
    eexists. split; [exact Hr|]. right. now split.
Qed.

(** ** Aggregation *)

Lemma fold_left_ratings (rs : list Review.doc) (a : Z) :
  fold_left (fun acc review => (acc + Review.rating review)%Z) rs a
  = (a + total (map Review.rating rs))%Z.
Proof.
  revert a. induction rs as [|r rs IH]; intros a;
    unfold total; cbn [fold_left map fold_right].
  - lia.
  - rewrite IH. unfold total. lia.
Qed.

Lemma sum_ratings_total (rs : list Review.doc) :
  sum_ratings rs = total (map Review.rating rs).
Proof. unfold sum_ratings, JS.reduce. now rewrite fold_left_ratings. Qed.

(** The quotient the handlers compute is the mean of the ratings up to the
    rounding of a double, as soon as there is a review. *)
Lemma div_rounds_mean (rs : list Review.doc) :
  rs <> [] ->
  exists q,
    JS.div (sum_ratings rs) (Z.of_nat (List.length rs)) = JS.Fin q /\
    JS.rounds (mean (map Review.rating rs)) q.
Proof.
  intros Hne. destruct rs as [|r rs]; [congruence|].
  destruct (div_rounds (sum_ratings (r :: rs)) (Z.of_nat (List.length (r :: rs))))
    as (q & Ediv & Hq); [cbn [List.length]; lia|].
  exists q. split; [exact Ediv|].
  rewrite sum_ratings_total in Hq.
  unfold mean. cbn [map List.length] in Hq |- *. now rewrite length_map.
Qed.

(** And without a review it is not a number. *)
Lemma div_of_nothing : JS.div (sum_ratings []) (Z.of_nat (List.length (@nil Review.doc))) = JS.NaN.
Proof. reflexivity. Qed.

Lemma find_update_by_id (id : ObjectId) (u : BookUpdate) (l : list Book.doc) :
  find (fun b => (Book._id b =? id)%nat) (update_by_id id u l)
  = option_map (apply_update u) (find (fun b => (Book._id b =? id)%nat) l).
Proof.
  induction l as [|b l IH]; [reflexivity|].
  cbn [update_by_id find]. destruct (Book._id b =? id)%nat eqn:E.
  - cbn [find]. cbn [apply_update Book._id]. now rewrite E.
  - cbn [find]. now rewrite E.
Qed.

(** What a successful run of the create handler has done. *)
Lemma create_review_201 (req : Request) (s s' : State) (resp : Response) :
  serve [] create_review req s = (s', resp) ->
  status resp = 201 ->
  exists b c z txt,
    body_bookId req = Some b /\ user req = Some c /\
    body_rating req = Some z /\ body_content req = Some txt /\
    let review := Review.mk (nextId s) b (claim_id c) z txt (now req) (now req) in
    let rs := filter (of_book b) (reviews s ++ [review]) in
    s' = with_books
           (update_by_id b
              (mkBookUpdate (Some (JS.div (sum_ratings rs) (Z.of_nat (List.length rs))))
                            (Some (Z.of_nat (List.length rs))))
              (books s))
           (with_reviews (reviews s ++ [review]) (with_nextId (S (nextId s)) s)).
Proof.
  unfold serve, chain, create_review.
  destruct (body_bookId req) as [b|]; run; [|answered].
  destruct (user req) as [c|]; run; [|answered].
  destruct (find _ (reviews s)); run; [answered|].
  destruct (body_rating req) as [z|]; run; [|answered].
  destruct (body_content req) as [txt|]; run; [|answered].
  destruct ((1 <=? z)%Z && (z <=? 5)%Z && negb (txt =? ""))%bool; run; [|answered].
  match goal with
  | |- context [JS.div ?a ?b] => destruct (JS.div a b) eqn:Ediv
  end; run; try answered;
    intros H _; inversion H; subst;
    exists b, c, z, txt; repeat split; cbv zeta; rewrite Ediv; reflexivity.
Qed.

(** What reaches the handler of a review route is the request with its
    claims and its trimmed content. *)
Lemma review_request_fields (req : Request) (c : Claims) :
  let req' := content_chain (rating_chain (set_user c req)) in
  body_bookId req' = body_bookId req /\
  body_rating req' = body_rating req /\
  body_content req' = sanitize JS.trim (body_content req) /\
  user req' = Some c /\
  now req' = now req /\
  params_id req' = params_id req.
Proof.
  cbv zeta.
  destruct (content_chain_keeps (rating_chain (set_user c req)))
    as (-> & -> & -> & -> & -> & ->).
  destruct (rating_chain_keeps (set_user c req)) as (-> & -> & -> & -> & -> & ->).
  repeat split.
Qed.

Lemma ratings_of_reviews (b : ObjectId) (s : State) :
  ratings_of b s = map Review.rating (filter (of_book b) (reviews s)).
Proof. reflexivity. Qed.

(** C1: after a successful POST /api/reviews (status 201) for a book of the
    collection, the collection of reviews is the old one with the new
    review, which is a review of that book with the rating of the request,
    the rating of the book is the arithmetic mean of the ratings of all
    reviews of the book, the new one included, up to the rounding of a
    double (an error of at most 2^-53 of the mean, and none when the mean
    is an integer), and its reviewCount is their number. *)
Theorem create_review_recomputes_book
    (req : Request) (s s' : State) (resp : Response)
    (b : ObjectId) (book : Book.doc) :
  app POST_reviews req s = (s', resp) ->
  status resp = 201 ->
  body_bookId req = Some b ->
  Book_findById b s = Some book ->
  exists review book',
    reviews s' = reviews s ++ [review] /\
    Review.bookId review = b /\
    body_rating req = Some (Review.rating review) /\
    Book_findById b s' = Some book' /\
    rating_is_rounded_mean book' (ratings_of b s') /\
    Book.reviewCount book' = Z.of_nat (List.length (ratings_of b s')).
Proof.
  intros Happ Hst Hb Hbook.
  unfold app, server in Happ; cbn [route fst snd] in Happ.
  destruct (authenticated_or_not req) as [[c Ha]|Hu].
  2: { destruct (authenticate_guards (reviewValidation ++ [validate]) create_review
                   req s Hu) as [msg Hr].
       rewrite Hr in Happ. inversion Happ; subst. discriminate Hst. }
  rewrite (review_route _ req c s Ha) in Happ. cbv zeta in Happ.
  destruct (validationErrors (content_chain (rating_chain (set_user c req)))).
  2: { inversion Happ; subst. discriminate Hst. }
  apply create_review_201 in Happ; [|exact Hst].
  destruct (review_request_fields req c) as (Eb & Er & Ec & Eu & En & _).
  destruct Happ as (b' & c' & z & txt & Hb' & Hc' & Hz & Htxt & Hs').
  rewrite Eb, Hb in Hb'. injection Hb' as <-.
  rewrite Er in Hz. rewrite En in Hs'. cbv zeta in Hs'.
  set (review := Review.mk (nextId s) b (claim_id c') z txt (now req) (now req)) in *.
  assert (filter (of_book b) (reviews s ++ [review]) <> []) as Hne.
  { rewrite filter_app. cbn [filter]. unfold of_book at 2. cbn [Review.bookId review].
    rewrite Nat.eqb_refl. intros E. apply app_eq_nil in E. destruct E; discriminate. }
  destruct (div_rounds_mean _ Hne) as (q & Ediv & Hq). rewrite Ediv in Hs'.
  exists review. eexists. subst s'.
  split; [reflexivity|]. split; [reflexivity|]. split; [exact Hz|].
  split.
  { unfold Book_findById in *. cbn [books with_books with_reviews with_nextId].
    rewrite find_update_by_id, Hbook. reflexivity. }
  rewrite ratings_of_reviews. cbn [reviews with_books with_reviews with_nextId].
  split.
  - exists q. split; [reflexivity | exact Hq].
  - cbn [apply_update Book.reviewCount set_reviewCount]. now rewrite length_map.
Qed.

(** What a successful run of the update handler has done. *)
Lemma update_review_200 (req : Request) (s s' : State) (resp : Response) :
  serve [] update_review req s = (s', resp) ->
  status resp = 200 ->
  exists id c z txt review,
    params_id req = Some id /\ user req = Some c /\
    body_rating req = Some z /\ body_content req = Some txt /\
    find (fun r => ((Review._id r =? id)%nat && (Review.userId r =? claim_id c)%nat)%bool)
         (reviews s) = Some review /\
    let review' :=
      Review.mk (Review._id review) (Review.bookId review) (Review.userId review)
                z txt (Review.createdAt review) (now req) in
    let all :=
      map (fun r => if (Review._id r =? Review._id review)%nat then review' else r)
          (reviews s) in
    let rs := filter (of_book (Review.bookId review)) all in
    s' = with_books
           (update_by_id (Review.bookId review)
              (mkBookUpdate (Some (JS.div (sum_ratings rs) (Z.of_nat (List.length rs))))
                            None)
              (books s))
           (with_reviews all s).
Proof.
  unfold serve, chain, update_review.
  destruct (params_id req) as [id|]; run; [|answered].
  destruct (user req) as [c|]; run; [|answered].
  destruct (find _ (reviews s)) as [review|] eqn:Efind; run; [|answered].
  destruct (body_rating req) as [z|]; run; [|answered].
  destruct (body_content req) as [txt|]; run; [|answered].
  destruct ((1 <=? z)%Z && (z <=? 5)%Z && negb (txt =? ""))%bool; run; [|answered].
  cbn [Review.bookId].
  match goal with
  | |- context [JS.div ?a ?b] => destruct (JS.div a b) eqn:Ediv
  end; run; try answered;
    intros H _; inversion H; subst;
    exists id, c, z, txt, review; repeat split; try exact Efind;
    cbv zeta; rewrite Ediv; reflexivity.
Qed.

Lemma in_map_replaced (review review' : Review.doc) (l : list Review.doc) :
  In review l ->
  In review' (map (fun r => if (Review._id r =? Review._id review)%nat
                            then review' else r) l).
Proof.
  intros Hin. apply in_map_iff. exists review.
  now rewrite Nat.eqb_refl.
Qed.

(** C2, as amended: after a successful PUT /api/reviews/:id the review of
    the caller with that id carries the rating of the request, the number
    of reviews is what it was, and the rating of the book of the review is
    overwritten with the mean of the current ratings of its reviews, up to
    the rounding of a double (an error of at most 2^-53 of the mean, and
    none when the mean is an integer); the reviewCount of the book is not
    written and keeps the value it had. *)
Theorem update_review_recomputes_rating
    (req : Request) (s s' : State) (resp : Response) :
  app PUT_reviews_id req s = (s', resp) ->
  status resp = 200 ->
  exists review review',
    In review (reviews s) /\
    params_id req = Some (Review._id review) /\
    In review' (reviews s') /\
    Review._id review' = Review._id review /\
    Review.bookId review' = Review.bookId review /\
    body_rating req = Some (Review.rating review') /\
    List.length (reviews s') = List.length (reviews s) /\
    forall book,
      Book_findById (Review.bookId review) s = Some book ->
      exists book',
        Book_findById (Review.bookId review) s' = Some book' /\
        rating_is_rounded_mean book' (ratings_of (Review.bookId review) s') /\
        Book.reviewCount book' = Book.reviewCount book.
Proof.
  intros Happ Hst.
  unfold app, server in Happ; cbn [route fst snd] in Happ.
  destruct (authenticated_or_not req) as [[c Ha]|Hu].
  2: { destruct (authenticate_guards (reviewValidation ++ [validate]) update_review
                   req s Hu) as [msg Hr].
       rewrite Hr in Happ. inversion Happ; subst. discriminate Hst. }
  rewrite (review_route _ req c s Ha) in Happ. cbv zeta in Happ.
  destruct (validationErrors (content_chain (rating_chain (set_user c req)))).
  2: { inversion Happ; subst. discriminate Hst. }
  apply update_review_200 in Happ; [|exact Hst].
  destruct (review_request_fields req c) as (_ & Er & _ & _ & En & Ep).
  destruct Happ as (id & c' & z & txt & review & Hid & _ & Hz & _ & Hfind & Hs').
  rewrite Ep in Hid. rewrite Er in Hz. rewrite En in Hs'. cbv zeta in Hs'.
  apply find_some in Hfind. destruct Hfind as [Hin Hmatch].
  apply andb_true_iff in Hmatch. destruct Hmatch as [Hidm _].
  apply Nat.eqb_eq in Hidm. subst id.
  set (review' := Review.mk (Review._id review) (Review.bookId review)
                            (Review.userId review) z txt
                            (Review.createdAt review) (now req)) in *.
  set (all := map (fun r => if (Review._id r =? Review._id review)%nat
                            then review' else r) (reviews s)) in *.
  assert (In review' all) as Hin' by (apply in_map_replaced; exact Hin).
  assert (filter (of_book (Review.bookId review)) all <> []) as Hne.
  { intros E.
    assert (In review' (filter (of_book (Review.bookId review)) all)) as Hf.
    { apply filter_In. split; [exact Hin'|]. unfold of_book. apply Nat.eqb_refl. }
    rewrite E in Hf. destruct Hf. }
  destruct (div_rounds_mean _ Hne) as (q & Ediv & Hq). rewrite Ediv in Hs'.
  exists review, review'. subst s'.
  cbn [reviews with_books with_reviews].
  repeat split; try assumption; try reflexivity.
  - unfold all. apply length_map.
  - intros book Hbook. eexists. split.
    { unfold Book_findById in *. cbn [books with_books with_reviews].
      rewrite find_update_by_id, Hbook. reflexivity. }
    rewrite ratings_of_reviews. cbn [reviews with_books with_reviews].
    split; [exists q; split; [reflexivity | exact Hq] | reflexivity].
Qed.

(** A route with [authenticate] alone in front of its handler. *)
Lemma authenticated_route (h : Handler) (req : Request) (c : Claims) (s : State) :
  authenticates req c ->
  serve (app_use parsed_body ++ [authenticate]) h req s = serve [] h (set_user c req) s.
Proof.
  intros Ha. unfold serve, app_use, cors, express_json.
  cbn [List.app chain]. unfold bind, ret.
  now rewrite (authenticate_accepts req c s Ha).
Qed.

(** With ids that are not shared, the review the handlers load by id and
    owner is the review one thinks of. *)
Lemma find_by_id_and_owner (r : Review.doc) (l : list Review.doc) :
  NoDup (map Review._id l) ->
  In r l ->
  find (fun x => ((Review._id x =? Review._id r)%nat &&
                  (Review.userId x =? Review.userId r)%nat)%bool) l
  = Some r.
Proof.
  induction l as [|a l IH]; intros Hnd Hin; [destruct Hin|].
  cbn [map] in Hnd. inversion Hnd as [|? ? Hnotin Hnd']; subst.
  cbn [find]. destruct Hin as [->|Hin].
  - now rewrite !Nat.eqb_refl.
  - destruct (Review._id a =? Review._id r)%nat eqn:E.
    + apply Nat.eqb_eq in E. exfalso. apply Hnotin. rewrite E.
      now apply in_map.
    + cbn [andb]. now apply IH.
Qed.

Lemma filter_swap {A : Type} (p q : A -> bool) (l : list A) :
  filter p (filter q l) = filter q (filter p l).
Proof.
  induction l as [|a l IH]; [reflexivity|].
  cbn [filter]. destruct (p a) eqn:Ep, (q a) eqn:Eq; cbn [filter];
    rewrite ?Ep, ?Eq, IH; reflexivity.
Qed.

(** C3: when a book has exactly one review and its author deletes it, the
    delete succeeds, the book has no review left, and the book is written
    with rating 0 and reviewCount 0; the rating is the 0 of the guard and
    not the quotient by the number of reviews, which is not a number. *)
Theorem delete_only_review_resets_book
    (req : Request) (s : State) (c : Claims)
    (r : Review.doc) (b : ObjectId) (book : Book.doc) :
  authenticates req c ->
  claim_id c = Review.userId r ->
  params_id req = Some (Review._id r) ->
  review_ids_unique s ->
  filter (of_book b) (reviews s) = [r] ->
  Book_findById b s = Some book ->
  exists s' resp book',
    app DELETE_reviews_id req s = (s', resp) /\
    status resp = 200 /\
    reviews s' = filter (fun x => negb (Review._id x =? Review._id r)%nat) (reviews s) /\
    ratings_of b s' = [] /\
    Book_findById b s' = Some book' /\
    Book.rating book' = JS.Fin 0 /\
    Book.reviewCount book' = 0%Z /\
    JS.div (total (ratings_of b s')) (Z.of_nat (List.length (ratings_of b s')))
    = JS.NaN.
Proof.
  intros Ha Howner Hid Hnd Honly Hbook.
  assert (In r (reviews s) /\ Review.bookId r = b) as [Hin Hb].
  { assert (In r (filter (of_book b) (reviews s))) as H by (rewrite Honly; now left).
    apply filter_In in H. destruct H as [H1 H2]. split; [exact H1|].
    now apply Nat.eqb_eq in H2. }
  assert (filter (of_book b)
            (filter (fun x => negb (Review._id x =? Review._id r)%nat) (reviews s)) = [])
    as Hnone.
  { rewrite filter_swap, Honly. cbn [filter]. now rewrite Nat.eqb_refl. }
  unfold app, server; cbn [route fst snd].
  rewrite (authenticated_route _ req c s Ha).
  unfold serve, chain, delete_review. run. cbn [set_user params_id user].
  rewrite Hid. run. rewrite Howner, (find_by_id_and_owner r _ Hnd Hin). run.
  rewrite Hb, Hnone. cbn [List.length Nat.ltb Nat.leb]. run.
  do 3 eexists. split; [reflexivity|].
  cbn [status reviews with_books with_reviews].
  split; [reflexivity|]. split; [reflexivity|].
  rewrite ratings_of_reviews. cbn [reviews with_books with_reviews].
  rewrite Hnone. split; [reflexivity|].
  split.
  { unfold Book_findById in *. cbn [books with_books with_reviews].
    rewrite find_update_by_id, Hbook. reflexivity. }
  repeat split.
Qed.

(** ** One review per reader and book, one account per name and address *)

Lemma find_is_some {A : Type} (p : A -> bool) (l : list A) (x : A) :
  In x l -> p x = true -> exists y, find p l = Some y.
Proof.
  intros Hin Hp. destruct (find p l) as [y|] eqn:E; [now exists y|].
  rewrite (find_none p l E x Hin) in Hp. discriminate.
Qed.

(** C4: when the caller already has a review of the book, a further
    POST /api/reviews for that book is answered with 400 and the state is
    the one before the request: no review is created and no book is
    written. *)
Theorem second_review_is_refused
    (req : Request) (s : State) (c : Claims) (b : ObjectId) :
  authenticates req c ->
  body_bookId req = Some b ->
  (exists r, In r (reviews s) /\ Review.bookId r = b /\ Review.userId r = claim_id c) ->
  exists resp, app POST_reviews req s = (s, resp) /\ status resp = 400.
Proof.
  intros Ha Hb (r & Hin & Hrb & Hru).
  unfold app, server; cbn [route fst snd].
  rewrite (review_route _ req c s Ha). cbv zeta.
  destruct (validationErrors (content_chain (rating_chain (set_user c req)))).
  2: { eexists. split; reflexivity. }
  destruct (review_request_fields req c) as (Eb & _ & _ & Eu & _ & _).
  unfold serve, chain, create_review. run. rewrite Eb, Hb, Eu. run.
  destruct (find_is_some
              (fun x => (of_book b x && (Review.userId x =? claim_id c)%nat)%bool)
              (reviews s) r Hin) as [y Hy].
  { unfold of_book. rewrite Hrb, Hru, !Nat.eqb_refl. reflexivity. }
  rewrite Hy. eexists. split; reflexivity.
Qed.

Lemma username_chain_keeps (r : Request) :
  body_username (username_chain r) = sanitize JS.trim (body_username r) /\
  body_email (username_chain r) = body_email r.
Proof. split; chain_fields. Qed.

Lemma email_chain_keeps (msg : string) (r : Request) :
  body_username (email_chain msg r) = body_username r /\
  body_email (email_chain msg r) = sanitize normalizeEmail (body_email r).
Proof. split; chain_fields. Qed.

Lemma password_chain_keeps (r : Request) :
  body_username (password_chain r) = body_username r /\
  body_email (password_chain r) = body_email r.
Proof. split; chain_fields. Qed.

(** The register route behind [userValidation] and [validate]. *)
Lemma register_route (h : Handler) (req : Request) (s : State) :
  serve (app_use parsed_body ++ userValidation ++ [validate]) h req s
  = let req' := password_chain (email_chain "Invalid email address" (username_chain req)) in
    match validationErrors req' with
    | [] => serve [] h req' s
    | errors =>
        (s, mkResponse 400 (JObj [("errors", JArr (map validation_error errors))]))
    end.
Proof.
  unfold serve, app_use, cors, express_json, userValidation, as_middleware, validate.
  cbn [List.app chain]. unfold bind, ret. cbv zeta.
  destruct (validationErrors
              (password_chain (email_chain "Invalid email address" (username_chain req))));
    reflexivity.
Qed.

Lemma register_request_fields (req : Request) :
  let req' := password_chain (email_chain "Invalid email address" (username_chain req)) in
  body_username req' = sanitize JS.trim (body_username req) /\
  body_email req' = sanitize normalizeEmail (body_email req).
Proof.
  cbv zeta.
  destruct (password_chain_keeps
              (email_chain "Invalid email address" (username_chain req))) as (-> & ->).
  destruct (email_chain_keeps "Invalid email address" (username_chain req)) as (-> & ->).
  destruct (username_chain_keeps req) as (-> & ->).
  split; reflexivity.
Qed.



(** ** The listing of the books *)

Lemma insert_newest_first_perm (b : Book.doc) (l : list Book.doc) :
  Permutation (b :: l) (insert_newest_first b l).
Proof.
  induction l as [|x l IH]; cbn [insert_newest_first]; [apply Permutation_refl|].
  destruct (Book.createdAt x <=? Book.createdAt b)%Z; [apply Permutation_refl|].
  eapply perm_trans; [apply perm_swap|]. now apply perm_skip.
Qed.

Lemma sort_newest_first_perm (l : list Book.doc) :
  Permutation l (sort_newest_first l).
Proof.
  induction l as [|b l IH]; [apply perm_nil|].
  cbn [sort_newest_first fold_right].
  eapply perm_trans; [|apply insert_newest_first_perm].
  now apply perm_skip.
Qed.

Lemma insert_newest_first_sorted (b : Book.doc) (l : list Book.doc) :
  StronglySorted newest_first l ->
  StronglySorted newest_first (insert_newest_first b l).
Proof.
  induction l as [|x l IH]; intros Hs; cbn [insert_newest_first].
  - constructor; [constructor | constructor].
  - destruct (Book.createdAt x <=? Book.createdAt b)%Z eqn:E.
    + apply Z.leb_le in E. constructor; [exact Hs|].
      apply StronglySorted_inv in Hs. destruct Hs as [_ Hall].
      constructor; [exact E|].
      eapply Forall_impl; [|exact Hall].
      unfold newest_first. intros y Hy. lia.
    + apply Z.leb_gt in E.
      apply StronglySorted_inv in Hs. destruct Hs as [Hs Hall].
      constructor; [now apply IH|].
      rewrite Forall_forall in *. intros y Hy.
      apply (Permutation_in _ (Permutation_sym (insert_newest_first_perm b l))) in Hy.
      destruct Hy as [<-|Hy]; [unfold newest_first; lia | now apply Hall].
Qed.

Lemma sort_newest_first_sorted (l : list Book.doc) :
  StronglySorted newest_first (sort_newest_first l).
Proof.
  induction l as [|b l IH]; [constructor|].
  cbn [sort_newest_first fold_right]. now apply insert_newest_first_sorted.
Qed.

Lemma sorted_skipn {A : Type} (R : A -> A -> Prop) (n : nat) (l : list A) :
  StronglySorted R l -> StronglySorted R (skipn n l).
Proof.
  revert l. induction n as [|n IH]; intros l Hs; [exact Hs|].
  destruct l as [|a l]; [constructor|].
  cbn [skipn]. apply IH. now apply StronglySorted_inv in Hs.
Qed.

Lemma sorted_firstn {A : Type} (R : A -> A -> Prop) (n : nat) (l : list A) :
  StronglySorted R l -> StronglySorted R (firstn n l).
Proof.
  revert l. induction n as [|n IH]; intros l Hs; [constructor|].
  destruct l as [|a l]; [constructor|].
  cbn [firstn]. apply StronglySorted_inv in Hs. destruct Hs as [Hs Hall].
  constructor; [now apply IH|].
  rewrite Forall_forall in *. intros y Hy. apply Hall.
  rewrite <- (firstn_skipn n l). apply in_or_app. now left.
Qed.

(** [Math.ceil(total / 9)] is the least number of pages of nine that hold
    [total] books. *)
Lemma ceil_ninths (n : nat) :
  exists pages,
    JS.Math_ceil (JS.div (Z.of_nat n) (Z.of_nat 9)) = Some pages /\
    (9 * (pages - 1) < Z.of_nat n <= 9 * pages)%Z.
Proof. apply ceil_of_ninths. lia. Qed.

(** The filter of a listing whose search is empty or a pattern. *)
Lemma build_query_runs (search genre : string) (s : State) :
  search = "" \/ RegExp_i search <> None ->
  exists query, build_query search genre s = (s, Next query).
Proof.
  intros H. unfold build_query.
  destruct (search =? "") eqn:E; [eexists; reflexivity|].
  destruct H as [->|H]; [discriminate E|].
  destruct (RegExp_i search); [eexists; reflexivity | congruence].
Qed.

(** C10, as amended: a GET /api/books for a page from 1 on (page 1 when
    none is given), with a search that is empty or a pattern, is answered
    with 200 and at most 9 books: the matching books sorted by createdAt,
    newest first, without the first (page-1)*9 of them and cut after 9;
    totalPages is the ceiling of the number of matching books divided by
    9.  The state is not changed. *)
Theorem listing_is_a_page_of_nine (req : Request) (s : State) :
  (1 <= requested_page req)%Z ->
  query_search req = "" \/ RegExp_i (query_search req) <> None ->
  exists query shown pages,
    build_query (query_search req) (query_genre req) s = (s, Next query) /\
    app GET_books req s
    = (s, mkResponse 200
            (JObj [("books", JArr (map Book.toJSON shown));
                   ("totalPages", JInt pages);
                   ("currentPage", JInt (requested_page req))])) /\
    let matching := filter query (books s) in
    let sorted := sort_newest_first matching in
    Permutation matching sorted /\
    StronglySorted newest_first sorted /\
    shown = firstn 9 (skipn (Z.to_nat ((requested_page req - 1) * 9)) sorted) /\
    (List.length shown <= 9)%nat /\
    StronglySorted newest_first shown /\
    (9 * (pages - 1) < Z.of_nat (List.length matching) <= 9 * pages)%Z.
Proof.
  intros Hpage Hsearch.
  destruct (build_query_runs (query_search req) (query_genre req) s Hsearch)
    as [query Hq].
  destruct (ceil_ninths (List.length (filter query (books s)))) as (pages & Hceil & Hpages).
  exists query. eexists. exists pages.
  split; [exact Hq|].
  split.
  { unfold app, server; cbn [route fst snd]. unfold serve, app_use, cors, express_json.
    cbn [List.app chain]. unfold list_books, Book_find_page, Book_countDocuments.
    run. rewrite Hq.
    change (match query_page req with Some p => p | None => 1%Z end)
      with (requested_page req).
    replace ((requested_page req - 1) * Z.of_nat 9 <? 0)%Z with false
      by (symmetry; apply Z.ltb_ge; lia).
    rewrite Hceil. cbn [opt_json]. reflexivity. }
  cbv zeta.
  split; [apply sort_newest_first_perm|].
  split; [apply sort_newest_first_sorted|].
  split; [reflexivity|].
  split; [apply firstn_le_length|].
  split; [|exact Hpages].
  apply sorted_firstn, sorted_skipn, sort_newest_first_sorted.
Qed.

(** The other listings: a page before the first one, or a search that is
    not a pattern, ends in the catch of the handler. *)
Lemma listing_fails (req : Request) (s : State) :
  (requested_page req < 1)%Z \/
  (query_search req <> "" /\ RegExp_i (query_search req) = None) ->
  exists msg, app GET_books req s = (s, mkResponse 500 (error_body msg)).
Proof.
  intros H.
  unfold app, server; cbn [route fst snd]. unfold serve, app_use, cors, express_json.
  cbn [List.app chain]. unfold list_books, Book_find_page, Book_countDocuments, build_query.
  run.
  change (match query_page req with Some p => p | None => 1%Z end)
    with (requested_page req).
  destruct (query_search req =? "") eqn:E.
  - apply String.eqb_eq in E. destruct H as [H|[H _]]; [|congruence].
    replace ((requested_page req - 1) * Z.of_nat 9 <? 0)%Z with true
      by (symmetry; apply Z.ltb_lt; lia).
    run. eexists; reflexivity.
  - destruct (RegExp_i (query_search req)) as [test|] eqn:Et.
    + destruct H as [H|[_ H]]; [|discriminate H].
      replace ((requested_page req - 1) * Z.of_nat 9 <? 0)%Z with true
        by (symmetry; apply Z.ltb_lt; lia).
      run. eexists; reflexivity.
    + run. eexists; reflexivity.
Qed.

(** ** What the auth routes answer *)


Lemma register_success (req : Request) (s s' : State) (resp : Response) :
  app POST_auth_register req s = (s', resp) ->
  (status resp < 400)%nat ->
  exists u, users s' = users s ++ [u] /\ resp = mkResponse 201 (session_body u).
Proof.
  unfold app, server; cbn [route fst snd]. rewrite register_route. cbv zeta.
  destruct (validationErrors _);
    [|intros H Hs; inversion H; subst; cbn in Hs; lia].
  unfold serve, chain, register. cbv zeta. run.
  destruct (find _ (users s)); [intros H Hs; inversion H; subst; cbn in Hs; lia|].
  destruct (body_password _) as [pw|]; run;
    [|intros H Hs; inversion H; subst; cbn in Hs; lia].
  destruct (body_username _) as [name|]; run;
    [|intros H Hs; inversion H; subst; cbn in Hs; lia].
  destruct (body_email _) as [mail|]; run;
    [|intros H Hs; inversion H; subst; cbn in Hs; lia].
  destruct (negb (name =? "") && negb (mail =? "") && negb (_ =? ""))%bool; run;
    [|intros H Hs; inversion H; subst; cbn in Hs; lia].
  intros H _. inversion H; subst. eexists. split; reflexivity.
Qed.




(** ** Rate limiting *)

Section Keeps.

Variable P : State -> Prop.

Lemma keeps_ret {A : Type} (a : A) : keeps P (ret a).
Proof. intros s H. exact H. Qed.

Lemma keeps_send {A : Type} (code : nat) (b : json) : keeps P (@send A code b).
Proof. intros s H. exact H. Qed.

Lemma keeps_throw {A : Type} (msg : string) : keeps P (@throw A msg).
Proof. intros s H. exact H. Qed.

Lemma keeps_gets {A : Type} (f : State -> A) : keeps P (gets f).
Proof. intros s H. exact H. Qed.

Lemma keeps_modify (f : State -> State) :
  (forall s, P s -> P (f s)) -> keeps P (modify f).
Proof. intros Hf s H. now apply Hf. Qed.

Lemma keeps_bind {A B : Type} (m : M A) (f : A -> M B) :
  keeps P m -> (forall a, keeps P (f a)) -> keeps P (bind m f).
Proof.
  intros Hm Hf s H. unfold bind. specialize (Hm s H).
  destruct (m s) as [s1 [a|r]]; cbn [fst] in *.
  - now apply Hf.
  - exact Hm.
Qed.

Lemma keeps_chain (ms : list Middleware) (h : Handler) :
  Forall (fun m : Middleware => forall req, keeps P (m req)) ms ->
  (forall req, keeps P (h req)) ->
  forall req, keeps P (chain ms h req).
Proof.
  intros Hms Hh. induction Hms as [|m ms Hm _ IH]; intros req; cbn [chain].
  - apply Hh.
  - apply keeps_bind; [apply Hm | exact IH].
Qed.

Lemma keeps_serve (ms : list Middleware) (h : Handler) (req : Request) (s : State) :
  keeps P (chain ms h req) -> P s -> P (fst (serve ms h req s)).
Proof.
  intros Hk H. specialize (Hk s H). unfold serve.
  destruct (chain ms h req s) as [s1 [v|r]]; [destruct v | exact Hk].
Qed.

End Keeps.

(** Take a computation apart along its binds and its branches. *)
#[local] Hint Resolve keeps_ret keeps_send keeps_throw keeps_gets keeps_bind : keeps.
#[local] Hint Extern 2 (keeps _ (match ?x with _ => _ end)) => destruct x : keeps.
#[local] Hint Extern 2 (keeps _ (if ?x then _ else _)) => destruct x : keeps.

(** The primitives and the store of [apiLimiter]. *)
Lemma modify_keeps_api_store (l : list (string * Window)) (f : State -> State) :
  (forall s, apiLimiterStore (f s) = apiLimiterStore s) ->
  keeps (api_store_is l) (modify f).
Proof. intros Hf. apply keeps_modify. unfold api_store_is. intros s <-. apply Hf. Qed.

Lemma fresh_id_keeps_api_store (l : list (string * Window)) :
  keeps (api_store_is l) fresh_id.
Proof. intros s H. exact H. Qed.

Lemma authLimiter_keeps_api_store (l : list (string * Window)) (req : Request) :
  keeps (api_store_is l) (authLimiter req).
Proof.
  intros s H. unfold authLimiter, rateLimit.
  destruct (5 <? _)%nat; exact H.
Qed.

#[local] Hint Resolve fresh_id_keeps_api_store authLimiter_keeps_api_store : keeps.
#[local] Hint Extern 1 (keeps (api_store_is _) (modify _)) =>
  apply modify_keeps_api_store; intros; reflexivity : keeps.

Lemma routes_keep_api_store (l : list (string * Window)) (e : Endpoint) :
  Forall (fun m : Middleware => forall req, keeps (api_store_is l) (m req))
         (app_use parsed_body ++ fst (route e)) /\
  (forall req, keeps (api_store_is l) (snd (route e) req)).
Proof.
  split.
  - destruct e; cbn [route fst List.app app_use reviewValidation userValidation
                     loginValidation];
      repeat (apply Forall_cons; [intros req|]); try apply Forall_nil;
      unfold cors, express_json, as_middleware, validate, authenticate;
      auto 20 with keeps.
  - destruct e; cbn [route snd]; intros req;
      unfold list_books, get_book, create_review, update_review, delete_review,
             register, login, me, build_query, Book_find_page, Book_countDocuments,
             Review_populated, User_findById, User_findOne, User_create,
             Book_findByIdAndUpdate, Review_remove, Review_save, Review_create,
             Review_validate, Review_findOne, Review_find, required, req_user_id,
             cast_ObjectId;
      cbv zeta; auto 40 with keeps.
Qed.

(** No route counts a request in the store of [apiLimiter]: the limiter is
    defined and exported, and mounted nowhere. *)
Lemma apiLimiter_is_not_mounted (e : Endpoint) (req : Request) (s : State) :
  apiLimiterStore (fst (app e req s)) = apiLimiterStore s.
Proof.
  destruct (routes_keep_api_store (apiLimiterStore s) e) as [Hms Hh].
  apply (keeps_serve (api_store_is (apiLimiterStore s))).
  - now apply keeps_chain.
  - reflexivity.
Qed.

Lemma first_page_is_served (s : State) :
  exists shown pages,
    app GET_books (Demo.listing None "" "") s
    = (s, mkResponse 200 (JObj [("books", JArr shown); ("totalPages", pages);
                                ("currentPage", JInt 1)])).
Proof.
  unfold app, server; cbn [route fst snd]. unfold serve, app_use, cors, express_json.
  cbn [List.app chain]. unfold list_books, Book_find_page, Book_countDocuments, build_query.
  cbn [Demo.listing query_search query_genre query_page String.eqb].
  run. do 2 eexists. reflexivity.
Qed.

Lemma replayed_first_page (n : nat) (s : State) :
  exists answers,
    replay n GET_books (Demo.listing None "" "") s = (s, answers) /\
    List.length answers = n /\
    Forall (fun answer => status answer = 200) answers.
Proof.
  induction n as [|n (answers & Hr & Hl & Hall)]; cbn [replay].
  - exists []. repeat split. constructor.
  - rewrite Hr. destruct (first_page_is_served s) as (shown & pages & ->).
    eexists. split; [reflexivity|]. split; [cbn [List.length]; now rewrite Hl|].
    constructor; [reflexivity | exact Hall].
Qed.

(** C8, which the code does not do: when one client sends the listing
    request 101 times at the same instant, each of the 101 requests is
    handled and answered with 200, none is rejected, the state at the end
    is the state at the start, and the store of the general limiter has
    counted nothing. *)
Theorem the_101st_request_is_served (s : State) :
  exists answers,
    replay 101 GET_books (Demo.listing None "" "") s = (s, answers) /\
    List.length answers = 101 /\
    Forall (fun answer => status answer = 200) answers.
Proof.
  destruct (replayed_first_page 101 s) as (answers & Hr & Hl & Hall).
  exists answers. repeat split; assumption.
Qed.

(** Had the listing been declared behind [apiLimiter], the limiter would
    have done what its definition says: 100 answers, and 429 for the 101st
    request of the window. *)
Lemma a_mounted_apiLimiter_rejects_the_101st :
  map status
      (snd (replay_route 101 [apiLimiter] list_books (Demo.listing None "" "") Demo.fresh))
  = 429 :: repeat 200 100.
Proof. vm_compute. reflexivity. Qed.

(** ** The records the routes write *)

(** The register route keeps the user records canonical, as soon as
    normalising an address that is normalised changes nothing. *)
Lemma register_keeps_users_canonical (req : Request) (s : State) :
  (forall e, normalizeEmail (normalizeEmail e) = normalizeEmail e) ->
  users_canonical s ->
  users_canonical (fst (app POST_auth_register req s)).
Proof.
  intros Hnorm Hcan.
  unfold app, server; cbn [route fst snd]. rewrite register_route. cbv zeta.
  destruct (validationErrors _); [|exact Hcan].
  destruct (register_request_fields req) as (Eu & Ee).
  unfold serve, chain, register. cbv zeta. run. rewrite Eu, Ee.
  destruct (find _ (users s)); [exact Hcan|].
  destruct (body_password _) as [pw|]; run; [|exact Hcan].
  destruct (body_username req) as [name|]; cbn [sanitize]; run; [|exact Hcan].
  destruct (body_email req) as [mail|]; cbn [sanitize]; run; [|exact Hcan].
  destruct (negb (_ =? "") && negb (_ =? "") && negb (_ =? ""))%bool;
    run; [|exact Hcan].
  unfold users_canonical in *. cbn [fst users with_users with_nextId].
  apply Forall_app. split; [exact Hcan|].
  constructor; [|constructor].
  split; cbn [User.username User.email]; [apply trim_idempotent | apply Hnorm].
Qed.

(** The ids of the reviews stay unshared, whatever the routes do. *)
Lemma fresh_id_keeps_review_ids : keeps review_ids_fresh fresh_id.
Proof.
  intros s [Hnd Hlt]. split; [exact Hnd|].
  cbn [fst fresh_id with_nextId reviews nextId].
  eapply Forall_impl; [|exact Hlt]. cbn beta. intros r Hr. lia.
Qed.

Lemma Review_create_keeps_review_ids
    (bookId userId : ObjectId) (rating : option Z) (content : option string) (t : Z) :
  keeps review_ids_fresh (Review_create bookId userId rating content t).
Proof.
  intros s [Hnd Hlt].
  assert (Forall (fun r => (Review._id r < S (nextId s))%nat) (reviews s)) as Hlt'
    by (eapply Forall_impl; [|exact Hlt]; cbn beta; intros r Hr; lia).
  unfold Review_create. run.
  destruct rating as [z|]; [|split; assumption].
  destruct content as [txt|]; [|split; assumption].
  destruct ((1 <=? z)%Z && (z <=? 5)%Z && negb (txt =? ""))%bool;
    [|split; assumption].
  cbn [fst]. split.
  - unfold review_ids_unique in *. cbn [snd reviews with_reviews with_nextId].
    rewrite map_app. cbn [map Review._id].
    apply NoDup_app; [exact Hnd | repeat constructor; intros [] |].
    intros x Hx [<-|[]].
    apply in_map_iff in Hx. destruct Hx as (r & Er & Hr).
    rewrite Forall_forall in Hlt. specialize (Hlt r Hr). lia.
  - cbn [snd reviews nextId with_reviews with_nextId].
    apply Forall_app. split; [exact Hlt'|].
    constructor; [cbn [Review._id]; lia | constructor].
Qed.

Lemma Review_save_keeps_review_ids
    (review : Review.doc) (rating : option Z) (content : option string) (t : Z) :
  keeps review_ids_fresh (Review_save review rating content t).
Proof.
  intros s [Hnd Hlt]. unfold Review_save. run.
  destruct rating as [z|]; [|split; assumption].
  destruct content as [txt|]; [|split; assumption].
  destruct ((1 <=? z)%Z && (z <=? 5)%Z && negb (txt =? ""))%bool;
    [|split; assumption].
  cbn [fst]. unfold review_ids_fresh, review_ids_unique in *.
  cbn [fst snd reviews nextId with_reviews].
  split.
  - rewrite map_map.
    erewrite map_ext; [exact Hnd|].
    intros r. cbn beta. destruct (Review._id r =? Review._id review)%nat eqn:E;
      [apply Nat.eqb_eq in E; cbn [Review._id]; congruence | reflexivity].
  - rewrite Forall_forall in *. intros r' Hr'.
    apply in_map_iff in Hr'. destruct Hr' as (r & <- & Hr).
    destruct (Review._id r =? Review._id review)%nat eqn:E;
      [apply Nat.eqb_eq in E; cbn [Review._id]; rewrite <- E|]; now apply Hlt.
Qed.

(** Deleting reviews does not make ids shared. *)
Lemma kept_reviews_have_unshared_ids (keep : Review.doc -> bool) (rs : list Review.doc) :
  NoDup (map Review._id rs) -> NoDup (map Review._id (filter keep rs)).
Proof.
  induction rs as [|r rs IH]; cbn [map filter]; intros Hnd; [constructor|].
  apply NoDup_cons_iff in Hnd. destruct Hnd as [Hfresh Hrest].
  destruct (keep r); cbn [map]; [|now apply IH].
  apply NoDup_cons_iff. split; [|now apply IH].
  contradict Hfresh.
  apply in_map_iff in Hfresh. destruct Hfresh as (r' & Eid & Hkept).
  apply filter_In in Hkept. apply in_map_iff. exists r'. tauto.
Qed.

Lemma Review_remove_keeps_review_ids (review : Review.doc) :
  keeps review_ids_fresh (Review_remove review).
Proof.
  intros s [Hnd Hlt]. unfold Review_remove, modify. cbn [fst].
  unfold review_ids_fresh, review_ids_unique in *. cbn [reviews nextId with_reviews].
  split; [now apply kept_reviews_have_unshared_ids|].
  rewrite Forall_forall in *. intros r Hr. apply filter_In in Hr. now apply Hlt.
Qed.

Lemma Book_findByIdAndUpdate_keeps_review_ids (id : ObjectId) (u : BookUpdate) :
  keeps review_ids_fresh (Book_findByIdAndUpdate id u).
Proof.
  intros s H. unfold Book_findByIdAndUpdate.
  destruct (set_rating u) as [[| | |q]|]; exact H.
Qed.

Lemma User_create_keeps_review_ids
    (username email : option string) (password : string) (t : Z) :
  keeps review_ids_fresh (User_create username email password t).
Proof.
  intros s H. apply fresh_id_keeps_review_ids in H. revert H.
  unfold User_create. run.
  destruct username as [name|]; [|trivial].
  destruct email as [mail|]; [|trivial].
  destruct (negb (name =? "") && negb (mail =? "") && negb (password =? ""))%bool;
    trivial.
Qed.

Lemma authLimiter_keeps_review_ids (req : Request) :
  keeps review_ids_fresh (authLimiter req).
Proof.
  intros s H. unfold authLimiter, rateLimit.
  destruct (5 <? _)%nat; exact H.
Qed.

Lemma routes_keep_review_ids (e : Endpoint) :
  Forall (fun m : Middleware => forall req, keeps review_ids_fresh (m req))
         (app_use parsed_body ++ fst (route e)) /\
  (forall req, keeps review_ids_fresh (snd (route e) req)).
Proof.
  split.
  - destruct e; cbn [route fst List.app app_use reviewValidation userValidation
                     loginValidation];
      repeat (apply Forall_cons; [intros req|]); try apply Forall_nil;
      try apply authLimiter_keeps_review_ids;
      unfold cors, express_json, as_middleware, validate, authenticate;
      auto 20 with keeps.
  - destruct e; cbn [route snd]; intros req;
      unfold list_books, get_book, create_review, update_review, delete_review,
             register, login, me, build_query, Book_find_page, Book_countDocuments,
             Review_populated, User_findById, User_findOne,
             Review_findOne, Review_find, required, req_user_id, cast_ObjectId;
      cbv zeta;
      auto 40 using Review_create_keeps_review_ids, Review_save_keeps_review_ids,
                    Review_remove_keeps_review_ids,
                    Book_findByIdAndUpdate_keeps_review_ids,
                    User_create_keeps_review_ids with keeps.
Qed.

(** Every request leaves the ids of the reviews unshared and below the
    next id. *)
Lemma app_keeps_review_ids (e : Endpoint) (req : Request) (s : State) :
  review_ids_fresh s -> review_ids_fresh (fst (app e req s)).
Proof.
  destruct (routes_keep_review_ids e) as [Hms Hh].
  apply (keeps_serve review_ids_fresh). now apply keeps_chain.
Qed.

(** With ids that are not shared, an update leaves the number of reviews of
    every book as it was: a reviewCount that was right stays right. *)
Lemma replaced_review_keeps_counts
    (review review' : Review.doc) (l : list Review.doc) (b : ObjectId) :
  NoDup (map Review._id l) ->
  In review l ->
  Review.bookId review' = Review.bookId review ->
  List.length (filter (of_book b)
                 (map (fun r => if (Review._id r =? Review._id review)%nat
                                then review' else r) l))
  = List.length (filter (of_book b) l).
Proof.
  intros Hnd Hin Hb.
  induction l as [|a l IH]; [reflexivity|].
  cbn [map] in Hnd. inversion Hnd as [|? ? Hnotin Hnd']; subst.
  cbn [map filter].
  destruct (Review._id a =? Review._id review)%nat eqn:E.
  - apply Nat.eqb_eq in E.
    assert (a = review) as ->.
    { destruct Hin as [H|H]; [exact H|]. exfalso. apply Hnotin. rewrite E.
      now apply in_map. }
    assert (map (fun r => if (Review._id r =? Review._id review)%nat
                          then review' else r) l = l) as ->.
    { clear -Hnotin. induction l as [|x l IHl]; [reflexivity|].
      cbn [map]. destruct (Review._id x =? Review._id review)%nat eqn:Ex.
      - apply Nat.eqb_eq in Ex. exfalso. apply Hnotin. left. exact Ex.
      - f_equal. apply IHl. intros H. apply Hnotin. now right. }
    replace (of_book b review') with (of_book b review)
      by (unfold of_book; now rewrite Hb).
    now destruct (of_book b review).
  - destruct Hin as [->|Hin]; [now rewrite Nat.eqb_refl in E|].
    destruct (of_book b a); cbn [List.length]; now rewrite (IH Hnd' Hin).
Qed.

(** * Further properties of the code *)

(** ** The limiter of the login route *)

Lemma lookup_insert (k : string) (w : Window) (l : list (string * Window)) :
  lookup k (insert k w l) = Some w.
Proof.
  induction l as [|[k' w'] l IH]; cbn [insert lookup].
  - now rewrite String.eqb_refl.
  - destruct (k' =? k) eqn:E; cbn [lookup]; [now rewrite String.eqb_refl | now rewrite E].
Qed.

Lemma lookup_insert_other (k k' : string) (w : Window) (l : list (string * Window)) :
  k' <> k -> lookup k' (insert k w l) = lookup k' l.
Proof.
  intros Hne. induction l as [|[k0 w0] l IH]; cbn [insert lookup].
  - destruct (k =? k') eqn:E; [apply String.eqb_eq in E; congruence | reflexivity].
  - destruct (k0 =? k) eqn:E; cbn [lookup].
    + apply String.eqb_eq in E. subst k0.
      destruct (k =? k') eqn:E'; [apply String.eqb_eq in E'; congruence | reflexivity].
    + destruct (k0 =? k'); [reflexivity | exact IH].
Qed.

(** The login route, limiter and validation in front of the handler. *)
Lemma login_route (h : Handler) (req : Request) (s : State) :
  serve (app_use parsed_body ++ authLimiter :: loginValidation ++ [validate]) h req s
  = let w := increment (15 * 60 * 1000) (now req)
                       (lookup (ip req) (authLimiterStore s)) in
    let s1 := with_authLimiterStore (insert (ip req) w (authLimiterStore s)) s in
    if (5 <? hits w)%nat
    then (s1, mkResponse 429 (JStr "Too many login attempts, please try again later"))
    else
      let req' := login_password_chain (email_chain default_message req) in
      match validationErrors req' with
      | [] => serve [] h req' s1
      | errors =>
          (s1, mkResponse 400 (JObj [("errors", JArr (map validation_error errors))]))
      end.
Proof.
  unfold serve, app_use, cors, express_json, loginValidation, as_middleware, validate,
         authLimiter, rateLimit.
  cbn [List.app chain]. unfold bind, ret. cbv zeta.
  destruct (5 <? _)%nat; [reflexivity|].
  destruct (validationErrors _); reflexivity.
Qed.

(** The login handler reads, and writes nothing. *)
Lemma login_reads_only (req : Request) (s : State) :
  fst (serve [] login req s) = s.
Proof.
  unfold serve, chain, login. run.
  destruct (find _ (users s)) as [u|]; [|reflexivity].
  destruct (body_password req) as [pw|]; [|reflexivity].
  destruct (bcrypt_compare pw (User.password u)); reflexivity.
Qed.

(** X1: A client that is locked out is answered with 429 whatever it sends,
    right credentials included; the request is counted all the same, and
    the collections are not read or written. *)
Theorem locked_out_client_is_refused (req : Request) (s : State) (w : Window) :
  lookup (ip req) (authLimiterStore s) = Some w ->
  (now req < resetTime w)%Z ->
  (5 <= hits w)%nat ->
  app POST_auth_login req s
  = (with_authLimiterStore
       (insert (ip req) (mkWindow (S (hits w)) (resetTime w)) (authLimiterStore s)) s,
     mkResponse 429 (JStr "Too many login attempts, please try again later")).
Proof.
  intros Hw Hnow Hhits.
  unfold app, server; cbn [route fst snd]. rewrite login_route. cbv zeta.
  rewrite Hw. cbn [increment].
  replace (now req <? resetTime w)%Z with true by (symmetry; apply Z.ltb_lt; exact Hnow).
  cbn [hits].
  replace (5 <? S (hits w))%nat with true by (symmetry; apply Nat.ltb_lt; lia).
  reflexivity.
Qed.

(** The handler itself answers 200, 401 or 500. *)
Lemma login_handler_statuses (req : Request) (s : State) :
  In (status (snd (serve [] login req s))) [200; 401; 500].
Proof.
  unfold serve, chain, login. run.
  destruct (find _ (users s)) as [u|]; [|cbn; tauto].
  destruct (body_password req) as [pw|]; [|cbn; tauto].
  destruct (bcrypt_compare pw (User.password u)); cbn; tauto.
Qed.

(** X2: The login route answers 429 to locked out clients only. *)
Theorem only_locked_out_clients_get_429
    (req : Request) (s s' : State) (resp : Response) :
  app POST_auth_login req s = (s', resp) ->
  status resp = 429 ->
  locked_out req s.
Proof.
  unfold app, server; cbn [route fst snd]. rewrite login_route. cbv zeta.
  set (w := increment (15 * 60 * 1000) (now req) (lookup (ip req) (authLimiterStore s))).
  destruct (5 <? hits w)%nat eqn:Ehits.
  - intros _ _. apply Nat.ltb_lt in Ehits. unfold locked_out.
    unfold w, increment in Ehits.
    destruct (lookup (ip req) (authLimiterStore s)) as [w0|];
      [|cbn [hits] in Ehits; lia].
    destruct (now req <? resetTime w0)%Z eqn:Enow; [|cbn [hits] in Ehits; lia].
    exists w0. apply Z.ltb_lt in Enow. cbn [hits] in Ehits.
    repeat split; [exact Enow | lia].
  - destruct (validationErrors _); [|answered].
    intros H Hs.
    pose proof (login_handler_statuses
                  (login_password_chain (email_chain default_message req))
                  (with_authLimiterStore (insert (ip req) w (authLimiterStore s)) s)) as Hin.
    rewrite H in Hin. cbn [snd] in Hin. rewrite Hs in Hin.
    cbn in Hin. intuition discriminate.
Qed.

(** X3: Every login request is counted in the window of its client, whatever
    the answer; the windows of the other clients and the collections stay
    as they are. *)
Theorem login_counts_its_client_only (req : Request) (s : State) :
  let s' := fst (app POST_auth_login req s) in
  lookup (ip req) (authLimiterStore s')
  = Some (increment (15 * 60 * 1000) (now req) (lookup (ip req) (authLimiterStore s))) /\
  (forall k, k <> ip req ->
             lookup k (authLimiterStore s') = lookup k (authLimiterStore s)) /\
  books s' = books s /\ reviews s' = reviews s /\ users s' = users s /\
  nextId s' = nextId s /\ apiLimiterStore s' = apiLimiterStore s.
Proof.
  cbv zeta. unfold app, server; cbn [route fst snd]. rewrite login_route. cbv zeta.
  set (w := increment (15 * 60 * 1000) (now req) (lookup (ip req) (authLimiterStore s))).
  assert (fst (if (5 <? hits w)%nat
               then (with_authLimiterStore (insert (ip req) w (authLimiterStore s)) s,
                     mkResponse 429 (JStr "Too many login attempts, please try again later"))
               else
                 match validationErrors (login_password_chain (email_chain default_message req)) with
                 | [] => serve [] login (login_password_chain (email_chain default_message req))
                               (with_authLimiterStore (insert (ip req) w (authLimiterStore s)) s)
                 | e :: errors =>
                     (with_authLimiterStore (insert (ip req) w (authLimiterStore s)) s,
                      mkResponse 400 (JObj [("errors", JArr (map validation_error (e :: errors)))]))
                 end)
          = with_authLimiterStore (insert (ip req) w (authLimiterStore s)) s) as ->.
  { destruct (5 <? hits w)%nat; [reflexivity|].
    destruct (validationErrors _); [apply login_reads_only | reflexivity]. }
  cbn [authLimiterStore with_authLimiterStore books reviews users nextId apiLimiterStore].
  split; [apply lookup_insert|].
  split; [intros k Hk; now apply lookup_insert_other|].
  repeat split.
Qed.

(** ** Logging in *)

Lemma login_request_fields (req : Request) :
  let req' := login_password_chain (email_chain default_message req) in
  body_email req' = sanitize normalizeEmail (body_email req) /\
  body_password req' = body_password req /\
  validationErrors req'
  = validationErrors req ++
    (if isEmail (toString (body_email req)) then [] else [("email", default_message)]) ++
    (if isString (body_password req) then [] else [("password", default_message)]).
Proof.
  cbv zeta. repeat split; try chain_fields.
  unfold login_password_chain, email_chain. cbv zeta.
  rewrite check_errors. cbn [set_body_email validationErrors body_password].
  rewrite check_errors.
  replace (body_password (check (isEmail (toString (body_email req))) "email"
                                default_message req))
    with (body_password req) by chain_fields.
  now rewrite <- app_assoc.
Qed.

(** X4: The login route answers 200 only when bcrypt accepts the password of
    the request against the stored hash of the first user whose address is
    the normalised address of the request; the answer is then the session
    of that user. *)
Theorem login_requires_the_password
    (req : Request) (s s' : State) (resp : Response) :
  app POST_auth_login req s = (s', resp) ->
  status resp = 200 ->
  exists u e p,
    body_email req = Some e /\ body_password req = Some p /\
    isEmail e = true /\
    find (fun x => User.email x =? normalizeEmail e) (users s) = Some u /\
    bcrypt_compare p (User.password u) = true /\
    resp = mkResponse 200 (session_body u).
Proof.
  unfold app, server; cbn [route fst snd]. rewrite login_route. cbv zeta.
  destruct (5 <? _)%nat; [answered|].
  destruct (login_request_fields req) as (Ee & Ep & Eerr). cbv zeta in Ee, Ep, Eerr.
  destruct (validationErrors (login_password_chain (email_chain default_message req)))
    eqn:Hnone; [|answered].
  unfold serve, chain, login. run. rewrite Ee, Ep.
  cbn [users with_authLimiterStore].
  destruct (body_email req) as [e|]; cbn [sanitize field_is].
  2: { replace (find (fun _ : User.doc => false) (users s)) with (@None User.doc)
         by (clear; induction (users s); [reflexivity | assumption]).
       answered. }
  destruct (find _ (users s)) as [u|] eqn:Efind; [|answered].
  destruct (body_password req) as [p|]; [|answered].
  destruct (bcrypt_compare p (User.password u)) eqn:Ecmp; [|answered].
  intros H _. inversion H; subst.
  exists u, e, p. repeat split; try assumption.
  symmetry in Eerr. apply app_eq_nil in Eerr. destruct Eerr as [_ Eerr].
  apply app_eq_nil in Eerr. destruct Eerr as [Eerr _].
  cbn [toString] in Eerr. destruct (isEmail e); [reflexivity | discriminate].
Qed.

(** X5: Every 401 of the login route has the same body: the answer does not
    tell an unknown address from a wrong password. *)
Theorem login_failures_look_alike
    (req : Request) (s s' : State) (resp : Response) :
  app POST_auth_login req s = (s', resp) ->
  status resp = 401 ->
  resp = mkResponse 401 (error_body "Invalid credentials").
Proof.
  unfold app, server; cbn [route fst snd]. rewrite login_route. cbv zeta.
  destruct (5 <? _)%nat; [answered|].
  destruct (validationErrors _); [|answered].
  unfold serve, chain, login. run.
  destruct (find _ _) as [u|]; [|intros H _; now inversion H].
  destruct (body_password _) as [p|]; [|answered].
  destruct (bcrypt_compare p (User.password u)); [answered|].
  intros H _; now inversion H.
Qed.

(** ** Registering, and coming back *)

Lemma check_keeps_body (ok : bool) (param msg : string) (r : Request) :
  body_username (check ok param msg r) = body_username r /\
  body_email (check ok param msg r) = body_email r /\
  body_password (check ok param msg r) = body_password r.
Proof. destruct ok; repeat split. Qed.

Lemma check_keeps_meta (ok : bool) (param msg : string) (r : Request) :
  salt (check ok param msg r) = salt r /\ now (check ok param msg r) = now r.
Proof. destruct ok; split; reflexivity. Qed.

Lemma register_errors (req : Request) :
  validationErrors
    (password_chain (email_chain "Invalid email address" (username_chain req)))
  = validationErrors req ++
    (if isString (body_username req) then [] else [("username", default_message)]) ++
    (if isLength 3 (Some 30) (toString (sanitize JS.trim (body_username req))) then []
     else [("username", "Username must be between 3 and 30 characters")]) ++
    (if isEmail (toString (body_email req)) then []
     else [("email", "Invalid email address")]) ++
    (if isString (body_password req) then [] else [("password", default_message)]) ++
    (if isLength 8 None (toString (body_password req)) then []
     else [("password", default_message)]) ++
    (if matches_letter_and_digit (toString (body_password req)) then []
     else [("password",
            "Password must be at least 8 characters and contain both letters and numbers")]).
Proof.
  unfold password_chain, email_chain, username_chain. cbv zeta.
  repeat first
    [ rewrite check_errors
    | rewrite (proj1 (check_keeps_body _ _ _ _))
    | rewrite (proj1 (proj2 (check_keeps_body _ _ _ _)))
    | rewrite (proj2 (proj2 (check_keeps_body _ _ _ _)))
    | progress cbn [set_body_email set_body_username validationErrors
                    body_username body_email body_password] ].
  rewrite <- !app_assoc. reflexivity.
Qed.

Lemma no_error_recorded {A : Type} (b : bool) (e : A) (l : list A) :
  (if b then [] else [e]) ++ l = [] -> b = true /\ l = [].
Proof. destruct b; cbn; [auto | discriminate]. Qed.

(** What a successful registration has checked and written. *)
Lemma register_201 (req : Request) (s s' : State) (resp : Response) :
  app POST_auth_register req s = (s', resp) ->
  status resp = 201 ->
  exists name mail pw,
    body_username req = Some name /\ body_email req = Some mail /\
    body_password req = Some pw /\
    isLength 3 (Some 30) (JS.trim name) = true /\
    isEmail mail = true /\
    isLength 8 None pw = true /\
    matches_letter_and_digit pw = true /\
    find (fun u => (field_is (User.email u) (Some (normalizeEmail mail)) ||
                    field_is (User.username u) (Some (JS.trim name)))%bool) (users s)
    = None /\
    let u := User.mk (nextId s) (JS.trim name) (normalizeEmail mail)
                     (bcrypt_hash pw (salt req)) None None (now req) in
    s' = with_users (users s ++ [u]) (with_nextId (S (nextId s)) s) /\
    resp = mkResponse 201 (session_body u).
Proof.
  unfold app, server; cbn [route fst snd]. rewrite register_route. cbv zeta.
  pose proof (register_errors req) as Eerr.
  destruct (validationErrors
              (password_chain (email_chain "Invalid email address" (username_chain req))));
    [|wrong_status].
  symmetry in Eerr. apply app_eq_nil in Eerr. destruct Eerr as [_ Eerr].
  apply no_error_recorded in Eerr. destruct Eerr as [Hname Eerr].
  apply no_error_recorded in Eerr. destruct Eerr as [Hlen Eerr].
  apply no_error_recorded in Eerr. destruct Eerr as [Hmail Eerr].
  apply no_error_recorded in Eerr. destruct Eerr as [Hpw Eerr].
  apply no_error_recorded in Eerr. destruct Eerr as [Hpwlen Eerr].
  rewrite <- (app_nil_r (if matches_letter_and_digit _ then _ else _)) in Eerr.
  apply no_error_recorded in Eerr. destruct Eerr as [Hmatch _].
  destruct (register_request_fields req) as (Eu & Ee). cbv zeta in Eu, Ee.
  assert (body_password
            (password_chain (email_chain "Invalid email address" (username_chain req)))
          = body_password req) as Ep.
  { unfold password_chain, email_chain, username_chain. cbv zeta.
    repeat first
      [ rewrite (proj2 (proj2 (check_keeps_body _ _ _ _)))
      | progress cbn [set_body_email set_body_username body_password] ].
    reflexivity. }
  assert (salt (password_chain (email_chain "Invalid email address" (username_chain req)))
          = salt req /\
          now (password_chain (email_chain "Invalid email address" (username_chain req)))
          = now req) as [Esalt Enow].
  { unfold password_chain, email_chain, username_chain. cbv zeta.
    split;
      repeat first
        [ rewrite (proj1 (check_keeps_meta _ _ _ _))
        | rewrite (proj2 (check_keeps_meta _ _ _ _))
        | progress cbn [set_body_email set_body_username salt now] ];
      reflexivity. }
  unfold serve, chain, register. cbv zeta. rewrite Eu, Ee, Ep, Esalt, Enow. run.
  destruct (body_username req) as [name|]; [|discriminate Hname].
  destruct (body_password req) as [pw|]; [|discriminate Hpw].
  destruct (body_email req) as [mail|]; cbn [sanitize toString] in *.
  2: { destruct (find _ (users s)); wrong_status. }
  destruct (find _ (users s)) eqn:Efind; [wrong_status|].
  destruct (negb (JS.trim name =? "") && negb (normalizeEmail mail =? "") &&
            negb (bcrypt_hash pw (salt req) =? ""))%bool; [|wrong_status].
  intros H _. inversion H; subst.
  exists name, mail, pw. repeat split; assumption.
Qed.

Lemma find_app {A : Type} (p : A -> bool) (l1 l2 : list A) :
  find p (l1 ++ l2) = match find p l1 with Some x => Some x | None => find p l2 end.
Proof.
  induction l1 as [|a l1 IH]; [reflexivity|].
  cbn [List.app find]. now destruct (p a).
Qed.

Lemma find_nothing {A : Type} (p : A -> bool) (l : list A) :
  (forall x, In x l -> p x = false) -> find p l = None.
Proof.
  intros Hp. induction l as [|a l IH]; [reflexivity|].
  cbn [find]. rewrite (Hp a (or_introl eq_refl)). apply IH.
  intros x Hx. apply Hp. now right.
Qed.

Lemma find_weaker {A : Type} (p q : A -> bool) (l : list A) :
  (forall x, q x = true -> p x = true) -> find p l = None -> find q l = None.
Proof.
  intros Hpq Hnone. induction l as [|a l IH]; [reflexivity|].
  cbn [find] in *. destruct (p a) eqn:Ep; [discriminate|].
  destruct (q a) eqn:Eq; [rewrite (Hpq a Eq) in Ep; discriminate | now apply IH].
Qed.

Lemma not_locked_out_passes (req : Request) (s : State) :
  ~ locked_out req s ->
  (5 <? hits (increment (15 * 60 * 1000) (now req)
                        (lookup (ip req) (authLimiterStore s))))%nat = false.
Proof.
  intros Hfree. apply Nat.ltb_ge. unfold increment.
  destruct (lookup (ip req) (authLimiterStore s)) as [w|] eqn:Ew; [|cbn [hits]; lia].
  destruct (now req <? resetTime w)%Z eqn:Enow; [|cbn [hits]; lia].
  cbn [hits]. apply Z.ltb_lt in Enow.
  destruct (Nat.le_gt_cases (S (hits w)) 5) as [H|H]; [exact H|].
  exfalso. apply Hfree. exists w. repeat split; [exact Ew | exact Enow | lia].
Qed.

(** X6: A user that is registered has passed the form: the username, without
    the white space around it, has 3 to 30 characters, the address is one
    for [isEmail], the password has 8 characters or more, a letter and a
    digit among them, and no user had the address, normalised, or the
    username.  The new user is appended with these, and with the bcrypt
    hash of the password in place of the password; the books and the
    reviews are not touched. *)
Theorem registered_user_is_valid
    (req : Request) (s s' : State) (resp : Response) :
  app POST_auth_register req s = (s', resp) ->
  status resp = 201 ->
  exists name mail pw,
    body_username req = Some name /\ body_email req = Some mail /\
    body_password req = Some pw /\
    (3 <= JS.characters (JS.trim name) <= 30)%nat /\
    isEmail mail = true /\
    (8 <= JS.characters pw)%nat /\
    JS.dotstar_then JS.is_letter pw = true /\
    JS.dotstar_then JS.is_digit pw = true /\
    (forall u, In u (users s) ->
               User.email u <> normalizeEmail mail /\ User.username u <> JS.trim name) /\
    users s'
    = users s ++ [User.mk (nextId s) (JS.trim name) (normalizeEmail mail)
                          (bcrypt_hash pw (salt req)) None None (now req)] /\
    books s' = books s /\ reviews s' = reviews s.
Proof.
  intros Happ Hst.
  destruct (register_201 req s s' resp Happ Hst)
    as (name & mail & pw & Hname & Hmail & Hpw & Hlen & Hismail & Hlen8 & Hmix
        & Hnew & Hs' & _).
  cbv zeta in Hs'.
  exists name, mail, pw.
  unfold isLength in Hlen, Hlen8.
  apply andb_true_iff in Hlen. destruct Hlen as [H3 H30].
  apply Nat.leb_le in H3. apply Nat.leb_le in H30.
  apply andb_true_iff in Hlen8. destruct Hlen8 as [H8 _]. apply Nat.leb_le in H8.
  unfold matches_letter_and_digit in Hmix.
  apply andb_true_iff in Hmix. destruct Hmix as [Hletter Hdigit].
  repeat split; try assumption; try (subst s'; reflexivity).
  - intros Hsame. pose proof (find_none _ _ Hnew u H) as Hp. cbv beta in Hp.
    cbn [field_is] in Hp. rewrite Hsame, String.eqb_refl in Hp. discriminate Hp.
  - intros Hsame. pose proof (find_none _ _ Hnew u H) as Hp. cbv beta in Hp.
    cbn [field_is] in Hp. rewrite Hsame, String.eqb_refl, orb_true_r in Hp.
    discriminate Hp.
Qed.

(** X7: Who has registered can log in: with a bcrypt that accepts a password
    against its own hash, a login with the address and the password of a
    successful registration, by a client that is not locked out, is
    answered with 200 and the session of the user the registration has
    created. *)
Theorem registered_user_can_log_in
    (req req2 : Request) (s s1 : State) (resp : Response) :
  (forall p salt, bcrypt_compare p (bcrypt_hash p salt) = true) ->
  app POST_auth_register req s = (s1, resp) ->
  status resp = 201 ->
  body_email req2 = body_email req ->
  body_password req2 = body_password req ->
  validationErrors req2 = [] ->
  ~ locked_out req2 s1 ->
  exists u,
    In u (users s1) /\
    resp = mkResponse 201 (session_body u) /\
    snd (app POST_auth_login req2 s1) = mkResponse 200 (session_body u).
Proof.
  intros Hbcrypt Hreg H201 Hmail Hpw Hclean Hfree.
  destruct (register_201 req s s1 resp Hreg H201)
    as (name & mail & pw & En & Em & Ep & _ & Hismail & _ & _ & Hnew & Hs1 & Hresp).
  cbv zeta in Hs1, Hresp.
  set (u := User.mk (nextId s) (JS.trim name) (normalizeEmail mail)
                    (bcrypt_hash pw (salt req)) None None (now req)) in *.
  exists u. split; [rewrite Hs1; cbn [users with_users]; apply in_or_app; right; now left|].
  split; [exact Hresp|].
  unfold app, server; cbn [route fst snd]. rewrite login_route. cbv zeta.
  rewrite (not_locked_out_passes req2 s1 Hfree).
  destruct (login_request_fields req2) as (Ee2 & Ep2 & Eerr2). cbv zeta in Ee2, Ep2, Eerr2.
  rewrite Hclean, Hmail, Hpw, Em, Ep in Eerr2. cbn [toString isString] in Eerr2.
  rewrite Hismail in Eerr2. cbn [List.app] in Eerr2. rewrite Eerr2.
  unfold serve, chain, login. run. rewrite Ee2, Ep2, Hmail, Hpw, Em, Ep.
  cbn [sanitize field_is users with_authLimiterStore].
  subst s1. cbn [users with_users with_nextId].
  rewrite find_app.
  assert (find (fun x => User.email x =? normalizeEmail mail) (users s) = None) as ->.
  { eapply find_weaker; [|exact Hnew].
    intros x Hx. cbv beta in *. cbn [field_is]. now rewrite Hx. }
  unfold u. cbn [find User.email]. rewrite String.eqb_refl.
  cbn [User.password]. rewrite Hbcrypt. reflexivity.
Qed.

(** ** Tokens *)

Lemma split_at_first_space (a b : string) :
  no_space a = true -> JS.split " " (a ++ String " " b) = a :: JS.split " " b.
Proof.
  induction a as [|c a IH]; intros Ha; cbn [String.append JS.split].
  - reflexivity.
  - cbn [no_space] in Ha. apply andb_true_iff in Ha. destruct Ha as [Hc Ha].
    apply negb_true_iff in Hc. rewrite Hc, (IH Ha). reflexivity.
Qed.

Lemma split_without_space (a : string) :
  no_space a = true -> JS.split " " a = [a].
Proof.
  induction a as [|c a IH]; intros Ha; cbn [JS.split]; [reflexivity|].
  cbn [no_space] in Ha. apply andb_true_iff in Ha. destruct Ha as [Hc Ha].
  apply negb_true_iff in Hc. rewrite Hc, (IH Ha). reflexivity.
Qed.

(** The piece [authenticate] verifies. *)
Lemma token_of_header (tok tail : string) :
  no_space tok = true ->
  tail = "" \/ (exists rest, tail = String " " rest) ->
  JS.startsWith "Bearer " ("Bearer " ++ tok ++ tail) = true /\
  nth_error (JS.split " " ("Bearer " ++ tok ++ tail)) 1 = Some tok.
Proof.
  intros Htok Htail. split.
  { unfold JS.startsWith. cbn. now destruct (tok ++ tail)%string. }
  change ("Bearer " ++ tok ++ tail)%string
    with ("Bearer" ++ String " " (tok ++ tail))%string.
  rewrite split_at_first_space by reflexivity. cbn [nth_error].
  destruct Htail as [->|[rest ->]].
  - assert ((tok ++ "")%string = tok) as ->
        by (clear; induction tok as [|c t IH]; cbn; [reflexivity | now rewrite IH]).
    now rewrite split_without_space.
  - now rewrite split_at_first_space.
Qed.

(** X8: [authenticate] verifies the piece of the header between the first and
    the second space and nothing else: what follows a second space is
    ignored, and the request is let through with the claims of that piece,
    or answered with 401 when the piece does not verify. *)
Theorem only_the_second_piece_is_verified
    (req : Request) (s : State) (tok tail : string) :
  authorization req = Some ("Bearer " ++ tok ++ tail)%string ->
  no_space tok = true ->
  tail = "" \/ (exists rest, tail = String " " rest) ->
  authenticate req s
  = match jwt_verify tok with
    | Some c => (s, Next (set_user c req))
    | None => (s, Sent (mkResponse 401 (error_body "Invalid token")))
    end.
Proof.
  intros Hh Htok Htail.
  destruct (token_of_header tok tail Htok Htail) as [Hp Hn].
  unfold authenticate. rewrite Hh, Hp, Hn.
  now destruct (jwt_verify tok).
Qed.

(** X9: Who has registered is known to /me: when jsonwebtoken verifies the
    token it signs for the new user, a token without a space, the token of
    the answer to a successful registration, sent as a Bearer header,
    makes GET /api/auth/me answer 200 with the document of the new user,
    without its password. *)
Theorem registered_user_is_known_to_me
    (req : Request) (s s1 : State) (resp : Response) :
  (forall n, body_username req = Some n ->
             let c := mkClaims (nextId s) (JS.trim n) in
             jwt_verify (jwt_sign c) = Some c /\ no_space (jwt_sign c) = true) ->
  user_ids_fresh s ->
  app POST_auth_register req s = (s1, resp) ->
  status resp = 201 ->
  exists u tok,
    In u (users s1) /\
    resp = mkResponse 201
             (JObj [("token", JStr tok);
                    ("user", JObj [("id", JId (User._id u));
                                   ("username", JStr (User.username u));
                                   ("email", JStr (User.email u))])]) /\
    forall req2,
      authorization req2 = Some ("Bearer " ++ tok)%string ->
      app GET_auth_me req2 s1
      = (s1, mkResponse 200 (select_without "password" (User.toJSON u))).
Proof.
  intros Hjwt Hfresh Hreg H201.
  destruct (register_201 req s s1 resp Hreg H201)
    as (name & mail & pw & Hname & _ & _ & _ & _ & _ & _ & _ & Hs1 & Hresp).
  cbv zeta in Hs1, Hresp.
  destruct (Hjwt name Hname) as [Hverify Hnosp]. cbv zeta in Hverify, Hnosp.
  set (u := User.mk (nextId s) (JS.trim name) (normalizeEmail mail)
                    (bcrypt_hash pw (salt req)) None None (now req)) in *.
  exists u, (jwt_sign (mkClaims (User._id u) (User.username u))).
  split; [rewrite Hs1; cbn [users with_users]; apply in_or_app; right; now left|].
  split; [exact Hresp|].
  intros req2 Hh.
  assert (authenticates req2 (mkClaims (User._id u) (User.username u))) as Ha.
  { destruct (token_of_header (jwt_sign (mkClaims (User._id u) (User.username u))) ""
                Hnosp (or_introl eq_refl)) as [Hp Hn].
    eexists _, _. split; [exact Hh|].
    assert (forall t : string, (t ++ "")%string = t) as Hnil
        by (clear; induction t as [|c t IH]; cbn; [reflexivity | now rewrite IH]).
    rewrite Hnil in Hp, Hn.
    split; [exact Hp|]. split; [exact Hn | exact Hverify]. }
  unfold app, server; cbn [route fst snd]. rewrite (authenticated_route _ req2 _ s1 Ha).
  unfold serve, chain, me. run. cbn [user set_user claim_id].
  subst s1. cbn [users with_users with_nextId]. rewrite find_app.
  replace (find (fun x => (User._id x =? User._id u)%nat) (users s)) with (@None User.doc).
  2: { symmetry. apply find_nothing. intros x Hx.
       unfold user_ids_fresh in Hfresh. rewrite Forall_forall in Hfresh.
       specialize (Hfresh x Hx). apply Nat.eqb_neq. cbn [u User._id]. lia. }
  cbn [find]. rewrite Nat.eqb_refl. reflexivity.
Qed.

(** ** Reviews: what is written, and for whom *)

Lemma review_errors (req : Request) (c : Claims) :
  validationErrors (content_chain (rating_chain (set_user c req)))
  = validationErrors req ++
    (if isInt 1 5 (body_rating req) then []
     else [("rating", "Rating must be between 1 and 5")]) ++
    (if isString (body_content req) then [] else [("content", default_message)]) ++
    (if isLength 10 (Some 1000) (toString (sanitize JS.trim (body_content req))) then []
     else [("content", "Review must be between 10 and 1000 characters")]).
Proof.
  rewrite content_chain_errors, rating_chain_errors.
  destruct (rating_chain_keeps (set_user c req)) as (_ & _ & -> & _).
  cbn [set_user validationErrors body_rating body_content].
  now rewrite <- !app_assoc.
Qed.

(** The answer of a successful creation, beside the state of
    [create_review_201]. *)
Lemma create_review_answer (req : Request) (s s' : State) (resp : Response) :
  serve [] create_review req s = (s', resp) ->
  status resp = 201 ->
  exists b c z txt,
    body_bookId req = Some b /\ user req = Some c /\
    body_rating req = Some z /\ body_content req = Some txt /\
    find (fun r => (of_book b r && (Review.userId r =? claim_id c)%nat)%bool) (reviews s)
    = None /\
    Review_populated (Review.mk (nextId s) b (claim_id c) z txt (now req) (now req)) s'
    = (s', Next (body resp)).
Proof.
  unfold serve, chain, create_review.
  destruct (body_bookId req) as [b|]; run; [|wrong_status].
  destruct (user req) as [c|]; run; [|wrong_status].
  destruct (find _ (reviews s)) eqn:Efind; run; [wrong_status|].
  destruct (body_rating req) as [z|]; run; [|wrong_status].
  destruct (body_content req) as [txt|]; run; [|wrong_status].
  destruct ((1 <=? z)%Z && (z <=? 5)%Z && negb (txt =? ""))%bool; run; [|wrong_status].
  match goal with
  | |- context [JS.div ?a ?b] => destruct (JS.div a b)
  end; run; try wrong_status;
    intros H _; inversion H; subst;
    exists b, c, z, txt; repeat split; exact Efind.
Qed.

(** X10: A review that is created is the caller's first review of the book; its
    rating is an integer from 1 to 5 and its content is the text of the
    request without the white space around it, 10 to 1000 characters
    long. *)
Theorem created_review_is_valid
    (req : Request) (s s' : State) (resp : Response) :
  app POST_reviews req s = (s', resp) ->
  status resp = 201 ->
  exists c b z txt,
    authenticates req c /\
    body_bookId req = Some b /\ body_rating req = Some z /\
    body_content req = Some txt /\
    (1 <= z <= 5)%Z /\
    (10 <= JS.characters (JS.trim txt) <= 1000)%nat /\
    (forall r, In r (reviews s) ->
               ~ (Review.bookId r = b /\ Review.userId r = claim_id c)) /\
    reviews s'
    = reviews s ++ [Review.mk (nextId s) b (claim_id c) z (JS.trim txt) (now req) (now req)].
Proof.
  intros Happ Hst.
  unfold app, server in Happ; cbn [route fst snd] in Happ.
  destruct (authenticated_or_not req) as [[c Ha]|Hu].
  2: { destruct (authenticate_guards (reviewValidation ++ [validate]) create_review
                   req s Hu) as [msg Hr].
       rewrite Hr in Happ. inversion Happ; subst. discriminate Hst. }
  rewrite (review_route _ req c s Ha) in Happ. cbv zeta in Happ.
  pose proof (review_errors req c) as Eerr.
  destruct (validationErrors (content_chain (rating_chain (set_user c req)))).
  2: { inversion Happ; subst. discriminate Hst. }
  symmetry in Eerr. apply app_eq_nil in Eerr. destruct Eerr as [_ Eerr].
  apply no_error_recorded in Eerr. destruct Eerr as [Hint Eerr].
  apply no_error_recorded in Eerr. destruct Eerr as [_ Eerr].
  rewrite <- (app_nil_r (if isLength _ _ _ then _ else _)) in Eerr.
  apply no_error_recorded in Eerr. destruct Eerr as [Hlen _].
  destruct (review_request_fields req c) as (Eb & Er & Ec & Eu & En & _).
  pose proof (create_review_201 _ _ _ _ Happ Hst)
    as (b & c' & z & txt' & Hb & Hc & Hz & Htxt & Hs').
  pose proof (create_review_answer _ _ _ _ Happ Hst)
    as (b2 & c2 & _ & _ & Hb2 & Hc2 & _ & _ & Hfind & _).
  rewrite Eb in Hb, Hb2. rewrite Eu in Hc, Hc2. rewrite Er in Hz. rewrite Ec in Htxt.
  rewrite En in Hs'. cbv zeta in Hs'.
  injection Hc as <-. injection Hc2 as <-. rewrite Hb in Hb2. injection Hb2 as <-.
  destruct (body_content req) as [txt|]; [|discriminate Htxt].
  cbn [sanitize] in Htxt, Hlen. injection Htxt as <-. cbn [toString] in Hlen.
  exists c, b, z, txt.
  rewrite Hz in Hint. cbn [isInt] in Hint.
  apply andb_true_iff in Hint. destruct Hint as [H1 H5].
  apply Z.leb_le in H1. apply Z.leb_le in H5.
  unfold isLength in Hlen. apply andb_true_iff in Hlen. destruct Hlen as [H10 H1000].
  apply Nat.leb_le in H10. apply Nat.leb_le in H1000.
  repeat split; try assumption; try lia.
  - intros r Hr [Hrb Hru].
    pose proof (find_none _ _ Hfind r Hr) as Hp. cbv beta in Hp.
    unfold of_book in Hp. rewrite Hrb, Hru, !Nat.eqb_refl in Hp. discriminate Hp.
  - subst s'. reflexivity.
Qed.

(** X11: A review that is updated is one of the caller's; it gets the rating of
    the request, an integer from 1 to 5, the text of the request without
    the white space around it, 10 to 1000 characters long, and the time of
    the request as [updatedAt]; its id, its book, its author and its
    [createdAt] stay, and so do the other reviews. *)
Theorem updated_review_is_valid
    (req : Request) (s s' : State) (resp : Response) :
  app PUT_reviews_id req s = (s', resp) ->
  status resp = 200 ->
  exists c review z txt,
    authenticates req c /\
    In review (reviews s) /\
    params_id req = Some (Review._id review) /\
    Review.userId review = claim_id c /\
    body_rating req = Some z /\ body_content req = Some txt /\
    (1 <= z <= 5)%Z /\
    (10 <= JS.characters (JS.trim txt) <= 1000)%nat /\
    reviews s'
    = map (fun r => if (Review._id r =? Review._id review)%nat
                    then Review.mk (Review._id review) (Review.bookId review)
                                   (Review.userId review) z (JS.trim txt)
                                   (Review.createdAt review) (now req)
                    else r)
          (reviews s).
Proof.
  intros Happ Hst.
  unfold app, server in Happ; cbn [route fst snd] in Happ.
  destruct (authenticated_or_not req) as [[c Ha]|Hu].
  2: { destruct (authenticate_guards (reviewValidation ++ [validate]) update_review
                   req s Hu) as [msg Hr].
       rewrite Hr in Happ. inversion Happ; subst. discriminate Hst. }
  rewrite (review_route _ req c s Ha) in Happ. cbv zeta in Happ.
  pose proof (review_errors req c) as Eerr.
  destruct (validationErrors (content_chain (rating_chain (set_user c req)))).
  2: { inversion Happ; subst. discriminate Hst. }
  symmetry in Eerr. apply app_eq_nil in Eerr. destruct Eerr as [_ Eerr].
  apply no_error_recorded in Eerr. destruct Eerr as [Hint Eerr].
  apply no_error_recorded in Eerr. destruct Eerr as [_ Eerr].
  rewrite <- (app_nil_r (if isLength _ _ _ then _ else _)) in Eerr.
  apply no_error_recorded in Eerr. destruct Eerr as [Hlen _].
  destruct (review_request_fields req c) as (Eb & Er & Ec & Eu & En & Ep).
  pose proof (update_review_200 _ _ _ _ Happ Hst)
    as (id & c' & z & txt' & review & Hid & Hc & Hz & Htxt & Hfind & Hs').
  rewrite Ep in Hid. rewrite Eu in Hc. rewrite Er in Hz. rewrite Ec in Htxt.
  rewrite En in Hs'. cbv zeta in Hs'.
  injection Hc as <-.
  destruct (body_content req) as [txt|]; [|discriminate Htxt].
  cbn [sanitize] in Htxt, Hlen. injection Htxt as <-. cbn [toString] in Hlen.
  apply find_some in Hfind. destruct Hfind as [Hin Hmine].
  apply andb_true_iff in Hmine. destruct Hmine as [Hid' Howner].
  apply Nat.eqb_eq in Hid'. apply Nat.eqb_eq in Howner.
  exists c, review, z, txt.
  rewrite Hz in Hint. cbn [isInt] in Hint.
  apply andb_true_iff in Hint. destruct Hint as [H1 H5].
  apply Z.leb_le in H1. apply Z.leb_le in H5.
  unfold isLength in Hlen. apply andb_true_iff in Hlen. destruct Hlen as [H10 H1000].
  apply Nat.leb_le in H10. apply Nat.leb_le in H1000.
  repeat split; try assumption; try lia.
  - now rewrite Hid'.
  - subst s'. reflexivity.
Qed.

(** The author, as a review answer shows it: the id and the username, or
    null when the user is gone. *)
Lemma populated_author (review : Review.doc) (s s' : State) (j : json) :
  Review_populated review s = (s', Next j) ->
  exists author,
    j = JObj [("_id", JId (Review._id review));
              ("bookId", JId (Review.bookId review));
              ("userId", author);
              ("rating", JInt (Review.rating review));
              ("content", JStr (Review.content review));
              ("createdAt", JDate (Review.createdAt review));
              ("updatedAt", JDate (Review.updatedAt review))] /\
    (author = JNull \/
     exists u, In u (users s) /\ User._id u = Review.userId review /\
               author = JObj [("_id", JId (User._id u));
                              ("username", JStr (User.username u))]).
Proof.
  unfold Review_populated. run. intros H. inversion H; subst. clear H.
  eexists. split; [reflexivity|].
  destruct (find _ (users s')) as [u|] eqn:Efind; cbn [opt_json]; [|now left].
  right. exists u. apply find_some in Efind. destruct Efind as [Hin Hid].
  apply Nat.eqb_eq in Hid. repeat split; assumption.
Qed.

(** X12: The answer of a successful creation shows, of the author, the id and
    the username and nothing else: no address and no password hash. *)
Theorem review_answer_shows_the_username_only
    (req : Request) (s s' : State) (resp : Response) :
  app POST_reviews req s = (s', resp) ->
  status resp = 201 ->
  exists review author,
    In review (reviews s') /\
    body resp
    = JObj [("_id", JId (Review._id review));
            ("bookId", JId (Review.bookId review));
            ("userId", author);
            ("rating", JInt (Review.rating review));
            ("content", JStr (Review.content review));
            ("createdAt", JDate (Review.createdAt review));
            ("updatedAt", JDate (Review.updatedAt review))] /\
    (author = JNull \/
     exists u, In u (users s') /\ User._id u = Review.userId review /\
               author = JObj [("_id", JId (User._id u));
                              ("username", JStr (User.username u))]).
Proof.
  intros Happ Hst.
  unfold app, server in Happ; cbn [route fst snd] in Happ.
  destruct (authenticated_or_not req) as [[c Ha]|Hu].
  2: { destruct (authenticate_guards (reviewValidation ++ [validate]) create_review
                   req s Hu) as [msg Hr].
       rewrite Hr in Happ. inversion Happ; subst. discriminate Hst. }
  rewrite (review_route _ req c s Ha) in Happ. cbv zeta in Happ.
  destruct (validationErrors (content_chain (rating_chain (set_user c req)))).
  2: { inversion Happ; subst. discriminate Hst. }
  pose proof (create_review_201 _ _ _ _ Happ Hst)
    as (b & c' & z & txt & Hb & Hc & Hz & Htxt & Hs').
  pose proof (create_review_answer _ _ _ _ Happ Hst)
    as (b2 & c2 & z2 & txt2 & Hb2 & Hc2 & Hz2 & Htxt2 & _ & Hpop).
  rewrite Hb in Hb2. rewrite Hc in Hc2. rewrite Hz in Hz2. rewrite Htxt in Htxt2.
  injection Hb2 as <-. injection Hc2 as <-. injection Hz2 as <-. injection Htxt2 as <-.
  destruct (populated_author _ _ _ _ Hpop) as (author & Hbody & Hauthor).
  eexists. exists author. split; [|split; [exact Hbody | exact Hauthor]].
  cbv zeta in Hs'. rewrite Hs'. cbn [reviews with_books with_reviews].
  apply in_or_app. right. now left.
Qed.

(** ** Reviews of somebody else *)

(** X13: A caller who has no review with the id of the request - there is none,
    or it is somebody else's - cannot delete or update it: DELETE answers
    404 and PUT answers 404, or 400 when the form is not valid; both leave
    the state as it is, and the 404 is the same in both cases. *)
Theorem reviews_of_others_are_not_found
    (req : Request) (s : State) (c : Claims) (id : ObjectId) :
  authenticates req c ->
  params_id req = Some id ->
  (forall r, In r (reviews s) -> Review._id r = id -> Review.userId r <> claim_id c) ->
  app DELETE_reviews_id req s = (s, mkResponse 404 (error_body "Review not found")) /\
  exists resp,
    app PUT_reviews_id req s = (s, resp) /\
    (resp = mkResponse 404 (error_body "Review not found") \/ status resp = 400).
Proof.
  intros Ha Hid Hnone.
  assert (find (fun r => ((Review._id r =? id)%nat &&
                          (Review.userId r =? claim_id c)%nat)%bool) (reviews s) = None)
    as Hfind.
  { apply find_nothing. intros r Hr.
    destruct (Review._id r =? id)%nat eqn:E; [|reflexivity].
    apply Nat.eqb_eq in E. cbn [andb]. apply Nat.eqb_neq. now apply Hnone. }
  split.
  - unfold app, server; cbn [route fst snd]. rewrite (authenticated_route _ req c s Ha).
    unfold serve, chain, delete_review. run. cbn [set_user params_id user].
    rewrite Hid. run. now rewrite Hfind.
  - unfold app, server; cbn [route fst snd]. rewrite (review_route _ req c s Ha). cbv zeta.
    destruct (validationErrors (content_chain (rating_chain (set_user c req)))).
    2: { eexists. split; [reflexivity | now right]. }
    destruct (review_request_fields req c) as (_ & _ & _ & Eu & _ & Ep).
    unfold serve, chain, update_review. run. rewrite Ep, Hid, Eu. run.
    rewrite Hfind. eexists. split; [reflexivity | now left].
Qed.

(** What a successful run of the delete handler has done. *)
Lemma delete_review_200 (req : Request) (s s' : State) (resp : Response) :
  serve [] delete_review req s = (s', resp) ->
  status resp = 200 ->
  exists id c review,
    params_id req = Some id /\ user req = Some c /\
    find (fun r => ((Review._id r =? id)%nat && (Review.userId r =? claim_id c)%nat)%bool)
         (reviews s) = Some review /\
    let rest := filter (fun r => negb (Review._id r =? Review._id review)%nat) (reviews s) in
    let rs := filter (of_book (Review.bookId review)) rest in
    s' = with_books
           (update_by_id (Review.bookId review)
              (mkBookUpdate
                 (Some (if (0 <? List.length rs)%nat
                        then JS.div (sum_ratings rs) (Z.of_nat (List.length rs))
                        else JS.Fin 0))
                 (Some (Z.of_nat (List.length rs))))
              (books s))
           (with_reviews rest s).
Proof.
  unfold serve, chain, delete_review.
  destruct (params_id req) as [id|]; run; [|wrong_status].
  destruct (user req) as [c|]; run; [|wrong_status].
  destruct (find _ (reviews s)) as [review|] eqn:Efind; run; [|wrong_status].
  match goal with
  | |- context [if ?b then JS.div ?x ?y else _] =>
      destruct (if b then JS.div x y else JS.Fin 0) eqn:Eavg
  end; run; try wrong_status;
    intros H _; inversion H; subst;
    exists id, c, review; repeat split; try exact Efind;
    cbv zeta; rewrite Eavg; reflexivity.
Qed.

(** X14: After a successful DELETE /api/reviews/:id the review of the caller
    with that id is gone, the other reviews are as they were, and the book
    of the review is written with the mean of the ratings that are left,
    up to the rounding of a double, 0 when none is left, and with their
    number. *)
Theorem delete_review_recomputes_book
    (req : Request) (s s' : State) (resp : Response) :
  app DELETE_reviews_id req s = (s', resp) ->
  status resp = 200 ->
  exists c review,
    authenticates req c /\
    In review (reviews s) /\
    params_id req = Some (Review._id review) /\
    Review.userId review = claim_id c /\
    reviews s'
    = filter (fun r => negb (Review._id r =? Review._id review)%nat) (reviews s) /\
    forall book,
      Book_findById (Review.bookId review) s = Some book ->
      exists book',
        Book_findById (Review.bookId review) s' = Some book' /\
        rating_is_rounded_mean book' (ratings_of (Review.bookId review) s') /\
        Book.reviewCount book'
        = Z.of_nat (List.length (ratings_of (Review.bookId review) s')).
Proof.
  intros Happ Hst.
  unfold app, server in Happ; cbn [route fst snd] in Happ.
  destruct (authenticated_or_not req) as [[c Ha]|Hu].
  2: { destruct (authenticate_guards [] delete_review req s Hu) as [msg Hr].
       cbn [List.app] in *. rewrite Hr in Happ. inversion Happ; subst. discriminate Hst. }
  rewrite (authenticated_route _ req c s Ha) in Happ.
  apply delete_review_200 in Happ; [|exact Hst].
  destruct Happ as (id & c' & review & Hid & Hc & Hfind & Hs').
  cbn [set_user params_id user] in Hid, Hc. injection Hc as <-.
  apply find_some in Hfind. destruct Hfind as [Hin Hmatch].
  apply andb_true_iff in Hmatch. destruct Hmatch as [Hidm Hown].
  apply Nat.eqb_eq in Hidm. apply Nat.eqb_eq in Hown. subst id.
  cbv zeta in Hs'.
  exists c, review. subst s'. cbn [reviews with_books with_reviews].
  repeat split; try assumption.
  intros book Hbook. eexists. split.
  { unfold Book_findById in *. cbn [books with_books with_reviews].
    rewrite find_update_by_id, Hbook. reflexivity. }
  rewrite ratings_of_reviews. cbn [reviews with_books with_reviews].
  set (rs := filter (of_book (Review.bookId review))
               (filter (fun r => negb (Review._id r =? Review._id review)%nat) (reviews s))).
  cbn [apply_update Book.rating Book.reviewCount set_rating set_reviewCount].
  split; [|now rewrite length_map].
  destruct rs as [|r rs'] eqn:Ers.
  - cbn [List.length Nat.ltb Nat.leb map]. eexists.
    split; [reflexivity | apply rounds_exact, Qeq_refl].
  - replace (0 <? List.length (r :: rs'))%nat with true by reflexivity.
    destruct (div_rounds_mean (r :: rs') ltac:(discriminate)) as (q & Eq & Hq).
    rewrite Eq. exists q. split; [reflexivity | exact Hq].
Qed.

(** ** What a request can do to the collections *)

Lemma create_review_effect (req : Request) (s : State) :
  effect s (fst (serve [] create_review req s)).
Proof.
  unfold serve, chain, create_review.
  destruct (body_bookId req) as [b|]; run; [|now apply effect_none].
  destruct (user req) as [c|]; run; [|now apply effect_none].
  destruct (find _ (reviews s)) eqn:Efind; run; [now apply effect_none|].
  destruct (body_rating req) as [z|]; run;
    [|apply effect_none; cbn; auto].
  destruct (body_content req) as [txt|]; run;
    [|apply effect_none; cbn; auto].
  destruct ((1 <=? z)%Z && (z <=? 5)%Z && negb (txt =? ""))%bool eqn:Eok; run;
    [|apply effect_none; cbn; auto].
  apply andb_true_iff in Eok. destruct Eok as [Eok _].
  apply andb_true_iff in Eok. destruct Eok as [H1 H5].
  apply Z.leb_le in H1. apply Z.leb_le in H5.
  pose proof (effect_create s b (claim_id c) z txt (now req)
                (authLimiterStore s) (apiLimiterStore s) (conj H1 H5) Efind) as Heff.
  cbv zeta in Heff.
  match goal with
  | |- context [JS.div ?a ?b] => destruct (JS.div a b) eqn:Ediv
  end; run; cbn [fst]; try exact Heff.
  exfalso.
  match type of Ediv with
  | JS.div (sum_ratings ?l) _ = _ =>
      destruct (div_rounds_mean l) as (q & Eq & _);
        [|rewrite Eq in Ediv; discriminate Ediv]
  end.
  rewrite filter_app. cbn [filter]. unfold of_book at 2. cbn [Review.bookId].
  rewrite Nat.eqb_refl. intros E. apply app_eq_nil in E. destruct E; discriminate.
Qed.

Lemma update_review_effect (req : Request) (s : State) :
  effect s (fst (serve [] update_review req s)).
Proof.
  unfold serve, chain, update_review.
  destruct (params_id req) as [id|]; run; [|now apply effect_none].
  destruct (user req) as [c|]; run; [|now apply effect_none].
  destruct (find _ (reviews s)) as [review|] eqn:Efind; run; [|now apply effect_none].
  destruct (body_rating req) as [z|]; run; [|now apply effect_none].
  destruct (body_content req) as [txt|]; run; [|now apply effect_none].
  destruct ((1 <=? z)%Z && (z <=? 5)%Z && negb (txt =? ""))%bool eqn:Eok; run;
    [|now apply effect_none].
  apply andb_true_iff in Eok. destruct Eok as [Eok _].
  apply andb_true_iff in Eok. destruct Eok as [H1 H5].
  apply Z.leb_le in H1. apply Z.leb_le in H5.
  apply find_some in Efind. destruct Efind as [Hin _].
  pose proof (effect_update s review z txt (now req)
                (authLimiterStore s) (apiLimiterStore s) (conj H1 H5) Hin) as Heff.
  cbv zeta in Heff. cbn [Review.bookId].
  match goal with
  | |- context [JS.div ?a ?b] => destruct (JS.div a b) eqn:Ediv
  end; run; cbn [fst]; try exact Heff.
  exfalso.
  match type of Ediv with
  | JS.div (sum_ratings ?l) _ = _ =>
      destruct (div_rounds_mean l) as (q & Eq & _);
        [|rewrite Eq in Ediv; discriminate Ediv]
  end.
  intros E.
  assert (In (Review.mk (Review._id review) (Review.bookId review) (Review.userId review)
                        z txt (Review.createdAt review) (now req))
             (filter (of_book (Review.bookId review))
                (map (fun r => if (Review._id r =? Review._id review)%nat
                               then Review.mk (Review._id review) (Review.bookId review)
                                              (Review.userId review) z txt
                                              (Review.createdAt review) (now req)
                               else r) (reviews s)))) as Hf.
  { apply filter_In. split; [now apply in_map_replaced|]. unfold of_book. apply Nat.eqb_refl. }
  rewrite E in Hf. destruct Hf.
Qed.

Lemma delete_review_effect (req : Request) (s : State) :
  effect s (fst (serve [] delete_review req s)).
Proof.
  unfold serve, chain, delete_review.
  destruct (params_id req) as [id|]; run; [|now apply effect_none].
  destruct (user req) as [c|]; run; [|now apply effect_none].
  destruct (find _ (reviews s)) as [review|] eqn:Efind; run; [|now apply effect_none].
  apply find_some in Efind. destruct Efind as [Hin _].
  pose proof (effect_delete s review (authLimiterStore s) (apiLimiterStore s) Hin) as Heff.
  cbv zeta in Heff.
  set (rs := filter (of_book (Review.bookId review))
               (filter (fun r => negb (Review._id r =? Review._id review)%nat) (reviews s)))
    in *.
  destruct rs as [|r rs'] eqn:Ers.
  - cbn [List.length Nat.ltb Nat.leb fst] in *. run. exact Heff.
  - replace (0 <? List.length (r :: rs'))%nat with true in * by reflexivity.
    destruct (div_rounds_mean (r :: rs') ltac:(discriminate)) as (q & Eq & _).
    rewrite Eq in *. run. exact Heff.
Qed.

Lemma register_effect (req : Request) (s : State) :
  effect s (fst (serve [] register req s)).
Proof.
  unfold serve, chain, register. cbv zeta. run.
  destruct (find _ (users s)) eqn:Efind; [now apply effect_none|].
  destruct (body_password req) as [pw|]; run; [|now apply effect_none].
  destruct (body_username req) as [name|]; run; [|apply effect_none; cbn; auto].
  destruct (body_email req) as [mail|]; run; [|apply effect_none; cbn; auto].
  destruct (negb (name =? "") && negb (mail =? "") && negb (_ =? ""))%bool; run;
    [|apply effect_none; cbn; auto].
  cbn [fst].
  apply (effect_register s (User.mk (nextId s) name mail (bcrypt_hash pw (salt req))
                                   None None (now req))
           (authLimiterStore s) (apiLimiterStore s) eq_refl).
  intros x Hx. pose proof (find_none _ _ Efind x Hx) as Hp. cbv beta in Hp.
  cbn [field_is] in Hp. apply orb_false_iff in Hp. destruct Hp as [He Hn].
  apply String.eqb_neq in He. apply String.eqb_neq in Hn. now split.
Qed.

Lemma effect_of_same_state (s : State) : effect s s.
Proof. now apply effect_none. Qed.

(** Every request has one of the five effects. *)
Lemma app_effect (e : Endpoint) (req : Request) (s : State) :
  effect s (fst (app e req s)).
Proof.
  destruct e; unfold app, server; cbn [route fst snd].
  - unfold serve, app_use, cors, express_json. cbn [List.app chain].
    unfold list_books, Book_find_page, Book_countDocuments, build_query. run.
    destruct (query_search req =? "");
      [|destruct (RegExp_i (query_search req)); [|apply effect_of_same_state]];
      destruct (_ <? 0)%Z; apply effect_of_same_state.
  - unfold serve, app_use, cors, express_json. cbn [List.app chain].
    unfold get_book. run.
    destruct (params_id req); run; [|apply effect_of_same_state].
    destruct (Book_findById _ s); apply effect_of_same_state.
  - destruct (authenticated_or_not req) as [[c Ha]|Hu].
    + rewrite (review_route _ req c s Ha). cbv zeta.
      destruct (validationErrors _); [apply create_review_effect | apply effect_of_same_state].
    + destruct (authenticate_guards (reviewValidation ++ [validate]) create_review
                  req s Hu) as [msg ->]. apply effect_of_same_state.
  - destruct (authenticated_or_not req) as [[c Ha]|Hu].
    + rewrite (review_route _ req c s Ha). cbv zeta.
      destruct (validationErrors _); [apply update_review_effect | apply effect_of_same_state].
    + destruct (authenticate_guards (reviewValidation ++ [validate]) update_review
                  req s Hu) as [msg ->]. apply effect_of_same_state.
  - destruct (authenticated_or_not req) as [[c Ha]|Hu].
    + rewrite (authenticated_route _ req c s Ha). apply delete_review_effect.
    + destruct (authenticate_guards [] delete_review req s Hu) as [msg Hr].
      cbn [List.app] in *. rewrite Hr. apply effect_of_same_state.
  - rewrite register_route. cbv zeta.
    destruct (validationErrors _); [apply register_effect | apply effect_of_same_state].
  - rewrite login_route. cbv zeta.
    destruct (5 <? _)%nat; [now apply effect_none|].
    destruct (validationErrors _); [|now apply effect_none].
    rewrite login_reads_only. now apply effect_none.
  - destruct (authenticated_or_not req) as [[c Ha]|Hu].
    + rewrite (authenticated_route _ req c s Ha).
      unfold serve, chain, me. run. apply effect_of_same_state.
    + destruct (authenticate_guards [] me req s Hu) as [msg Hr].
      cbn [List.app] in *. rewrite Hr. apply effect_of_same_state.
Qed.

(** ** What stays true, request after request *)

Lemma find_update_other (id id' : ObjectId) (u : BookUpdate) (l : list Book.doc) :
  id' <> id ->
  find (fun b => (Book._id b =? id')%nat) (update_by_id id u l)
  = find (fun b => (Book._id b =? id')%nat) l.
Proof.
  intros Hne. induction l as [|b l IH]; [reflexivity|].
  cbn [update_by_id]. destruct (Book._id b =? id)%nat eqn:E.
  - apply Nat.eqb_eq in E. cbn [find apply_update Book._id].
    replace (Book._id b =? id')%nat with false
      by (symmetry; apply Nat.eqb_neq; congruence).
    reflexivity.
  - cbn [find]. now rewrite IH.
Qed.

(** With unshared ids, the review that is replaced or removed is the only
    one concerned. *)
Lemma same_id_same_review (review r : Review.doc) (l : list Review.doc) :
  NoDup (map Review._id l) -> In review l -> In r l ->
  Review._id r = Review._id review -> r = review.
Proof.
  induction l as [|a l IH]; intros Hnd Hin Hr Hid; [destruct Hin|].
  cbn [map] in Hnd. apply NoDup_cons_iff in Hnd. destruct Hnd as [Hfresh Hnd].
  destruct Hin as [->|Hin], Hr as [->|Hr]; try reflexivity.
  - exfalso. apply Hfresh. rewrite <- Hid. now apply in_map.
  - exfalso. apply Hfresh. rewrite Hid. now apply in_map.
  - now apply IH.
Qed.

Lemma replaced_review_elsewhere
    (review review' : Review.doc) (l : list Review.doc) (p : Review.doc -> bool) :
  NoDup (map Review._id l) -> In review l ->
  p review = false -> p review' = false ->
  filter p (map (fun r => if (Review._id r =? Review._id review)%nat
                          then review' else r) l)
  = filter p l.
Proof.
  intros Hnd Hin Hp Hp'.
  assert (forall r, In r l -> Review._id r = Review._id review -> r = review) as Honly
    by (intros r Hr; now apply (same_id_same_review review r l)).
  clear Hnd Hin. induction l as [|a l IH]; [reflexivity|].
  cbn [map filter]. destruct (Review._id a =? Review._id review)%nat eqn:E.
  - apply Nat.eqb_eq in E. rewrite (Honly a (or_introl eq_refl) E), Hp, Hp'.
    apply IH. intros r Hr. apply Honly. now right.
  - rewrite IH; [reflexivity|]. intros r Hr. apply Honly. now right.
Qed.

Lemma removed_review_elsewhere
    (review : Review.doc) (l : list Review.doc) (p : Review.doc -> bool) :
  NoDup (map Review._id l) -> In review l -> p review = false ->
  filter p (filter (fun r => negb (Review._id r =? Review._id review)%nat) l)
  = filter p l.
Proof.
  intros Hnd Hin Hp.
  assert (forall r, In r l -> Review._id r = Review._id review -> r = review) as Honly
    by (intros r Hr; now apply (same_id_same_review review r l)).
  clear Hnd Hin. induction l as [|a l IH]; [reflexivity|].
  cbn [filter]. destruct (Review._id a =? Review._id review)%nat eqn:E; cbn [negb].
  - apply Nat.eqb_eq in E. rewrite (Honly a (or_introl eq_refl) E), Hp.
    apply IH. intros r Hr. apply Honly. now right.
  - cbn [filter]. rewrite IH; [reflexivity|]. intros r Hr. apply Honly. now right.
Qed.

Lemma other_book (b id : ObjectId) (r : Review.doc) :
  Review.bookId r = b -> id <> b -> of_book id r = false.
Proof. intros <- Hne. unfold of_book. apply Nat.eqb_neq. congruence. Qed.

(** One request keeps the books in a relation to their reviews that the
    quotient of the handlers and the 0 of the delete handler establish. *)
Lemma effect_keeps_related (R : Book.doc -> list Z -> Prop) (s s' : State) :
  (forall book rs count,
     rs <> [] ->
     R (apply_update
          (mkBookUpdate (Some (JS.div (sum_ratings rs) (Z.of_nat (List.length rs)))) count)
          book)
       (map Review.rating rs)) ->
  (forall book count,
     R (apply_update (mkBookUpdate (Some (JS.Fin 0)) count) book) []) ->
  effect s s' -> review_ids_unique s -> related_by R s -> related_by R s'.
Proof.
  intros Hwritten Hnone Heff Hnd Hcon. unfold related_by, review_ids_unique in *.
  destruct Heff
    as [s' Hb Hr Hu Hn
       | b uid z txt t l1 l2 Hz Hfind review rs
       | review z txt t l1 l2 Hz Hin review' all rs
       | review l1 l2 Hin rest rs
       | u l1 l2 Hid Hnew];
    intros id book; unfold Book_findById, ratings_of; cbn [books reviews].
  - rewrite Hb, Hr. apply Hcon.
  - assert (rs <> []) as Hne.
    { unfold rs. rewrite filter_app. cbn [filter]. unfold of_book at 2.
      cbn [review Review.bookId]. rewrite Nat.eqb_refl.
      intros E. apply app_eq_nil in E. destruct E; discriminate. }
    destruct (Nat.eq_dec id b) as [->|Hne'].
    + rewrite find_update_by_id. fold rs.
      destruct (find _ (books s)) as [book0|]; [|discriminate].
      cbn [option_map]. intros H. injection H as <-.
      split; [now apply Hwritten|].
      cbn [apply_update Book.reviewCount set_reviewCount]. now rewrite length_map.
    + rewrite find_update_other by exact Hne'.
      rewrite filter_app. cbn [filter].
      rewrite (other_book b id review eq_refl Hne'). rewrite app_nil_r.
      apply Hcon.
  - assert (In review' all) as Hin' by (apply in_map_replaced; exact Hin).
    assert (rs <> []) as Hne.
    { intros E.
      assert (In review' rs) as Hf
          by (apply filter_In; split; [exact Hin' | unfold of_book; apply Nat.eqb_refl]).
      rewrite E in Hf. destruct Hf. }
    destruct (Nat.eq_dec id (Review.bookId review)) as [->|Hne'].
    + rewrite find_update_by_id. fold rs.
      destruct (find _ (books s)) as [book0|] eqn:Ebook; [|discriminate].
      cbn [option_map]. intros H. injection H as <-.
      split; [now apply Hwritten|].
      cbn [apply_update Book.reviewCount set_reviewCount].
      destruct (Hcon _ _ Ebook) as [_ ->]. unfold ratings_of.
      rewrite !length_map. unfold rs, all.
      now rewrite (replaced_review_keeps_counts review review' (reviews s) _ Hnd Hin eq_refl).
    + rewrite find_update_other by exact Hne'. unfold all.
      rewrite (replaced_review_elsewhere review review' (reviews s) (of_book id) Hnd Hin
                 (other_book _ id review eq_refl Hne')
                 (other_book _ id review' eq_refl Hne')).
      apply Hcon.
  - destruct (Nat.eq_dec id (Review.bookId review)) as [->|Hne'].
    + rewrite find_update_by_id. fold rest. fold rs.
      destruct (find _ (books s)) as [book0|]; [|discriminate].
      cbn [option_map]. intros H. injection H as <-.
      split; [|cbn [apply_update Book.reviewCount set_reviewCount]; now rewrite length_map].
      destruct rs as [|r rs'] eqn:Ers.
      * cbn [List.length Nat.ltb Nat.leb map]. apply Hnone.
      * replace (0 <? List.length (r :: rs'))%nat with true by reflexivity.
        apply Hwritten. discriminate.
    + rewrite find_update_other by exact Hne'. unfold rest.
      rewrite (removed_review_elsewhere review (reviews s) (of_book id) Hnd Hin
                 (other_book _ id review eq_refl Hne')).
      apply Hcon.
  - apply Hcon.
Qed.

(** A rating that is the mean is the mean up to the rounding. *)
Lemma exact_mean_is_rounded_mean (b : Book.doc) (l : list Z) :
  rating_is_mean b l -> rating_is_rounded_mean b l.
Proof.
  intros (q & Hq & Hmean). exists q. split; [exact Hq | now apply rounds_exact].
Qed.

(** The books stay consistent with the reviews, up to the rounding. *)
Lemma effect_keeps_consistent (s s' : State) :
  effect s s' -> review_ids_unique s ->
  consistent_in_doubles s -> consistent_in_doubles s'.
Proof.
  apply (effect_keeps_related rating_is_rounded_mean).
  - intros book rs count Hne.
    destruct (div_rounds_mean rs Hne) as (q & Eq & Hq). rewrite Eq.
    exists q. split; [reflexivity | exact Hq].
  - intros book count. eexists. split; [reflexivity | apply rounds_exact, Qeq_refl].
Qed.

Lemma total_in_range (l : list Z) :
  Forall (fun z => (1 <= z <= 5)%Z) l ->
  (Z.of_nat (List.length l) <= total l <= 5 * Z.of_nat (List.length l))%Z.
Proof.
  induction 1 as [|z l Hz _ IH]; unfold total in *; cbn [List.length fold_right]; lia.
Qed.

(** And their ratings stay stars. *)
Lemma effect_keeps_stars (s s' : State) :
  effect s s' -> review_ids_unique s ->
  related_by rating_in_stars s -> related_by rating_in_stars s'.
Proof.
  apply (effect_keeps_related rating_in_stars).
  - intros book rs count Hne Hall.
    pose proof (total_in_range _ Hall) as [Hlow Hhigh].
    rewrite <- sum_ratings_total, length_map in Hlow, Hhigh.
    assert (0 < Z.of_nat (List.length rs))%Z as Hlen
        by (destruct rs; [congruence | cbn [List.length]; lia]).
    destruct (div_between (sum_ratings rs) (Z.of_nat (List.length rs)) 1 5)
      as (q & Eq & H1 & H5); try lia.
    rewrite Eq. exists q. split; [reflexivity|]. right.
    split; [|split; assumption].
    destruct rs; [congruence | discriminate].
  - intros book count _. exists 0%Q. split; [reflexivity|]. left.
    split; [reflexivity | apply Qeq_refl].
Qed.

Lemma replaced_review_keeps_pairs
    (review review' : Review.doc) (l : list Review.doc) :
  NoDup (map Review._id l) -> In review l ->
  Review.userId review' = Review.userId review ->
  Review.bookId review' = Review.bookId review ->
  map (fun r => (Review.userId r, Review.bookId r))
      (map (fun r => if (Review._id r =? Review._id review)%nat then review' else r) l)
  = map (fun r => (Review.userId r, Review.bookId r)) l.
Proof.
  intros Hnd Hin Hu Hb. rewrite map_map. apply map_ext_in. intros r Hr.
  destruct (Review._id r =? Review._id review)%nat eqn:E; [|reflexivity].
  apply Nat.eqb_eq in E.
  rewrite (same_id_same_review review r l Hnd Hin Hr E). now rewrite Hu, Hb.
Qed.

(** Removing reviews does not make two of them alike. *)
Lemma kept_reviews_have_distinct_pairs (keep : Review.doc -> bool) (rs : list Review.doc) :
  NoDup (map (fun r => (Review.userId r, Review.bookId r)) rs) ->
  NoDup (map (fun r => (Review.userId r, Review.bookId r)) (filter keep rs)).
Proof.
  induction rs as [|r rs IH]; cbn [map filter]; intros Hnd; [constructor|].
  apply NoDup_cons_iff in Hnd. destruct Hnd as [Hfresh Hrest].
  destruct (keep r); cbn [map]; [|now apply IH].
  apply NoDup_cons_iff. split; [|now apply IH].
  contradict Hfresh.
  apply in_map_iff in Hfresh. destruct Hfresh as (r' & Epair & Hkept).
  apply filter_In in Hkept. apply in_map_iff. exists r'. tauto.
Qed.

(** One request leaves nobody with two reviews of one book. *)
Lemma effect_keeps_one_review_each (s s' : State) :
  effect s s' -> review_ids_unique s -> one_review_each s -> one_review_each s'.
Proof.
  intros Heff Hnd Hone. unfold one_review_each, review_ids_unique in *.
  destruct Heff
    as [s' Hb Hr Hu Hn
       | b uid z txt t l1 l2 Hz Hfind review rs
       | review z txt t l1 l2 Hz Hin review' all rs
       | review l1 l2 Hin rest rs
       | u l1 l2 Hid Hnew];
    cbn [reviews].
  - now rewrite Hr.
  - rewrite map_app. cbn [map review Review.userId Review.bookId].
    apply NoDup_app; [exact Hone | repeat constructor; intros [] |].
    intros pair Hpair [<-|[]].
    apply in_map_iff in Hpair. destruct Hpair as (r & Er & Hr).
    injection Er as Eu Eb.
    pose proof (find_none _ _ Hfind r Hr) as Hp. cbv beta in Hp.
    unfold of_book in Hp. rewrite Eu, Eb, !Nat.eqb_refl in Hp. discriminate Hp.
  - unfold all. now rewrite (replaced_review_keeps_pairs review review' (reviews s) Hnd Hin).
  - now apply kept_reviews_have_distinct_pairs.
  - exact Hone.
Qed.

(** One request keeps the ratings within 1 to 5. *)
Lemma effect_keeps_ratings_in_range (s s' : State) :
  effect s s' -> ratings_in_range s -> ratings_in_range s'.
Proof.
  intros Heff Hin5. unfold ratings_in_range in *.
  destruct Heff
    as [s' Hb Hr Hu Hn
       | b uid z txt t l1 l2 Hz Hfind review rs
       | review z txt t l1 l2 Hz Hin review' all rs
       | review l1 l2 Hin rest rs
       | u l1 l2 Hid Hnew];
    cbn [reviews].
  - now rewrite Hr.
  - apply Forall_app. split; [exact Hin5|]. constructor; [exact Hz | constructor].
  - unfold all. rewrite Forall_forall in *. intros r' Hr'.
    apply in_map_iff in Hr'. destruct Hr' as (r & <- & Hr).
    destruct (Review._id r =? Review._id review)%nat; [exact Hz | now apply Hin5].
  - unfold rest. rewrite Forall_forall in *. intros r Hr.
    apply filter_In in Hr. now apply Hin5.
  - exact Hin5.
Qed.

(** One request leaves the addresses and the usernames unshared. *)
Lemma effect_keeps_accounts_distinct (s s' : State) :
  effect s s' -> accounts_distinct s -> accounts_distinct s'.
Proof.
  intros Heff [Hmail Hname]. unfold accounts_distinct.
  destruct Heff
    as [s' Hb Hr Hu Hn
       | b uid z txt t l1 l2 Hz Hfind review rs
       | review z txt t l1 l2 Hz Hin review' all rs
       | review l1 l2 Hin rest rs
       | u l1 l2 Hid Hnew];
    cbn [users]; try (split; assumption).
  - rewrite Hu. now split.
  - rewrite !map_app. cbn [map]. split.
    + apply NoDup_app; [exact Hmail | repeat constructor; intros [] |].
      intros e He [<-|[]]. apply in_map_iff in He. destruct He as (x & Ex & Hx).
      now destruct (Hnew x Hx) as [Hne _].
    + apply NoDup_app; [exact Hname | repeat constructor; intros [] |].
      intros n Hn [<-|[]]. apply in_map_iff in Hn. destruct Hn as (x & Ex & Hx).
      now destruct (Hnew x Hx) as [_ Hne].
Qed.

(** One request keeps the ids of the users below the next id. *)
Lemma effect_keeps_user_ids_fresh (s s' : State) :
  effect s s' -> user_ids_fresh s -> user_ids_fresh s'.
Proof.
  intros Heff Hfresh. unfold user_ids_fresh in *.
  destruct Heff
    as [s' Hb Hr Hu Hn
       | b uid z txt t l1 l2 Hz Hfind review rs
       | review z txt t l1 l2 Hz Hin review' all rs
       | review l1 l2 Hin rest rs
       | u l1 l2 Hid Hnew];
    cbn [users nextId]; try exact Hfresh.
  - rewrite Hu. eapply Forall_impl; [|exact Hfresh]. cbv beta. intros x Hx. lia.
  - eapply Forall_impl; [|exact Hfresh]. cbv beta. intros x Hx. lia.
  - apply Forall_app. split.
    + eapply Forall_impl; [|exact Hfresh]. cbv beta. intros x Hx. lia.
    + constructor; [lia | constructor].
Qed.

Lemma trace_keeps_review_ids (trace : list (Endpoint * Request)) (s : State) :
  review_ids_fresh s -> review_ids_fresh (serve_all trace s).
Proof.
  revert s. induction trace as [|[e req] trace IH]; intros s H; [exact H|].
  cbn [serve_all]. apply IH. now apply app_keeps_review_ids.
Qed.

(** X15: The books stay consistent with the reviews: from a state where every
    book carries the mean of the ratings of its reviews up to the rounding
    of a double (0 without a review) and their number, and where the ids
    of the reviews are unshared and below the next id, any sequence of
    requests to the routes of [app], served one after the other, leads to
    a state where this is so again. *)
Theorem books_stay_consistent (trace : list (Endpoint * Request)) (s : State) :
  review_ids_fresh s ->
  consistent_in_doubles s ->
  consistent_in_doubles (serve_all trace s).
Proof.
  revert s. induction trace as [|[e req] trace IH]; intros s Hids Hcon; [exact Hcon|].
  cbn [serve_all]. apply IH.
  - now apply app_keeps_review_ids.
  - apply (effect_keeps_consistent s); [apply app_effect | apply Hids | exact Hcon].
Qed.

(** X16: One review for each reader and book: when nobody has two reviews of
    one book, no sequence of requests, served one after the other, gives
    anybody two. *)
Theorem nobody_reviews_a_book_twice (trace : list (Endpoint * Request)) (s : State) :
  review_ids_fresh s ->
  one_review_each s ->
  one_review_each (serve_all trace s).
Proof.
  revert s. induction trace as [|[e req] trace IH]; intros s Hids Hone; [exact Hone|].
  cbn [serve_all]. apply IH.
  - now apply app_keeps_review_ids.
  - apply (effect_keeps_one_review_each s); [apply app_effect | apply Hids | exact Hone].
Qed.

(** X17: One account for each address and each username: when no two users
    share an address or a username, no sequence of requests makes two
    share one. *)
Theorem accounts_stay_distinct (trace : list (Endpoint * Request)) (s : State) :
  accounts_distinct s ->
  accounts_distinct (serve_all trace s).
Proof.
  revert s. induction trace as [|[e req] trace IH]; intros s Hdist; [exact Hdist|].
  cbn [serve_all]. apply IH.
  apply (effect_keeps_accounts_distinct s); [apply app_effect | exact Hdist].
Qed.

Lemma mean_in_range (l : list Z) :
  l <> [] ->
  Forall (fun z => (1 <= z <= 5)%Z) l ->
  (1 <= mean l /\ mean l <= 5)%Q.
Proof.
  intros Hne Hall. pose proof (total_in_range l Hall) as [Hlow Hhigh].
  destruct l as [|z l]; [congruence|].
  unfold mean.
  assert (0 < inject_Z (Z.of_nat (List.length (z :: l))))%Q as Hpos.
  { change 0%Q with (inject_Z 0). rewrite <- Zlt_Qlt. cbn [List.length]. lia. }
  split.
  - apply Qle_shift_div_l; [exact Hpos|]. rewrite Qmult_1_l. now rewrite <- Zle_Qle.
  - apply Qle_shift_div_r; [exact Hpos|].
    change 5%Q with (inject_Z 5). rewrite <- inject_Z_mult. now rewrite <- Zle_Qle.
Qed.

(** X18: The stars of a book: from a state where the ratings are within 1
    to 5 and the books consistent with them, after any sequence of
    requests the rating of every book is 0, for a book without a review,
    or a number from 1 to 5: the rounding of the division does not leave
    this range. *)
Theorem book_ratings_stay_between_1_and_5
    (trace : list (Endpoint * Request)) (s : State) (id : ObjectId) (book : Book.doc) :
  review_ids_fresh s ->
  consistent s ->
  ratings_in_range s ->
  Book_findById id (serve_all trace s) = Some book ->
  exists q,
    Book.rating book = JS.Fin q /\
    ((ratings_of id (serve_all trace s) = [] /\ (q == 0)%Q) \/
     (ratings_of id (serve_all trace s) <> [] /\ (1 <= q)%Q /\ (q <= 5)%Q)).
Proof.
  intros Hids Hcon Hin5 Hbook.
  assert (related_by rating_in_stars s) as Hstars.
  { intros id0 book0 Hfound. destruct (Hcon id0 book0 Hfound) as [(q & Hq & Hmean) Hcount].
    split; [|exact Hcount].
    intros Hall. exists q. split; [exact Hq|].
    destruct (ratings_of id0 s) as [|z l] eqn:El.
    - left. split; [reflexivity | exact Hmean].
    - right. split; [discriminate|].
      destruct (mean_in_range (z :: l) ltac:(discriminate) Hall) as [H1 H5].
      rewrite Hmean. now split. }
  clear Hcon.
  assert (related_by rating_in_stars (serve_all trace s) /\
          ratings_in_range (serve_all trace s)) as [Hstars' Hin5'].
  { clear Hbook. revert s Hids Hstars Hin5.
    induction trace as [|[e req] trace IH]; intros s Hids Hstars Hin5; [now split|].
    cbn [serve_all]. apply IH.
    - now apply app_keeps_review_ids.
    - apply (effect_keeps_stars s); [apply app_effect | apply Hids | exact Hstars].
    - apply (effect_keeps_ratings_in_range s); [apply app_effect | exact Hin5]. }
  destruct (Hstars' id book Hbook) as [Hstar _].
  apply Hstar.
  unfold ratings_of. unfold ratings_in_range in Hin5'.
  rewrite Forall_forall in *. intros x Hx.
  apply in_map_iff in Hx. destruct Hx as (r & <- & Hr).
  apply filter_In in Hr. now apply Hin5'.
Qed.

(** ** What no request does *)

Lemma update_by_id_keeps_cards (id : ObjectId) (u : BookUpdate) (l : list Book.doc) :
  map card (update_by_id id u l) = map card l.
Proof.
  induction l as [|b l IH]; [reflexivity|].
  cbn [update_by_id]. destruct (Book._id b =? id)%nat; cbn [map]; [reflexivity|].
  now rewrite IH.
Qed.

Lemma effect_keeps_catalogue (s s' : State) :
  effect s s' ->
  catalogue s' = catalogue s /\ exists newcomers, users s' = users s ++ newcomers.
Proof.
  intros Heff. unfold catalogue.
  destruct Heff
    as [s' Hb Hr Hu Hn
       | b uid z txt t l1 l2 Hz Hfind review rs
       | review z txt t l1 l2 Hz Hin review' all rs
       | review l1 l2 Hin rest rs
       | u l1 l2 Hid Hnew];
    cbn [books users].
  - rewrite Hb, Hu. split; [reflexivity|]. exists []. now rewrite app_nil_r.
  - rewrite update_by_id_keeps_cards. split; [reflexivity|]. exists []. now rewrite app_nil_r.
  - rewrite update_by_id_keeps_cards. split; [reflexivity|]. exists []. now rewrite app_nil_r.
  - rewrite update_by_id_keeps_cards. split; [reflexivity|]. exists []. now rewrite app_nil_r.
  - split; [reflexivity|]. now exists [u].
Qed.

(** X19: The routes only rate the books and only add users: after any sequence
    of requests the books are the same, in the same order, but for their
    ratings and their numbers of reviews - no book is added, removed or
    renamed, and [updatedAt] is never written - and the users of before
    are all there, unchanged and in front of the new ones. *)
Theorem requests_only_rate_books_and_add_users
    (trace : list (Endpoint * Request)) (s : State) :
  catalogue (serve_all trace s) = catalogue s /\
  exists newcomers, users (serve_all trace s) = users s ++ newcomers.
Proof.
  revert s. induction trace as [|[e req] trace IH]; intros s.
  - split; [reflexivity|]. exists []. now rewrite app_nil_r.
  - cbn [serve_all].
    destruct (IH (fst (app e req s))) as [Hcat [later Husers]].
    destruct (effect_keeps_catalogue s _ (app_effect e req s)) as [Hcat1 [first Husers1]].
    split; [now rewrite Hcat|].
    exists (first ++ later). now rewrite Husers, Husers1, app_assoc.
Qed.

(** ** The listing, page after page *)

(** A listing that does not fail, as the handler computes it. *)
Lemma listing_served (req : Request) (s : State) (query : Book.doc -> bool) :
  (1 <= requested_page req)%Z ->
  build_query (query_search req) (query_genre req) s = (s, Next query) ->
  exists pages,
    (9 * (pages - 1) < Z.of_nat (List.length (filter query (books s))) <= 9 * pages)%Z /\
    app GET_books req s
    = (s, mkResponse 200
            (JObj [("books",
                    JArr (map Book.toJSON
                            (firstn 9 (skipn (Z.to_nat ((requested_page req - 1) * 9))
                                             (sort_newest_first (filter query (books s)))))));
                   ("totalPages", JInt pages);
                   ("currentPage", JInt (requested_page req))])).
Proof.
  intros Hpage Hq.
  destruct (ceil_ninths (List.length (filter query (books s)))) as (pages & Hceil & Hpages).
  exists pages. split; [exact Hpages|].
  unfold app, server; cbn [route fst snd]. unfold serve, app_use, cors, express_json.
  cbn [List.app chain]. unfold list_books, Book_find_page, Book_countDocuments.
  run. rewrite Hq.
  change (match query_page req with Some p => p | None => 1%Z end)
    with (requested_page req).
  replace ((requested_page req - 1) * Z.of_nat 9 <? 0)%Z with false
    by (symmetry; apply Z.ltb_ge; lia).
  rewrite Hceil. cbn [opt_json]. reflexivity.
Qed.

(** Nine by nine, from the [k]-th nine on, [n] times: the whole list when
    [n] nines are enough. *)
Lemma nines_make_the_list {A : Type} (n : nat) :
  forall (k : nat) (l : list A),
    (List.length l <= 9 * (k + n))%nat ->
    List.concat (map (fun p => firstn 9 (skipn (9 * p) l)) (seq k n)) = skipn (9 * k) l.
Proof.
  induction n as [|n IH]; intros k l Hlen; cbn [seq map List.concat].
  - symmetry. apply skipn_all2. lia.
  - rewrite (IH (S k) l) by lia.
    replace (9 * S k)%nat with (9 + 9 * k)%nat by lia.
    rewrite <- skipn_skipn. apply firstn_skipn.
Qed.

Lemma sort_newest_first_length (l : list Book.doc) :
  List.length (sort_newest_first l) = List.length l.
Proof. symmetry. apply Permutation_length, sort_newest_first_perm. Qed.

(** X20: Leafing through the listing: when the search is empty or a pattern,
    every page from 1 on is served with the same number of pages, and the
    pages from 1 to that number, one after the other, show the matching
    books, newest first, each of them once; the pages after the last one
    are empty. *)
Theorem pages_cover_the_listing (req : Request) (s : State) :
  query_search req = "" \/ RegExp_i (query_search req) <> None ->
  exists query pages,
    build_query (query_search req) (query_genre req) s = (s, Next query) /\
    (0 <= pages)%Z /\
    (forall p, (1 <= p)%Z ->
       exists shown,
         app GET_books (for_page p req) s
         = (s, mkResponse 200 (JObj [("books", JArr shown);
                                     ("totalPages", JInt pages);
                                     ("currentPage", JInt p)])) /\
         (pages < p -> shown = [])%Z) /\
    leaf_through (Z.to_nat pages) req s
    = map Book.toJSON (sort_newest_first (filter query (books s))).
Proof.
  intros Hsearch.
  destruct (build_query_runs (query_search req) (query_genre req) s Hsearch)
    as [query Hq].
  destruct (ceil_ninths (List.length (filter query (books s)))) as (pages & Hceil & Hpages).
  set (sorted := sort_newest_first (filter query (books s))).
  assert (List.length sorted = List.length (filter query (books s))) as Hlen
      by apply sort_newest_first_length.
  assert (forall p, (1 <= p)%Z ->
            app GET_books (for_page p req) s
            = (s, mkResponse 200
                    (JObj [("books",
                            JArr (map Book.toJSON
                                    (firstn 9 (skipn (Z.to_nat ((p - 1) * 9)) sorted))));
                           ("totalPages", JInt pages);
                           ("currentPage", JInt p)]))) as Hserved.
  { intros p Hp.
    destruct (listing_served (for_page p req) s query) as (pages' & Hpages' & ->);
      [exact Hp | exact Hq |].
    cbn [for_page requested_page query_page].
    replace pages' with pages by lia. reflexivity. }
  exists query, pages. split; [exact Hq|]. split; [lia|]. split.
  - intros p Hp. eexists. split; [apply Hserved; exact Hp|].
    intros Hlast. rewrite skipn_all2; [reflexivity|]. lia.
  - unfold leaf_through.
    transitivity
      (List.concat (map (fun p => firstn 9 (skipn (9 * p) (map Book.toJSON sorted)))
                   (seq 0 (Z.to_nat pages)))).
    + rewrite <- seq_shift, map_map. f_equal. apply map_ext_in.
      intros p Hp. rewrite Hserved by lia. unfold books_of; cbn [snd body].
      rewrite <- firstn_map, <- skipn_map. do 2 f_equal. lia.
    + rewrite nines_make_the_list; [reflexivity|].
      rewrite length_map. lia.
Qed.

(** ** The buttons of BookListing *)

Lemma click_stays_in_range (st : BookListing.state) (b : BookListing.button) :
  (1 <= BookListing.page st <= BookListing.totalPages st)%Z ->
  (1 <= BookListing.page (BookListing.click st b)
   <= BookListing.totalPages (BookListing.click st b))%Z /\
  BookListing.totalPages (BookListing.click st b) = BookListing.totalPages st.
Proof.
  intros Hin. unfold BookListing.click.
  destruct (BookListing.disabled b st); [now split|].
  destruct b; cbn [BookListing.onClick BookListing.page BookListing.totalPages];
    split; try reflexivity; lia.
Qed.

(** A listing that is served has asked for a page from 1 on, with a search
    that is empty or a pattern. *)
Lemma served_listing_is_well_asked (req : Request) (s s' : State) (resp : Response) :
  app GET_books req s = (s', resp) ->
  status resp = 200 ->
  (1 <= requested_page req)%Z /\
  (query_search req = "" \/ RegExp_i (query_search req) <> None).
Proof.
  intros Hrun Hst.
  assert (~ ((requested_page req < 1)%Z \/
             (query_search req <> "" /\ RegExp_i (query_search req) = None))) as Hnot.
  { intros Hbad. destruct (listing_fails req s Hbad) as [msg Hfail].
    rewrite Hfail in Hrun. injection Hrun as _ <-. discriminate Hst. }
  split; [lia|].
  destruct (query_search req =? "") eqn:E; [left; now apply String.eqb_eq|].
  right. intros Hnone. apply Hnot. right. split; [|exact Hnone].
  intros Hempty. rewrite Hempty in E. discriminate E.
Qed.

(** X21: The buttons keep to the pages there are: when [totalPages] is what the
    server has answered to the listing request and the page lies between 1
    and [totalPages], then, whatever buttons are pressed, the page stays
    between 1 and [totalPages], and the request for it is answered with
    200, the same [totalPages] and at least one book. *)
Theorem buttons_keep_to_the_pages
    (st : BookListing.state) (pressed : list BookListing.button)
    (req : Request) (s : State) (shown : list json) (current : json) :
  app GET_books req s
  = (s, mkResponse 200 (JObj [("books", JArr shown);
                              ("totalPages", JInt (BookListing.totalPages st));
                              ("currentPage", current)])) ->
  (1 <= BookListing.page st <= BookListing.totalPages st)%Z ->
  let st' := fold_left BookListing.click pressed st in
  (1 <= BookListing.page st' <= BookListing.totalPages st)%Z /\
  exists shown',
    shown' <> [] /\
    app GET_books (for_page (BookListing.page st') req) s
    = (s, mkResponse 200 (JObj [("books", JArr shown');
                                ("totalPages", JInt (BookListing.totalPages st));
                                ("currentPage", JInt (BookListing.page st'))])).
Proof.
  intros Hrun Hin. cbv zeta.
  assert (1 <= BookListing.page (fold_left BookListing.click pressed st)
          <= BookListing.totalPages st)%Z as Hin'.
  { clear Hrun. revert st Hin.
    induction pressed as [|b pressed IH]; intros st Hin; [exact Hin|].
    cbn [fold_left].
    destruct (click_stays_in_range st b Hin) as [Hin1 Htotal].
    rewrite <- Htotal. apply IH. exact Hin1. }
  split; [exact Hin'|].
  set (p := BookListing.page (fold_left BookListing.click pressed st)) in *.
  destruct (served_listing_is_well_asked req s s _ Hrun eq_refl) as [Hpage Hsearch].
  destruct (build_query_runs (query_search req) (query_genre req) s Hsearch)
    as [query Hq].
  destruct (listing_served req s query Hpage Hq) as (pages & Hpages & Hrun').
  rewrite Hrun' in Hrun. injection Hrun as _ Htotal _. subst pages.
  destruct (listing_served (for_page p req) s query) as (pages' & Hpages' & ->);
    [cbn [for_page requested_page query_page]; lia | exact Hq |].
  cbn [for_page requested_page query_page] in *.
  replace pages' with (BookListing.totalPages st) by lia.
  eexists. split; [|reflexivity].
  pose proof (sort_newest_first_length (filter query (books s))) as Hlen.
  destruct (skipn (Z.to_nat ((p - 1) * 9)) (sort_newest_first (filter query (books s))))
    as [|b rest] eqn:Eskip; [|discriminate].
  exfalso.
  assert (List.length (skipn (Z.to_nat ((p - 1) * 9))
                             (sort_newest_first (filter query (books s)))) = 0%nat) as Hzero
      by now rewrite Eskip.
  rewrite length_skipn in Hzero. lia.
Qed.

(** What a page shows is in the list it is cut from. *)
Lemma page_is_cut_from_the_list {A : Type} (n k : nat) (l : list A) (x : A) :
  In x (firstn n (skipn k l)) -> In x l.
Proof.
  intros Hx. rewrite <- (firstn_skipn k l). apply in_or_app. right.
  rewrite <- (firstn_skipn n (skipn k l)). apply in_or_app. now left.
Qed.

(** The JSON of a book tells the book. *)
Lemma Book_toJSON_tells_the_book (a b : Book.doc) :
  Book.toJSON a = Book.toJSON b -> a = b.
Proof.
  destruct a as [ia ta aa da ga pa ca ra na cra ua].
  destruct b as [ib tb ab db gb pb cb rb nb crb ub].
  unfold Book.toJSON; cbn [Book._id Book.title Book.author Book.description Book.genre
                           Book.publishedDate Book.coverImage Book.rating
                           Book.reviewCount Book.createdAt Book.updatedAt].
  intros H. injection H as -> -> -> -> -> Hp Hc -> -> -> ->.
  destruct pa, pb; cbn [opt_json] in Hp; try discriminate Hp;
    destruct ca, cb; cbn [opt_json] in Hc; try discriminate Hc;
    try injection Hp as ->; try injection Hc as ->; reflexivity.
Qed.

(** X22: A book that a listing shows can be opened: a book whose JSON is
    in a served listing is a stored book, and GET /api/books/:id with its
    id is answered with 200 and a stored book with that id; the state
    stays as it is. *)
Theorem listed_books_can_be_opened
    (req req2 : Request) (s : State) (shown : list json) (pages current : json)
    (b : Book.doc) :
  app GET_books req s
  = (s, mkResponse 200 (JObj [("books", JArr shown); ("totalPages", pages);
                              ("currentPage", current)])) ->
  In (Book.toJSON b) shown ->
  params_id req2 = Some (Book._id b) ->
  In b (books s) /\
  exists b',
    In b' (books s) /\ Book._id b' = Book._id b /\
    app GET_books_id req2 s = (s, mkResponse 200 (Book.toJSON b')).
Proof.
  intros Hrun Hj Hid.
  destruct (served_listing_is_well_asked req s s _ Hrun eq_refl) as [Hpage Hsearch].
  destruct (build_query_runs (query_search req) (query_genre req) s Hsearch)
    as [query Hq].
  destruct (listing_served req s query Hpage Hq) as (n & _ & Hrun').
  rewrite Hrun' in Hrun. injection Hrun as Hshown _ _. subst shown.
  apply in_map_iff in Hj. destruct Hj as (b0 & Esame & Hb).
  apply Book_toJSON_tells_the_book in Esame. subst b0.
  apply (page_is_cut_from_the_list 9 (Z.to_nat ((requested_page req - 1) * 9))
           (sort_newest_first (filter query (books s)))) in Hb.
  apply (Permutation_in _ (Permutation_sym (sort_newest_first_perm _))) in Hb.
  apply filter_In in Hb. destruct Hb as [Hb _].
  split; [exact Hb|].
  destruct (find (fun x => (Book._id x =? Book._id b)%nat) (books s)) as [b'|] eqn:Efind.
  - pose proof (find_some _ _ Efind) as [Hin Hsame].
    apply Nat.eqb_eq in Hsame. exists b'. split; [exact Hin|]. split; [exact Hsame|].
    unfold app, server; cbn [route fst snd]. unfold serve, app_use, cors, express_json.
    cbn [List.app chain]. unfold get_book. run. rewrite Hid. run.
    unfold Book_findById. rewrite Efind. reflexivity.
  - pose proof (find_none _ _ Efind b Hb) as Hp. cbv beta in Hp.
    rewrite Nat.eqb_refl in Hp. discriminate Hp.
Qed.

(** X23: A listing without a book: when the first page comes back empty, it
    comes with [totalPages] 0; the button to the next page is then enabled,
    it leads to page 0, and the request for that page is answered with
    500. *)
Theorem next_page_of_an_empty_listing_fails
    (req : Request) (s : State) (pages : Z) (current : json) :
  requested_page req = 1%Z ->
  app GET_books req s
  = (s, mkResponse 200 (JObj [("books", JArr []); ("totalPages", JInt pages);
                              ("currentPage", current)])) ->
  let st := BookListing.mk 1 pages in
  pages = 0%Z /\
  BookListing.disabled BookListing.ChevronRight st = false /\
  BookListing.page (BookListing.click st BookListing.ChevronRight) = 0%Z /\
  status (snd (app GET_books
                 (for_page (BookListing.page (BookListing.click st BookListing.ChevronRight))
                           req) s)) = 500.
Proof.
  intros Hpage Hrun. cbv zeta.
  assert (pages = 0%Z) as ->.
  { destruct (query_search req =? "") eqn:E.
    - apply String.eqb_eq in E.
      destruct (build_query_runs (query_search req) (query_genre req) s (or_introl E))
        as [query Hq].
      destruct (listing_served req s query) as (pages' & Hpages' & Hrun');
        [lia | exact Hq |].
      rewrite Hrun' in Hrun. injection Hrun as Hshown Htotal _.
      rewrite Hpage in Hshown. cbn [Z.sub Z.add Z.mul Z.to_nat skipn Z.opp Z.pos_sub] in Hshown.
      apply map_eq_nil in Hshown.
      assert (sort_newest_first (filter query (books s)) = []) as Hnone.
      { destruct (sort_newest_first (filter query (books s))); [reflexivity|].
        discriminate Hshown. }
      pose proof (sort_newest_first_length (filter query (books s))) as Hlen.
      rewrite Hnone in Hlen. cbn [List.length] in Hlen. lia.
    - destruct (RegExp_i (query_search req)) as [test|] eqn:Et.
      + destruct (build_query_runs (query_search req) (query_genre req) s)
          as [query Hq]; [right; congruence|].
        destruct (listing_served req s query) as (pages' & Hpages' & Hrun');
          [lia | exact Hq |].
        rewrite Hrun' in Hrun. injection Hrun as Hshown Htotal _.
        rewrite Hpage in Hshown.
        cbn [Z.sub Z.add Z.mul Z.to_nat skipn Z.opp Z.pos_sub] in Hshown.
        apply map_eq_nil in Hshown.
        assert (sort_newest_first (filter query (books s)) = []) as Hnone.
        { destruct (sort_newest_first (filter query (books s))); [reflexivity|].
          discriminate Hshown. }
        pose proof (sort_newest_first_length (filter query (books s))) as Hlen.
        rewrite Hnone in Hlen. cbn [List.length] in Hlen. lia.
      + destruct (listing_fails req s) as [msg Hfail].
        { right. split; [|exact Et]. intros Hempty. rewrite Hempty in E. discriminate E. }
        rewrite Hfail in Hrun. discriminate Hrun. }
  split; [reflexivity|]. split; [reflexivity|]. split; [reflexivity|].
  destruct (listing_fails (for_page 0 req) s) as [msg Hfail];
    [left; cbn [for_page requested_page query_page]; lia|].
  change (BookListing.page (BookListing.click (BookListing.mk 1 0) BookListing.ChevronRight))
    with 0%Z.
  now rewrite Hfail.
Qed.

(** ** The session in localStorage *)

Lemma getItem_removeItem (k k' : string) (ls : AuthContext.Storage) :
  AuthContext.getItem k (AuthContext.removeItem k' ls)
  = if k' =? k then None else AuthContext.getItem k ls.
Proof.
  induction ls as [|[k0 v] ls IH]; cbn [AuthContext.removeItem AuthContext.getItem].
  - now destruct (k' =? k).
  - destruct (k0 =? k') eqn:E0.
    + apply String.eqb_eq in E0. subst k0. rewrite IH.
      destruct (k' =? k); reflexivity.
    + cbn [AuthContext.getItem]. rewrite IH.
      destruct (k0 =? k) eqn:E1; [|reflexivity].
      apply String.eqb_eq in E1. subst k0. now rewrite String.eqb_sym, E0.
Qed.

Lemma getItem_setItem (k k' v : string) (ls : AuthContext.Storage) :
  AuthContext.getItem k (AuthContext.setItem k' v ls)
  = if k' =? k then Some v else AuthContext.getItem k ls.
Proof.
  unfold AuthContext.setItem. cbn [AuthContext.getItem]. rewrite getItem_removeItem.
  now destruct (k' =? k).
Qed.

(** X24: A login outlives the page: after LOGIN, the state [AuthProvider]
    starts from on the next load is the state the reducer has returned,
    when [JSON.parse] reads back what [JSON.stringify] has written for the
    user, a text that is not empty, and when the token is not the empty
    string. *)
Theorem login_outlives_the_page
    (JSON_stringify : json -> string) (JSON_parse : string -> option json)
    (st : AuthContext.state) (p : AuthContext.payload) (ls : AuthContext.Storage) :
  JSON_stringify (AuthContext.payload_user p) <> "" ->
  JSON_parse (JSON_stringify (AuthContext.payload_user p))
  = Some (AuthContext.payload_user p) ->
  AuthContext.payload_token p <> "" ->
  let after := AuthContext.authReducer JSON_stringify st (AuthContext.LOGIN p) ls in
  fst after = AuthContext.mk (AuthContext.payload_user p)
                             (Some (AuthContext.payload_token p)) /\
  AuthContext.initialState JSON_parse (snd after) = Some (fst after).
Proof.
  intros Htext Hparse Htoken. cbv zeta.
  cbn [AuthContext.authReducer fst snd]. split; [reflexivity|].
  unfold AuthContext.initialState. rewrite !getItem_setItem.
  cbn [String.eqb Ascii.eqb Bool.eqb].
  unfold AuthContext.truthy.
  destruct (JSON_stringify (AuthContext.payload_user p)) as [|c text] eqn:Etext;
    [congruence|].
  rewrite Hparse.
  destruct (AuthContext.payload_token p) as [|c' tok]; [congruence | reflexivity].
Qed.

(** X25: A logout outlives the page too: after LOGOUT the next load starts
    without user and token, whatever the storage held; the items under
    other keys stay as they are. *)
Theorem logout_outlives_the_page
    (JSON_stringify : json -> string) (JSON_parse : string -> option json)
    (st : AuthContext.state) (ls : AuthContext.Storage) :
  let after := AuthContext.authReducer JSON_stringify st AuthContext.LOGOUT ls in
  fst after = AuthContext.mk JNull None /\
  AuthContext.initialState JSON_parse (snd after) = Some (fst after) /\
  forall k, k <> "token" -> k <> "user" ->
            AuthContext.getItem k (snd after) = AuthContext.getItem k ls.
Proof.
  cbv zeta. cbn [AuthContext.authReducer fst snd]. split; [reflexivity|]. split.
  - unfold AuthContext.initialState. rewrite !getItem_removeItem.
    cbn [String.eqb Ascii.eqb Bool.eqb]. reflexivity.
  - intros k Htoken Huser. rewrite !getItem_removeItem.
    destruct ("user" =? k) eqn:Eu; [apply String.eqb_eq in Eu; congruence|].
    destruct ("token" =? k) eqn:Et; [apply String.eqb_eq in Et; congruence|].
    reflexivity.
Qed.

(** ** The register form *)

(** X26: The register form does not show what the validation has found:
    when the two passwords are the same and the username, the address or
    the password does not pass [userValidation], the form ends with the
    message 'Registration failed', whatever the field and the message of
    the validation, and nothing is written. *)
Theorem register_form_hides_the_validation_errors
    (formData : Register.formData) (ip : string) (now : Z) (salt : string) (s : State) :
  Register.password formData = Register.confirmPassword formData ->
  isLength 3 (Some 30) (JS.trim (Register.username formData)) = false \/
  isEmail (Register.email formData) = false \/
  isLength 8 None (Register.password formData) = false \/
  matches_letter_and_digit (Register.password formData) = false ->
  Register_handleSubmit formData ip now salt s
  = (s, Register.setError (JStr "Registration failed")).
Proof.
  intros Hsame Hbad. unfold Register_handleSubmit.
  rewrite <- Hsame, String.eqb_refl. cbn [negb]. cbv zeta.
  unfold app, server; cbn [route fst snd]. rewrite register_route. cbv zeta.
  rewrite register_errors.
  cbn [validationErrors body_username body_email body_password isString sanitize
       toString List.app].
  destruct (isLength 3 (Some 30) (JS.trim (Register.username formData)));
    [|reflexivity].
  destruct (isEmail (Register.email formData)); [|reflexivity].
  destruct (isLength 8 None (Register.password formData)); [|reflexivity].
  destruct (matches_letter_and_digit (Register.password formData)); [|reflexivity].
  destruct Hbad as [H|[H|[H|H]]]; discriminate H.
Qed.

(** X27: The register form logs in new users only: when it ends with the
    dispatch of LOGIN, the two passwords were the same, one user has been
    appended, with the username of the form without the white space around
    it and with its address, normalised, and the payload is the session of
    this user, token and all. *)
Theorem register_form_logs_in_new_users_only
    (formData : Register.formData) (ip : string) (now : Z) (salt : string)
    (s s' : State) (payload : json) :
  Register_handleSubmit formData ip now salt s = (s', Register.dispatch_LOGIN payload) ->
  Register.password formData = Register.confirmPassword formData /\
  exists u,
    users s' = users s ++ [u] /\
    User.username u = JS.trim (Register.username formData) /\
    User.email u = normalizeEmail (Register.email formData) /\
    payload = session_body u.
Proof.
  unfold Register_handleSubmit.
  destruct (Register.password formData =? Register.confirmPassword formData) eqn:Esame;
    cbn [negb]; [|discriminate].
  apply String.eqb_eq in Esame. cbv zeta.
  destruct (app POST_auth_register _ s) as [s1 response] eqn:Erun.
  destruct (Register.ok response) eqn:Eok; cbn [negb].
  2: { unfold Register.thrown. intros H.
       destruct (body response) as [| | | | | | |fields]; try discriminate H.
       destruct (Register.field "error" fields) as [e|]; [|discriminate H].
       destruct (Register.truthy e); discriminate H. }
  intros H. injection H as <- <-. split; [exact Esame|].
  unfold Register.ok in Eok. apply andb_true_iff in Eok. destruct Eok as [H200 H299].
  apply Nat.leb_le in H200. apply Nat.leb_le in H299.
  destruct (register_success _ _ _ _ Erun ltac:(lia)) as (u0 & _ & Hresp).
  assert (status response = 201) as H201 by (rewrite Hresp; reflexivity).
  destruct (register_201 _ _ _ _ Erun H201)
    as (name & mail & pw & Hname & Hmail & _ & _ & _ & _ & _ & _ & Hs1 & Hresp').
  cbv zeta in Hs1, Hresp'. cbn [body_username body_email] in Hname, Hmail.
  injection Hname as <-. injection Hmail as <-.
  eexists. split; [subst s1; reflexivity|].
  split; [reflexivity|]. split; [reflexivity|].
  rewrite Hresp'. reflexivity.
Qed.

End Backend.

(** * The properties at work on the sample data *)

Local Notation "'demo_app'" :=
  (app Demo.jwt_verify Demo.jwt_sign Demo.bcrypt_hash Demo.bcrypt_compare
       Demo.isEmail Demo.normalizeEmail Demo.RegExp_i).

Lemma alice_is_authenticated (req : Request) :
  authenticates Demo.jwt_verify (Demo.with_auth "Bearer alice-token" req)
                (mkClaims 1 "alice").
Proof. exists "Bearer alice-token", "alice-token". repeat split. Defined.

(** Bob reviews Dune, which Alice has reviewed: two reviews, a rating of
    9/2 and a count of 2. *)
Lemma create_review_recomputes_book_witness :
  let req := Demo.with_auth "Bearer bob-token" (Demo.review_form 10 5 "This is a fine book") in
  let result := demo_app POST_reviews req Demo.reviewed in
  status (snd result) = 201 /\
  exists review book',
    reviews (fst result) = reviews Demo.reviewed ++ [review] /\
    Review.bookId review = 10 /\
    body_rating req = Some (Review.rating review) /\
    Book_findById 10 (fst result) = Some book' /\
    rating_is_rounded_mean book' (ratings_of 10 (fst result)) /\
    Book.reviewCount book' = Z.of_nat (List.length (ratings_of 10 (fst result))).
Proof.
  cbv zeta. split; [reflexivity|].
  eapply (create_review_recomputes_book
            Demo.jwt_verify Demo.jwt_sign Demo.bcrypt_hash Demo.bcrypt_compare
            Demo.isEmail Demo.normalizeEmail Demo.RegExp_i).
  - apply surjective_pairing.
  - reflexivity.
  - reflexivity.
  - reflexivity.
Defined.

(** Two readers have given Dune 4 and 5 stars, and Bob gives it 4: the
    book is written with the double nearest to 13/3, which is
    4878899596318037 / 2^50, a little less than 13/3. *)
Lemma thirteen_thirds_is_rounded :
  let s := mkState [Demo.dune]
                   [Review.mk 50 10 7 4 "A long walk in the sand" 3000 3000;
                    Review.mk 51 10 8 5 "Spice, worms and a desert" 3100 3100]
                   [Demo.bob] 100 [] [] in
  let req := Demo.with_auth "Bearer bob-token" (Demo.review_form 10 4 "This is a fine book") in
  let result := demo_app POST_reviews req s in
  status (snd result) = 201 /\
  mean (ratings_of 10 (fst result)) = (13 # 3)%Q /\
  option_map Book.rating (Book_findById 10 (fst result))
  = Some (JS.Fin (4878899596318037 # 1125899906842624)) /\
  (4878899596318037 # 1125899906842624 < 13 # 3)%Q.
Proof. cbv zeta. repeat split. Qed.

(** Five accented letters are five characters, in ten bytes: too short a
    review.  Ten of them are long enough. *)
Lemma accented_letters_count_once :
  let five := (Demo.e_acute ++ Demo.e_acute ++ Demo.e_acute ++ Demo.e_acute
               ++ Demo.e_acute)%string in
  String.length five = 10 /\
  JS.characters five = 5 /\
  snd (demo_app POST_reviews
         (Demo.with_auth "Bearer bob-token" (Demo.review_form 10 5 five)) Demo.reviewed)
  = mkResponse 400
      (JObj [("errors",
              JArr [validation_error
                      ("content", "Review must be between 10 and 1000 characters")])]) /\
  status (snd (demo_app POST_reviews
                 (Demo.with_auth "Bearer bob-token"
                    (Demo.review_form 10 5 (five ++ five)%string)) Demo.reviewed)) = 201.
Proof. cbv zeta. repeat split. Qed.

(** The white space of more than one byte is trimmed as well. *)
Lemma wide_white_space_is_trimmed :
  JS.trim (Demo.no_break_space ++ " carol" ++ Demo.ideographic_space ++ " ")%string
  = "carol".
Proof. reflexivity. Qed.

(** Alice changes her rating of Dune from 4 to 2. *)
Lemma update_review_recomputes_rating_witness :
  let req := Demo.with_auth "Bearer alice-token"
               (Demo.review_edit 50 2 "Second thoughts on the sand") in
  let result := demo_app PUT_reviews_id req Demo.reviewed in
  status (snd result) = 200 /\
  exists review review',
    In review (reviews Demo.reviewed) /\
    params_id req = Some (Review._id review) /\
    In review' (reviews (fst result)) /\
    Review._id review' = Review._id review /\
    Review.bookId review' = Review.bookId review /\
    body_rating req = Some (Review.rating review') /\
    List.length (reviews (fst result)) = List.length (reviews Demo.reviewed) /\
    forall book,
      Book_findById (Review.bookId review) Demo.reviewed = Some book ->
      exists book',
        Book_findById (Review.bookId review) (fst result) = Some book' /\
        rating_is_rounded_mean book' (ratings_of (Review.bookId review) (fst result)) /\
        Book.reviewCount book' = Book.reviewCount book.
Proof.
  cbv zeta. split; [reflexivity|].
  eapply (update_review_recomputes_rating
            Demo.jwt_verify Demo.jwt_sign Demo.bcrypt_hash Demo.bcrypt_compare
            Demo.isEmail Demo.normalizeEmail Demo.RegExp_i).
  - apply surjective_pairing.
  - reflexivity.
Defined.

(** C2 as the claim has it fails: the book of [Demo.miscounted] says 7
    reviews, Alice updates the one review there is, and the book still
    says 7 reviews after the successful update. *)
Lemma update_review_does_not_write_the_count :
  let req := Demo.with_auth "Bearer alice-token"
               (Demo.review_edit 50 2 "Second thoughts on the sand") in
  let result := demo_app PUT_reviews_id req Demo.miscounted in
  status (snd result) = 200 /\
  exists book',
    Book_findById 10 (fst result) = Some book' /\
    Book.reviewCount book' = 7%Z /\
    List.length (ratings_of 10 (fst result)) = 1 /\
    Book.reviewCount book' <> Z.of_nat (List.length (ratings_of 10 (fst result))).
Proof.
  cbv zeta. split; [reflexivity|].
  eexists. split; [reflexivity|]. split; [reflexivity|]. split; [reflexivity|].
  vm_compute. discriminate.
Qed.

(** Alice deletes the only review of Dune. *)
Lemma delete_only_review_resets_book_witness :
  let req := Demo.with_auth "Bearer alice-token" (Demo.review_delete 50) in
  authenticates Demo.jwt_verify req (mkClaims 1 "alice") /\
  review_ids_unique Demo.reviewed /\
  filter (of_book 10) (reviews Demo.reviewed) = [Demo.alice_on_dune] /\
  exists s' resp book',
    demo_app DELETE_reviews_id req Demo.reviewed = (s', resp) /\
    status resp = 200 /\
    reviews s'
    = filter (fun x => negb (Review._id x =? Review._id Demo.alice_on_dune)%nat)
             (reviews Demo.reviewed) /\
    ratings_of 10 s' = [] /\
    Book_findById 10 s' = Some book' /\
    Book.rating book' = JS.Fin 0 /\
    Book.reviewCount book' = 0%Z /\
    JS.div (total (ratings_of 10 s')) (Z.of_nat (List.length (ratings_of 10 s')))
    = JS.NaN.
Proof.
  cbv zeta.
  assert (review_ids_unique Demo.reviewed) as Hnd
    by (repeat constructor; intros []).
  split; [apply alice_is_authenticated|]. split; [exact Hnd|].
  split; [reflexivity|].
  eapply (delete_only_review_resets_book
            Demo.jwt_verify Demo.jwt_sign Demo.bcrypt_hash Demo.bcrypt_compare
            Demo.isEmail Demo.normalizeEmail Demo.RegExp_i
            _ Demo.reviewed (mkClaims 1 "alice") Demo.alice_on_dune 10).
  - apply alice_is_authenticated.
  - reflexivity.
  - reflexivity.
  - exact Hnd.
  - reflexivity.
  - reflexivity.
Defined.

(** Alice reviews Dune a second time. *)
Lemma second_review_is_refused_witness :
  let req := Demo.with_auth "Bearer alice-token" (Demo.review_form 10 5 "This is a fine book") in
  authenticates Demo.jwt_verify req (mkClaims 1 "alice") /\
  In Demo.alice_on_dune (reviews Demo.reviewed) /\
  exists resp,
    demo_app POST_reviews req Demo.reviewed = (Demo.reviewed, resp) /\ status resp = 400.
Proof.
  cbv zeta. split; [apply alice_is_authenticated|]. split; [now left|].
  apply (second_review_is_refused
           Demo.jwt_verify Demo.jwt_sign Demo.bcrypt_hash Demo.bcrypt_compare
           Demo.isEmail Demo.normalizeEmail Demo.RegExp_i
           _ Demo.reviewed (mkClaims 1 "alice") 10).
  - apply alice_is_authenticated.
  - reflexivity.
  - exists Demo.alice_on_dune. split; [now left|]. split; reflexivity.
Defined.

(** C5 as the claim has it fails: a review form with rating 0 and no
    Authorization header is answered with 401, not with 400. *)
Lemma rating_zero_without_token_is_401 :
  ~ (forall (req : Request) (s : State) (z : Z),
        body_rating req = Some z -> (z < 1 \/ 5 < z)%Z ->
        status (snd (demo_app POST_reviews req s)) = 400).
Proof.
  intros H.
  specialize (H (Demo.review_form 10 0 "This is a fine book") Demo.fresh 0%Z
                eq_refl (or_introl eq_refl)).
  vm_compute in H. discriminate H.
Qed.

(** Alice rates Dune with 0. *)
Lemma rating_out_of_range_is_rejected_witness :
  let req := Demo.with_auth "Bearer alice-token" (Demo.review_form 10 0 "This is a fine book") in
  body_rating req = Some 0%Z /\
  exists resp,
    demo_app POST_reviews req Demo.fresh = (Demo.fresh, resp) /\
    (((exists c, authenticates Demo.jwt_verify req c) /\
      status resp = 400 /\
      exists errors,
        body resp = JObj [("errors", JArr (map validation_error errors))] /\
        In ("rating", "Rating must be between 1 and 5") errors)
     \/
     (unauthenticated Demo.jwt_verify req /\ status resp = 401)).
Proof.
  cbv zeta. split; [reflexivity|].
  apply (rating_out_of_range_is_rejected
           Demo.jwt_verify Demo.jwt_sign Demo.bcrypt_hash Demo.bcrypt_compare
           Demo.isEmail Demo.normalizeEmail Demo.RegExp_i _ Demo.fresh 0%Z).
  - reflexivity.
  - left. reflexivity.
Defined.

(** Somebody with a token nobody has signed wants to delete a review. *)
Lemma protected_endpoint_requires_token_witness :
  let req := Demo.with_auth "Bearer mallory-token" (Demo.review_delete 50) in
  unauthenticated Demo.jwt_verify req /\
  exists resp,
    status resp = 401 /\
    server Demo.jwt_verify Demo.jwt_sign Demo.bcrypt_hash Demo.bcrypt_compare
           Demo.isEmail Demo.normalizeEmail Demo.RegExp_i
           DELETE_reviews_id parsed_body req Demo.reviewed
    = (Demo.reviewed, resp) /\
    forall h : Handler,
      serve (app_use parsed_body ++
             fst (route Demo.jwt_verify Demo.jwt_sign Demo.bcrypt_hash Demo.bcrypt_compare
                        Demo.isEmail Demo.normalizeEmail Demo.RegExp_i DELETE_reviews_id))
            h req Demo.reviewed
      = (Demo.reviewed, resp).
Proof.
  cbv zeta. split; [right; reflexivity|].
  apply (protected_endpoint_requires_token
           Demo.jwt_verify Demo.jwt_sign Demo.bcrypt_hash Demo.bcrypt_compare
           Demo.isEmail Demo.normalizeEmail Demo.RegExp_i
           DELETE_reviews_id parsed_body _ Demo.reviewed).
  - reflexivity.
  - right. reflexivity.
Defined.

(** C6 as the claim has it fails: a review is posted without a token and
    with a body that is not JSON; express.json() passes its error on, no
    router sees the request, and the answer is the 500 of the error
    handler, not 401. *)
Lemma request_without_token_and_with_a_broken_body_is_500 :
  let req := Demo.review_form 10 5 "This is a fine book" in
  protected POST_reviews = true /\
  unauthenticated Demo.jwt_verify req /\
  server Demo.jwt_verify Demo.jwt_sign Demo.bcrypt_hash Demo.bcrypt_compare
         Demo.isEmail Demo.normalizeEmail Demo.RegExp_i
         POST_reviews parse_error req Demo.fresh
  = (Demo.fresh, mkResponse 500 (error_body "Something went wrong!")) /\
  status (snd (server Demo.jwt_verify Demo.jwt_sign Demo.bcrypt_hash Demo.bcrypt_compare
                      Demo.isEmail Demo.normalizeEmail Demo.RegExp_i
                      POST_reviews parse_error req Demo.fresh)) <> 401.
Proof.
  cbv zeta. split; [reflexivity|]. split; [exact I|].
  split; [reflexivity | discriminate].
Defined.



(** The first page of the books whose title or author begins with a D. *)
Lemma listing_is_a_page_of_nine_witness :
  let req := Demo.listing (Some 1%Z) "D" "All" in
  (1 <= requested_page req)%Z /\
  Demo.RegExp_i (query_search req) <> None /\
  exists query shown pages,
    build_query Demo.RegExp_i (query_search req) (query_genre req) Demo.fresh
    = (Demo.fresh, Next query) /\
    demo_app GET_books req Demo.fresh
    = (Demo.fresh,
       mkResponse 200
         (JObj [("books", JArr (map Book.toJSON shown));
                ("totalPages", JInt pages);
                ("currentPage", JInt (requested_page req))])) /\
    let matching := filter query (books Demo.fresh) in
    let sorted := sort_newest_first matching in
    Permutation matching sorted /\
    StronglySorted newest_first sorted /\
    shown = firstn 9 (skipn (Z.to_nat ((requested_page req - 1) * 9)) sorted) /\
    (List.length shown <= 9)%nat /\
    StronglySorted newest_first shown /\
    (9 * (pages - 1) < Z.of_nat (List.length matching) <= 9 * pages)%Z.
Proof.
  cbv zeta.
  split; [vm_compute; discriminate|]. split; [discriminate|].
  apply (listing_is_a_page_of_nine
           Demo.jwt_verify Demo.jwt_sign Demo.bcrypt_hash Demo.bcrypt_compare
           Demo.isEmail Demo.normalizeEmail Demo.RegExp_i _ Demo.fresh).
  - vm_compute. discriminate.
  - right. discriminate.
Defined.

(** The limiter of the login route, which is mounted, does count: the
    sixth attempt of a client within the quarter of an hour is answered
    with 429, after five answers 401. *)
Lemma authLimiter_rejects_the_6th :
  map status
      (snd (replay Demo.jwt_verify Demo.jwt_sign Demo.bcrypt_hash Demo.bcrypt_compare
                   Demo.isEmail Demo.normalizeEmail Demo.RegExp_i
                   6 POST_auth_login
                   (Demo.login_form "alice@example.org" "guess") Demo.fresh))
  = 429 :: repeat 401 5.
Proof. vm_compute. reflexivity. Qed.

(** C10 as the claim has it fails: the listing of page 0, and the listing
    for a search that is not a pattern, are answered with 500 and an
    error; there are no books and no totalPages in the answer. *)
Lemma listing_of_page_zero_fails :
  demo_app GET_books (Demo.listing (Some 0%Z) "" "") Demo.fresh
  = (Demo.fresh, mkResponse 500 (error_body "skip value must be non-negative")) /\
  demo_app GET_books (Demo.listing None "(" "") Demo.fresh
  = (Demo.fresh, mkResponse 500 (error_body "Invalid regular expression")).
Proof. split; reflexivity. Qed.

(** * The further properties at work on the sample data *)

Local Notation "'demo_serve_all'" :=
  (serve_all Demo.jwt_verify Demo.jwt_sign Demo.bcrypt_hash Demo.bcrypt_compare
             Demo.isEmail Demo.normalizeEmail Demo.RegExp_i).

(** Alice's client has sent five logins in the window that lasts until
    900000: her right password is answered with 429. *)
Lemma locked_out_client_is_refused_witness :
  let s := mkState [Demo.dune] [] [Demo.alice] 100
                   [("203.0.113.7", mkWindow 5 900000)] [] in
  let req := Demo.login_form "alice@example.org" "wonderland1" in
  demo_app POST_auth_login req s
  = (with_authLimiterStore [("203.0.113.7", mkWindow 6 900000)] s,
     mkResponse 429 (JStr "Too many login attempts, please try again later")).
Proof.
  cbv zeta.
  apply (locked_out_client_is_refused
           Demo.jwt_verify Demo.jwt_sign Demo.bcrypt_hash Demo.bcrypt_compare
           Demo.isEmail Demo.normalizeEmail Demo.RegExp_i
           (Demo.login_form "alice@example.org" "wonderland1")
           (mkState [Demo.dune] [] [Demo.alice] 100
                    [("203.0.113.7", mkWindow 5 900000)] [])
           (mkWindow 5 900000)).
  - reflexivity.
  - cbn. lia.
  - cbn. lia.
Defined.

(** The same client, seen from the answer. *)
Lemma only_locked_out_clients_get_429_witness :
  let s := mkState [Demo.dune] [] [Demo.alice] 100
                   [("203.0.113.7", mkWindow 7 900000)] [] in
  let req := Demo.login_form "alice@example.org" "wonderland1" in
  status (snd (demo_app POST_auth_login req s)) = 429 /\ locked_out req s.
Proof.
  cbv zeta. split; [reflexivity|].
  eapply (only_locked_out_clients_get_429
            Demo.jwt_verify Demo.jwt_sign Demo.bcrypt_hash Demo.bcrypt_compare
            Demo.isEmail Demo.normalizeEmail Demo.RegExp_i).
  - apply surjective_pairing.
  - reflexivity.
Defined.

(** Alice logs in with her password. *)
Lemma login_requires_the_password_witness :
  let req := Demo.login_form "alice@example.org" "wonderland1" in
  status (snd (demo_app POST_auth_login req Demo.fresh)) = 200 /\
  exists u e p,
    body_email req = Some e /\ body_password req = Some p /\
    Demo.isEmail e = true /\
    find (fun x => User.email x =? Demo.normalizeEmail e) (users Demo.fresh) = Some u /\
    Demo.bcrypt_compare p (User.password u) = true /\
    snd (demo_app POST_auth_login req Demo.fresh)
    = mkResponse 200 (session_body Demo.jwt_sign u).
Proof.
  cbv zeta. split; [reflexivity|].
  eapply (login_requires_the_password
            Demo.jwt_verify Demo.jwt_sign Demo.bcrypt_hash Demo.bcrypt_compare
            Demo.isEmail Demo.normalizeEmail Demo.RegExp_i).
  - apply surjective_pairing.
  - reflexivity.
Defined.

(** Alice with a wrong password, and somebody nobody knows: the same
    answer. *)
Lemma login_failures_look_alike_witness :
  snd (demo_app POST_auth_login (Demo.login_form "alice@example.org" "wonderland2")
                Demo.fresh)
  = mkResponse 401 (error_body "Invalid credentials") /\
  snd (demo_app POST_auth_login (Demo.login_form "nobody@example.org" "wonderland1")
                Demo.fresh)
  = mkResponse 401 (error_body "Invalid credentials").
Proof.
  split.
  - eapply (login_failures_look_alike
              Demo.jwt_verify Demo.jwt_sign Demo.bcrypt_hash Demo.bcrypt_compare
              Demo.isEmail Demo.normalizeEmail Demo.RegExp_i).
    + apply surjective_pairing.
    + reflexivity.
  - reflexivity.
Defined.

(** Carol registers, and is a valid user. *)
Lemma registered_user_is_valid_witness :
  let req := Demo.user_form " carol " "carol@example.org" "knitting4ever" in
  let result := demo_app POST_auth_register req Demo.fresh in
  status (snd result) = 201 /\
  users (fst result)
  = [Demo.alice; Demo.bob;
     User.mk 100 "carol" "carol@example.org" "hash:knitting4ever" None None 5000].
Proof.
  cbv zeta. split; [reflexivity|].
  set (req := Demo.user_form " carol " "carol@example.org" "knitting4ever").
  destruct (registered_user_is_valid
              Demo.jwt_verify Demo.jwt_sign Demo.bcrypt_hash Demo.bcrypt_compare
              Demo.isEmail Demo.normalizeEmail Demo.RegExp_i
              req Demo.fresh (fst (demo_app POST_auth_register req Demo.fresh))
              (snd (demo_app POST_auth_register req Demo.fresh))
              (surjective_pairing _) eq_refl)
    as (name & mail & pw & Hname & Hmail & Hpw & _ & _ & _ & _ & _ & _ & Husers & _).
  injection Hname as <-. injection Hmail as <-. injection Hpw as <-.
  exact Husers.
Defined.

(** Carol registers and logs in. *)
Lemma registered_user_can_log_in_witness :
  let req := Demo.user_form "carol" "carol@example.org" "knitting4ever" in
  let req2 := Demo.login_form "carol@example.org" "knitting4ever" in
  let result := demo_app POST_auth_register req Demo.fresh in
  status (snd result) = 201 /\
  exists u,
    In u (users (fst result)) /\
    snd result = mkResponse 201 (session_body Demo.jwt_sign u) /\
    snd (demo_app POST_auth_login req2 (fst result))
    = mkResponse 200 (session_body Demo.jwt_sign u).
Proof.
  cbv zeta. split; [reflexivity|].
  apply (registered_user_can_log_in
           Demo.jwt_verify Demo.jwt_sign Demo.bcrypt_hash Demo.bcrypt_compare
           Demo.isEmail Demo.normalizeEmail Demo.RegExp_i
           (Demo.user_form "carol" "carol@example.org" "knitting4ever")
           (Demo.login_form "carol@example.org" "knitting4ever")
           Demo.fresh).
  - intros p salt. unfold Demo.bcrypt_compare, Demo.bcrypt_hash. apply String.eqb_refl.
  - apply surjective_pairing.
  - reflexivity.
  - reflexivity.
  - reflexivity.
  - reflexivity.
  - intros (w & Hw & _). vm_compute in Hw. discriminate Hw.
Defined.

(** What follows the token is not read. *)
Lemma only_the_second_piece_is_verified_witness :
  let req := Demo.with_auth "Bearer alice-token and the rest" Demo.blank in
  authenticate Demo.jwt_verify req Demo.fresh
  = (Demo.fresh, Next (set_user (mkClaims 1 "alice") req)).
Proof.
  cbv zeta.
  apply (only_the_second_piece_is_verified
           Demo.jwt_verify
           (Demo.with_auth "Bearer alice-token and the rest" Demo.blank)
           Demo.fresh "alice-token" " and the rest").
  - reflexivity.
  - reflexivity.
  - right. now exists "and the rest".
Defined.

(** Alice is the first to register, and asks who she is. *)
Lemma registered_user_is_known_to_me_witness :
  let s := mkState [Demo.dune] [] [] 1 [] [] in
  let req := Demo.user_form "alice" "alice@example.org" "wonderland1" in
  let result := demo_app POST_auth_register req s in
  status (snd result) = 201 /\
  demo_app GET_auth_me (Demo.with_auth "Bearer alice-token" Demo.blank) (fst result)
  = (fst result,
     mkResponse 200
       (select_without "password"
          (User.toJSON (User.mk 1 "alice" "alice@example.org" "hash:wonderland1"
                                None None 5000)))).
Proof.
  cbv zeta. split; [reflexivity|].
  set (s := mkState [Demo.dune] [] [] 1 [] []).
  set (req := Demo.user_form "alice" "alice@example.org" "wonderland1").
  destruct (registered_user_is_known_to_me
              Demo.jwt_verify Demo.jwt_sign Demo.bcrypt_hash Demo.bcrypt_compare
              Demo.isEmail Demo.normalizeEmail Demo.RegExp_i
              req s (fst (demo_app POST_auth_register req s))
              (snd (demo_app POST_auth_register req s)))
    as (u & tok & Hin & Hresp & Hme).
  - intros n Hn. injection Hn as <-. split; reflexivity.
  - constructor.
  - apply surjective_pairing.
  - reflexivity.
  - vm_compute in Hresp. injection Hresp as Htok _ _ _.
    vm_compute in Hin. destruct Hin as [<-|[]].
    apply Hme. rewrite <- Htok. reflexivity.
Defined.

(** Bob's review of Dune is a valid one. *)
Lemma created_review_is_valid_witness :
  let req := Demo.with_auth "Bearer bob-token"
               (Demo.review_form 10 5 "  This is a fine book  ") in
  let result := demo_app POST_reviews req Demo.reviewed in
  status (snd result) = 201 /\
  reviews (fst result)
  = [Demo.alice_on_dune; Review.mk 100 10 2 5 "This is a fine book" 5000 5000].
Proof.
  cbv zeta. split; [reflexivity|].
  set (req := Demo.with_auth "Bearer bob-token"
                (Demo.review_form 10 5 "  This is a fine book  ")).
  destruct (created_review_is_valid
              Demo.jwt_verify Demo.jwt_sign Demo.bcrypt_hash Demo.bcrypt_compare
              Demo.isEmail Demo.normalizeEmail Demo.RegExp_i
              req Demo.reviewed (fst (demo_app POST_reviews req Demo.reviewed))
              (snd (demo_app POST_reviews req Demo.reviewed))
              (surjective_pairing _) eq_refl)
    as (c & b & z & txt & (h & t & Hh & _ & Ht & Hc) & Hb & Hz & Htxt & _ & _ & _ & Hrs).
  injection Hh as <-. injection Ht as <-. injection Hc as <-.
  injection Hb as <-. injection Hz as <-. injection Htxt as <-.
  exact Hrs.
Defined.

(** Alice's second thoughts are a valid update. *)
Lemma updated_review_is_valid_witness :
  let req := Demo.with_auth "Bearer alice-token"
               (Demo.review_edit 50 2 " Second thoughts on the sand ") in
  let result := demo_app PUT_reviews_id req Demo.reviewed in
  status (snd result) = 200 /\
  exists c review z txt,
    authenticates Demo.jwt_verify req c /\
    In review (reviews Demo.reviewed) /\
    params_id req = Some (Review._id review) /\
    Review.userId review = claim_id c /\
    body_rating req = Some z /\ body_content req = Some txt /\
    (1 <= z <= 5)%Z /\
    (10 <= JS.characters (JS.trim txt) <= 1000)%nat /\
    reviews (fst result)
    = map (fun r => if (Review._id r =? Review._id review)%nat
                    then Review.mk (Review._id review) (Review.bookId review)
                                   (Review.userId review) z (JS.trim txt)
                                   (Review.createdAt review) (now req)
                    else r)
          (reviews Demo.reviewed).
Proof.
  cbv zeta. split; [reflexivity|].
  eapply (updated_review_is_valid
            Demo.jwt_verify Demo.jwt_sign Demo.bcrypt_hash Demo.bcrypt_compare
            Demo.isEmail Demo.normalizeEmail Demo.RegExp_i).
  - apply surjective_pairing.
  - reflexivity.
Defined.

(** Bob's review of Dune, as the answer shows its author. *)
Lemma review_answer_shows_the_username_only_witness :
  let req := Demo.with_auth "Bearer bob-token" (Demo.review_form 10 5 "This is a fine book") in
  let result := demo_app POST_reviews req Demo.reviewed in
  status (snd result) = 201 /\
  exists review author,
    In review (reviews (fst result)) /\
    body (snd result)
    = JObj [("_id", JId (Review._id review));
            ("bookId", JId (Review.bookId review));
            ("userId", author);
            ("rating", JInt (Review.rating review));
            ("content", JStr (Review.content review));
            ("createdAt", JDate (Review.createdAt review));
            ("updatedAt", JDate (Review.updatedAt review))] /\
    (author = JNull \/
     exists u, In u (users (fst result)) /\ User._id u = Review.userId review /\
               author = JObj [("_id", JId (User._id u));
                              ("username", JStr (User.username u))]).
Proof.
  cbv zeta. split; [reflexivity|].
  eapply (review_answer_shows_the_username_only
            Demo.jwt_verify Demo.jwt_sign Demo.bcrypt_hash Demo.bcrypt_compare
            Demo.isEmail Demo.normalizeEmail Demo.RegExp_i).
  - apply surjective_pairing.
  - reflexivity.
Defined.

(** Bob cannot delete or rewrite Alice's review. *)
Lemma reviews_of_others_are_not_found_witness :
  let req := Demo.with_auth "Bearer bob-token" (Demo.review_edit 50 1 "Not my cup of tea") in
  demo_app DELETE_reviews_id req Demo.reviewed
  = (Demo.reviewed, mkResponse 404 (error_body "Review not found")) /\
  exists resp,
    demo_app PUT_reviews_id req Demo.reviewed = (Demo.reviewed, resp) /\
    (resp = mkResponse 404 (error_body "Review not found") \/ status resp = 400).
Proof.
  cbv zeta.
  apply (reviews_of_others_are_not_found
           Demo.jwt_verify Demo.jwt_sign Demo.bcrypt_hash Demo.bcrypt_compare
           Demo.isEmail Demo.normalizeEmail Demo.RegExp_i
           (Demo.with_auth "Bearer bob-token" (Demo.review_edit 50 1 "Not my cup of tea"))
           Demo.reviewed (mkClaims 2 "bob") 50).
  - exists "Bearer bob-token", "bob-token". repeat split.
  - reflexivity.
  - intros r [<-|[]] _. cbn. discriminate.
Defined.

(** Alice deletes her review of Dune, the only one: Dune is back to 0. *)
Lemma delete_review_recomputes_book_witness :
  let req := Demo.with_auth "Bearer alice-token" (Demo.review_delete 50) in
  let result := demo_app DELETE_reviews_id req Demo.reviewed in
  status (snd result) = 200 /\
  exists c review,
    authenticates Demo.jwt_verify req c /\
    In review (reviews Demo.reviewed) /\
    params_id req = Some (Review._id review) /\
    Review.userId review = claim_id c /\
    reviews (fst result)
    = filter (fun r => negb (Review._id r =? Review._id review)%nat) (reviews Demo.reviewed) /\
    forall book,
      Book_findById (Review.bookId review) Demo.reviewed = Some book ->
      exists book',
        Book_findById (Review.bookId review) (fst result) = Some book' /\
        rating_is_rounded_mean book' (ratings_of (Review.bookId review) (fst result)) /\
        Book.reviewCount book'
        = Z.of_nat (List.length (ratings_of (Review.bookId review) (fst result))).
Proof.
  cbv zeta. split; [reflexivity|].
  eapply (delete_review_recomputes_book
            Demo.jwt_verify Demo.jwt_sign Demo.bcrypt_hash Demo.bcrypt_compare
            Demo.isEmail Demo.normalizeEmail Demo.RegExp_i).
  - apply surjective_pairing.
  - reflexivity.
Defined.

(** The sample state where Alice has reviewed Dune is as the properties
    want it. *)
Lemma reviewed_has_fresh_ids : review_ids_fresh Demo.reviewed.
Proof.
  split.
  - unfold review_ids_unique. cbn. constructor; [intros [] | constructor].
  - cbn. constructor; [apply Nat.ltb_lt; reflexivity | constructor].
Defined.

Lemma reviewed_is_consistent : consistent Demo.reviewed.
Proof.
  intros id book Hfound. unfold Book_findById in Hfound. cbn in Hfound.
  destruct id as [|[|[|[|[|[|[|[|[|[|[|[|id]]]]]]]]]]]]; cbn in Hfound;
    try discriminate Hfound; injection Hfound as <-.
  - split; [|reflexivity]. exists 4%Q. split; reflexivity.
  - split; [|reflexivity]. exists 0%Q. split; reflexivity.
Defined.

(** Bob reviews Dune, Alice deletes her review, Bob thinks again: Dune
    and Emma still say what their reviews say. *)
Lemma books_stay_consistent_witness :
  let trace :=
    [(POST_reviews,
      Demo.with_auth "Bearer bob-token" (Demo.review_form 10 5 "This is a fine book"));
     (DELETE_reviews_id, Demo.with_auth "Bearer alice-token" (Demo.review_delete 50));
     (PUT_reviews_id,
      Demo.with_auth "Bearer bob-token" (Demo.review_edit 100 3 "Not that fine a book"))] in
  reviews (demo_serve_all trace Demo.reviewed)
  = [Review.mk 100 10 2 3 "Not that fine a book" 5000 5000] /\
  consistent_in_doubles (demo_serve_all trace Demo.reviewed).
Proof.
  cbv zeta. split; [reflexivity|].
  apply (books_stay_consistent
           Demo.jwt_verify Demo.jwt_sign Demo.bcrypt_hash Demo.bcrypt_compare
           Demo.isEmail Demo.normalizeEmail Demo.RegExp_i).
  - exact reviewed_has_fresh_ids.
  - intros id book Hfound.
    destruct (reviewed_is_consistent id book Hfound) as [Hmean Hcount].
    split; [now apply exact_mean_is_rounded_mean | exact Hcount].
Defined.

(** Alice tries twice to review Dune again, and Bob reviews it twice. *)
Lemma nobody_reviews_a_book_twice_witness :
  let again := Demo.with_auth "Bearer alice-token"
                 (Demo.review_form 10 1 "I take it all back") in
  let bobs := Demo.with_auth "Bearer bob-token"
                (Demo.review_form 10 5 "This is a fine book") in
  let trace := [(POST_reviews, again); (POST_reviews, bobs);
                (POST_reviews, again); (POST_reviews, bobs)] in
  List.length (reviews (demo_serve_all trace Demo.reviewed)) = 2 /\
  one_review_each (demo_serve_all trace Demo.reviewed).
Proof.
  cbv zeta. split; [reflexivity|].
  apply (nobody_reviews_a_book_twice
           Demo.jwt_verify Demo.jwt_sign Demo.bcrypt_hash Demo.bcrypt_compare
           Demo.isEmail Demo.normalizeEmail Demo.RegExp_i).
  - exact reviewed_has_fresh_ids.
  - unfold one_review_each. cbn. constructor; [intros [] | constructor].
Defined.

(** Carol registers twice, and somebody else takes her name. *)
Lemma accounts_stay_distinct_witness :
  let trace :=
    [(POST_auth_register, Demo.user_form "carol" "carol@example.org" "knitting4ever");
     (POST_auth_register, Demo.user_form "carol" "carol@example.org" "knitting4ever");
     (POST_auth_register, Demo.user_form "carol" "other@example.org" "knitting4ever")] in
  List.length (users (demo_serve_all trace Demo.fresh)) = 3 /\
  accounts_distinct (demo_serve_all trace Demo.fresh).
Proof.
  cbv zeta. split; [reflexivity|].
  apply (accounts_stay_distinct
           Demo.jwt_verify Demo.jwt_sign Demo.bcrypt_hash Demo.bcrypt_compare
           Demo.isEmail Demo.normalizeEmail Demo.RegExp_i).
  split; cbn.
  - constructor; [intros [H|[]]; discriminate H|].
    constructor; [intros [] | constructor].
  - constructor; [intros [H|[]]; discriminate H|].
    constructor; [intros [] | constructor].
Defined.

(** Bob gives Dune five stars after Alice's four: 9/2. *)
Lemma book_ratings_stay_between_1_and_5_witness :
  let trace :=
    [(POST_reviews,
      Demo.with_auth "Bearer bob-token" (Demo.review_form 10 5 "This is a fine book"))] in
  exists q,
    JS.Fin (9 # 2) = JS.Fin q /\
    ((ratings_of 10 (demo_serve_all trace Demo.reviewed) = [] /\ (q == 0)%Q) \/
     (ratings_of 10 (demo_serve_all trace Demo.reviewed) <> [] /\ (1 <= q)%Q /\ (q <= 5)%Q)).
Proof.
  cbv zeta.
  apply (book_ratings_stay_between_1_and_5
           Demo.jwt_verify Demo.jwt_sign Demo.bcrypt_hash Demo.bcrypt_compare
           Demo.isEmail Demo.normalizeEmail Demo.RegExp_i
           [(POST_reviews,
             Demo.with_auth "Bearer bob-token" (Demo.review_form 10 5 "This is a fine book"))]
           Demo.reviewed 10
           (Book.mk 10 "Dune" "Frank Herbert" "Arrakis" "Science Fiction" None None
                    (JS.Fin (9 # 2)) 2 1000 1000)).
  - exact reviewed_has_fresh_ids.
  - exact reviewed_is_consistent.
  - unfold ratings_in_range. cbn. constructor; [cbn; lia | constructor].
  - reflexivity.
Defined.

(** The two books of the sample are one page. *)
Lemma pages_cover_the_listing_witness :
  leaf_through Demo.jwt_verify Demo.jwt_sign Demo.bcrypt_hash Demo.bcrypt_compare
               Demo.isEmail Demo.normalizeEmail Demo.RegExp_i
               1 (Demo.listing None "" "All") Demo.fresh
  = [Book.toJSON Demo.emma; Book.toJSON Demo.dune] /\
  exists query pages,
    build_query Demo.RegExp_i "" "All" Demo.fresh = (Demo.fresh, Next query) /\
    (0 <= pages)%Z /\
    (forall p, (1 <= p)%Z ->
       exists shown,
         demo_app GET_books (for_page p (Demo.listing None "" "All")) Demo.fresh
         = (Demo.fresh, mkResponse 200 (JObj [("books", JArr shown);
                                              ("totalPages", JInt pages);
                                              ("currentPage", JInt p)])) /\
         (pages < p -> shown = [])%Z) /\
    leaf_through Demo.jwt_verify Demo.jwt_sign Demo.bcrypt_hash Demo.bcrypt_compare
                 Demo.isEmail Demo.normalizeEmail Demo.RegExp_i
                 (Z.to_nat pages) (Demo.listing None "" "All") Demo.fresh
    = map Book.toJSON (sort_newest_first (filter query (books Demo.fresh))).
Proof.
  split; [reflexivity|].
  apply (pages_cover_the_listing
           Demo.jwt_verify Demo.jwt_sign Demo.bcrypt_hash Demo.bcrypt_compare
           Demo.isEmail Demo.normalizeEmail Demo.RegExp_i
           (Demo.listing None "" "All") Demo.fresh).
  left. reflexivity.
Defined.

(** The two books are one page: whatever is pressed, page 1 it is. *)
Lemma buttons_keep_to_the_pages_witness :
  let pressed := [BookListing.ChevronRight; BookListing.ChevronLeft;
                  BookListing.ChevronRight] in
  let req := Demo.listing None "" "All" in
  let st' := fold_left BookListing.click pressed (BookListing.mk 1 1) in
  BookListing.page st' = 1%Z /\
  exists shown',
    shown' <> [] /\
    demo_app GET_books (for_page (BookListing.page st') req) Demo.fresh
    = (Demo.fresh, mkResponse 200 (JObj [("books", JArr shown');
                                         ("totalPages", JInt 1);
                                         ("currentPage", JInt (BookListing.page st'))])).
Proof.
  cbv zeta. split; [reflexivity|].
  apply (buttons_keep_to_the_pages
           Demo.jwt_verify Demo.jwt_sign Demo.bcrypt_hash Demo.bcrypt_compare
           Demo.isEmail Demo.normalizeEmail Demo.RegExp_i
           (BookListing.mk 1 1)
           [BookListing.ChevronRight; BookListing.ChevronLeft; BookListing.ChevronRight]
           (Demo.listing None "" "All") Demo.fresh
           [Book.toJSON Demo.emma; Book.toJSON Demo.dune] (JInt 1)).
  - reflexivity.
  - cbn. lia.
Defined.

(** Emma is on the first page, and opens. *)
Lemma listed_books_can_be_opened_witness :
  In Demo.emma (books Demo.fresh) /\
  exists b',
    In b' (books Demo.fresh) /\ Book._id b' = Book._id Demo.emma /\
    demo_app GET_books_id (Demo.review_delete 11) Demo.fresh
    = (Demo.fresh, mkResponse 200 (Book.toJSON b')).
Proof.
  apply (listed_books_can_be_opened
           Demo.jwt_verify Demo.jwt_sign Demo.bcrypt_hash Demo.bcrypt_compare
           Demo.isEmail Demo.normalizeEmail Demo.RegExp_i
           (Demo.listing None "" "All") (Demo.review_delete 11) Demo.fresh
           [Book.toJSON Demo.emma; Book.toJSON Demo.dune] (JInt 1) (JInt 1) Demo.emma).
  - reflexivity.
  - left. reflexivity.
  - reflexivity.
Defined.

(** Nobody has written a book that starts with Z. *)
Lemma next_page_of_an_empty_listing_fails_witness :
  let req := Demo.listing None "Z" "All" in
  let st := BookListing.mk 1 0 in
  demo_app GET_books req Demo.fresh
  = (Demo.fresh, mkResponse 200 (JObj [("books", JArr []); ("totalPages", JInt 0);
                                       ("currentPage", JInt 1)])) /\
  BookListing.disabled BookListing.ChevronRight st = false /\
  BookListing.page (BookListing.click st BookListing.ChevronRight) = 0%Z /\
  status (snd (demo_app GET_books
                 (for_page (BookListing.page (BookListing.click st BookListing.ChevronRight))
                           req) Demo.fresh)) = 500.
Proof.
  cbv zeta. split; [reflexivity|].
  apply (next_page_of_an_empty_listing_fails
           Demo.jwt_verify Demo.jwt_sign Demo.bcrypt_hash Demo.bcrypt_compare
           Demo.isEmail Demo.normalizeEmail Demo.RegExp_i
           (Demo.listing None "Z" "All") Demo.fresh 0%Z (JInt 1)).
  - reflexivity.
  - reflexivity.
Defined.

(** A user without a field, as text and back. *)
Lemma login_outlives_the_page_witness :
  let stringify := fun _ : json => "{}" in
  let parse := fun text : string => if text =? "{}" then Some (JObj []) else None in
  let p := AuthContext.mkPayload (JObj []) "alice-token" in
  let after := AuthContext.authReducer stringify (AuthContext.mk JNull None)
                                       (AuthContext.LOGIN p) [("theme", "dark")] in
  snd after = [("user", "{}"); ("token", "alice-token"); ("theme", "dark")] /\
  fst after = AuthContext.mk (JObj []) (Some "alice-token") /\
  AuthContext.initialState parse (snd after) = Some (fst after).
Proof.
  cbv zeta. split; [reflexivity|].
  apply (login_outlives_the_page
           (fun _ : json => "{}")
           (fun text : string => if text =? "{}" then Some (JObj []) else None)
           (AuthContext.mk JNull None)
           (AuthContext.mkPayload (JObj []) "alice-token")
           [("theme", "dark")]).
  - discriminate.
  - reflexivity.
  - discriminate.
Defined.

(** Carol's password has no digit, and the form does not say so. *)
Lemma register_form_hides_the_validation_errors_witness :
  let formData := Register.mk "carol" "carol@example.org" "knitting" "knitting" in
  snd (demo_app POST_auth_register
                (Demo.user_form "carol" "carol@example.org" "knitting") Demo.fresh)
  = mkResponse 400
      (JObj [("errors",
              JArr [validation_error
                      ("password",
                       "Password must be at least 8 characters and contain both letters and numbers")])]) /\
  Register_handleSubmit Demo.jwt_verify Demo.jwt_sign Demo.bcrypt_hash Demo.bcrypt_compare
                        Demo.isEmail Demo.normalizeEmail Demo.RegExp_i
                        formData "203.0.113.7" 5000 "salt" Demo.fresh
  = (Demo.fresh, Register.setError (JStr "Registration failed")).
Proof.
  cbv zeta. split; [reflexivity|].
  apply (register_form_hides_the_validation_errors
           Demo.jwt_verify Demo.jwt_sign Demo.bcrypt_hash Demo.bcrypt_compare
           Demo.isEmail Demo.normalizeEmail Demo.RegExp_i).
  - reflexivity.
  - right. right. right. reflexivity.
Defined.

(** Carol, with a digit this time. *)
Lemma register_form_logs_in_new_users_only_witness :
  let formData := Register.mk " carol " "carol@example.org" "knitting4ever"
                              "knitting4ever" in
  let result :=
    Register_handleSubmit Demo.jwt_verify Demo.jwt_sign Demo.bcrypt_hash
                          Demo.bcrypt_compare Demo.isEmail Demo.normalizeEmail
                          Demo.RegExp_i formData "203.0.113.7" 5000 "salt" Demo.fresh in
  exists payload u,
    snd result = Register.dispatch_LOGIN payload /\
    users (fst result) = users Demo.fresh ++ [u] /\
    User.username u = "carol" /\
    payload = session_body Demo.jwt_sign u.
Proof.
  cbv zeta.
  set (formData := Register.mk " carol " "carol@example.org" "knitting4ever"
                               "knitting4ever").
  set (result :=
         Register_handleSubmit Demo.jwt_verify Demo.jwt_sign Demo.bcrypt_hash
                               Demo.bcrypt_compare Demo.isEmail Demo.normalizeEmail
                               Demo.RegExp_i formData "203.0.113.7" 5000 "salt" Demo.fresh).
  assert (exists payload, result = (fst result, Register.dispatch_LOGIN payload))
    as [payload Hrun] by (eexists; vm_compute; reflexivity).
  destruct (register_form_logs_in_new_users_only
              Demo.jwt_verify Demo.jwt_sign Demo.bcrypt_hash Demo.bcrypt_compare
              Demo.isEmail Demo.normalizeEmail Demo.RegExp_i
              formData "203.0.113.7" 5000 "salt" Demo.fresh (fst result) payload Hrun)
    as (_ & u & Husers & Hname & _ & Hpayload).
  exists payload, u. split; [now rewrite Hrun|].
  split; [exact Husers|]. split; [exact Hname | exact Hpayload].
Defined.
